(** * AGRO_X_CHRONOS: the ARGO ingestion script and the query front-end

    A shallow embedding of [argo_Indian_202303/data.py] (catalog filter,
    file retriever, profile flattener, loader) and of the answer selection of
    [argo_Indian_202303/chatbot.py], with the properties of the repository's
    specification stated and proved over it.

    Conventions.
    - A pandas DataFrame is the list of its rows; a column is the list
      obtained by projecting every row; a boolean mask is a [list bool].
    - A Python [dict] and an [xarray.Dataset] (used as a mapping from
      variable names to arrays) are [gmap string _].
    - A float64 read from the catalog is its exact rational value, an
      infinity, or NaN; comparisons with NaN are false, as in numpy.
    - Code that can raise returns [res]; an exception that the script
      catches is handled where the script handles it, an exception that it
      lets escape ends the run.
    - A string is the list of its bytes, and every cell of the column
      [file] of the catalog holds one. The functions of [urllib.parse] are
      followed step by step where the library returns; where it raises
      [ValueError] (a host part with ill-formed brackets or with characters
      outside ASCII) they return the parts as they stand. Statements that
      depend on the form of a URL are made for plain paths, for which the
      library does not raise. *)

From Stdlib Require Import QArith Ascii String.
From Stdlib.Strings Require Import Byte.
From stdpp Require Import gmap strings list fin_maps pretty.

Open Scope Z_scope.

(** ** Python exceptions and the error monad *)

Inductive exn : Type :=
  | KeyError (key : string)
  | IndexError
  | ValueError (msg : string)
  | TypeError (msg : string)
  | OSError (msg : string)
  | FtpError (msg : string)
  | MySQLError (msg : string)
  | SystemExit.

Inductive res (A : Type) : Type :=
  | Ok (a : A)
  | Raise (e : exn).
Arguments Ok {A} a.
Arguments Raise {A} e.

Definition bind {A B} (m : res A) (k : A -> res B) : res B :=
  match m with
  | Ok a => k a
  | Raise e => Raise e
  end.

Notation "x <- m ;; k" := (bind m (fun x => k))
  (at level 100, m at next level, right associativity).

Definition is_Ok {A} (m : res A) : bool :=
  match m with Ok _ => true | Raise _ => false end.

(** [for x in l: s = body x s], for code that does not touch the world. *)
Fixpoint for_res {A S} (l : list A) (body : A -> S -> res S) (s : S) : res S :=
  match l with
  | [] => Ok s
  | x :: l' => s' <- body x s ;; for_res l' body s'
  end.

(** ** Cell values shared by the catalog and the profile files *)

(** A float64: its exact rational value, an infinity, or NaN. *)
Inductive float64 : Type :=
  | NaN
  | Inf (negative : bool)
  | Fin (q : Q).

(** A [datetime64] cell: the calendar fields that
    [pd.to_datetime(..., format='%Y%m%d%H%M%S')] has validated, or NaT. *)
Record datetime : Type := mkdatetime
  { year : Z; month : Z; day : Z; hour : Z; minute : Z; second : Z }.

Inductive timestamp : Type :=
  | NaT
  | TS (d : datetime).

Abbreviation bytes := (list Byte.byte).

(** ** Catalog rows and the spatial-temporal filter (data.py, lines 14-17 and 69-76) *)

Module Catalog.

(** One row of [df_index]: the columns the script reads; the remaining
    columns of the index file are carried along in [passthrough]. *)
Record row : Type := mkrow
  { file : string;
    date : timestamp;
    latitude : float64;
    longitude : float64;
    passthrough : list string }.

(** [x >= n] and [x <= n] for a float64 [x] and a Python int [n]. *)
Definition float_ge_int (x : float64) (n : Z) : bool :=
  match x with
  | NaN => false
  | Inf negative => negb negative
  | Fin q => Qle_bool (inject_Z n) q
  end.

Definition float_le_int (x : float64) (n : Z) : bool :=
  match x with
  | NaN => false
  | Inf negative => negative
  | Fin q => Qle_bool q (inject_Z n)
  end.

(** Comparison of calendar fields, most significant first. *)
Fixpoint lex_leb (a b : list Z) : bool :=
  match a, b with
  | x :: a', y :: b' => (x <? y) || ((x =? y) && lex_leb a' b')
  | _, _ => true
  end.

Definition fields (d : datetime) : list Z :=
  [year d; month d; day d; hour d; minute d; second d].

Definition datetime_leb (a b : datetime) : bool := lex_leb (fields a) (fields b).

(** Reading a bound written as ["YYYY-MM-DD"]: pandas turns the string
    into the timestamp of that day at 00:00:00 before comparing. *)
Definition digit (c : ascii) : option Z :=
  let n := Z.of_N (N_of_ascii c) in
  if (48 <=? n) && (n <=? 57) then Some (n - 48) else None.

Fixpoint number (acc : Z) (s : list ascii) : option Z :=
  match s with
  | [] => Some acc
  | c :: s' => match digit c with
               | Some d => number (10 * acc + d) s'
               | None => None
               end
  end.

Definition parse_date (s : string) : option datetime :=
  match list_ascii_of_string s with
  | [y1; y2; y3; y4; d1; m1; m2; d2; a1; a2] =>
      if (Ascii.eqb d1 "-") && (Ascii.eqb d2 "-") then
        match number 0 [y1; y2; y3; y4], number 0 [m1; m2], number 0 [a1; a2] with
        | Some y, Some m, Some a => Some (mkdatetime y m a 0 0 0)
        | _, _, _ => None
        end
      else None
  | _ => None
  end.

(** [series >= bound] and [series <= bound] on the date column. *)
Definition ts_ge (t : timestamp) (b : datetime) : bool :=
  match t with NaT => false | TS d => datetime_leb b d end.

Definition ts_le (t : timestamp) (b : datetime) : bool :=
  match t with NaT => false | TS d => datetime_leb d b end.

(** The parameters of the script. *)
Definition lat_min : Z := -5.
Definition lat_max : Z := 5.
Definition lon_min : Z := 60.
Definition lon_max : Z := 80.
Definition start_date : string := "2023-03-01".
Definition end_date : string := "2023-03-31".

(** Element-wise [&] of two boolean series of one index. *)
Fixpoint series_and (a b : list bool) : list bool :=
  match a, b with
  | x :: a', y :: b' => (x && y) :: series_and a' b'
  | _, _ => []
  end.

(** Boolean indexing [df[mask]]: the rows whose mask entry is true. *)
Fixpoint bool_index {A} (df : list A) (mask : list bool) : list A :=
  match df, mask with
  | r :: df', b :: mask' =>
      if b then r :: bool_index df' mask' else bool_index df' mask'
  | _, _ => []
  end.

Section Window.

Variables (lat_lo lat_hi lon_lo lon_hi : Z) (date_lo date_hi : datetime).

(** The mask of lines 72-74: six comparison series joined by [&]. *)
Definition mask (df : list row) : list bool :=
  series_and
    (series_and
       (series_and
          (series_and
             (series_and
                (map (fun x => float_ge_int x lat_lo) (map latitude df))
                (map (fun x => float_le_int x lat_hi) (map latitude df)))
             (map (fun x => float_ge_int x lon_lo) (map longitude df)))
          (map (fun x => float_le_int x lon_hi) (map longitude df)))
       (map (fun t => ts_ge t date_lo) (map date df)))
    (map (fun t => ts_le t date_hi) (map date df)).

Definition select (df : list row) : list row := bool_index df (mask df).

(** The six comparisons, read along one row. *)
Definition row_mask (r : row) : bool :=
  float_ge_int (latitude r) lat_lo && float_le_int (latitude r) lat_hi &&
  float_ge_int (longitude r) lon_lo && float_le_int (longitude r) lon_hi &&
  ts_ge (date r) date_lo && ts_le (date r) date_hi.

End Window.

(** [filtered], with the script's parameters; a bound that pandas cannot
    read as a date makes the comparison raise. *)
Definition filtered (df_index : list row) : res (list row) :=
  match parse_date start_date, parse_date end_date with
  | Some lo, Some hi => Ok (select lat_min lat_max lon_min lon_max lo hi df_index)
  | _, _ => Raise (ValueError "date bound")
  end.

(** The property of a row the specification describes. *)
Definition float_in (x : float64) (lo hi : Z) : Prop :=
  match x with
  | Fin q => (inject_Z lo <= q)%Q /\ (q <= inject_Z hi)%Q
  | _ => False
  end.

Definition ts_in (t : timestamp) (lo hi : datetime) : Prop :=
  match t with
  | TS d => datetime_leb lo d = true /\ datetime_leb d hi = true
  | NaT => False
  end.

Definition in_window (lat_lo lat_hi lon_lo lon_hi : Z) (date_lo date_hi : datetime)
    (r : row) : Prop :=
  float_in (latitude r) lat_lo lat_hi /\
  float_in (longitude r) lon_lo lon_hi /\
  ts_in (date r) date_lo date_hi.

(** The fourteen-digit number [YYYYMMDDHHMMSS] under which the catalog
    file writes a date. *)
Definition stamp (d : datetime) : Z :=
  ((((year d * 100 + month d) * 100 + day d) * 100 + hour d) * 100 + minute d) * 100
  + second d.

(** The fields of a timestamp are those of a calendar date and a time of
    day, as [pd.to_datetime] has checked. *)
Definition calendar (d : datetime) : Prop :=
  1 <= month d <= 12 /\ 1 <= day d <= 31 /\
  0 <= hour d <= 23 /\ 0 <= minute d <= 59 /\ 0 <= second d <= 59.

(** The date of a row lies between two instants, in the order of time. *)
Definition date_between (t : timestamp) (lo hi : datetime) : Prop :=
  match t with
  | TS d => stamp lo <= stamp d <= stamp hi
  | NaT => False
  end.

(** The window of the specification: position between the bounds and
    date between the two instants, all bounds included. *)
Definition within (lat_lo lat_hi lon_lo lon_hi : Z) (date_lo date_hi : datetime)
    (r : row) : Prop :=
  float_in (latitude r) lat_lo lat_hi /\
  float_in (longitude r) lon_lo lon_hi /\
  date_between (date r) date_lo date_hi.

End Catalog.

(** ** Paths and URLs (os.path and urllib.parse, POSIX conventions) *)

Module Path.

Fixpoint has_slash (s : string) : bool :=
  match s with
  | EmptyString => false
  | String c s' => Ascii.eqb c "/" || has_slash s'
  end.

(** [os.path.basename]: what follows the last ['/']. *)
Fixpoint basename (s : string) : string :=
  match s with
  | EmptyString => EmptyString
  | String c s' =>
      if has_slash s' then basename s'
      else if Ascii.eqb c "/" then s' else String c s'
  end.

(** The part up to and including the last ['/']. *)
Fixpoint head (s : string) : string :=
  match s with
  | EmptyString => EmptyString
  | String c s' =>
      if has_slash s' then String c (head s')
      else if Ascii.eqb c "/" then "/" else EmptyString
  end.

Fixpoint lstrip_slash (s : string) : string :=
  match s with
  | String c s' => if Ascii.eqb c "/" then lstrip_slash s' else s
  | EmptyString => EmptyString
  end.

Fixpoint rstrip_slash (s : string) : string :=
  match s with
  | EmptyString => EmptyString
  | String c s' =>
      match rstrip_slash s' with
      | EmptyString => if Ascii.eqb c "/" then EmptyString else String c EmptyString
      | t => String c t
      end
  end.

(** [os.path.dirname]: the head without its trailing slashes, unless the
    head consists of slashes only. *)
Definition dirname (s : string) : string :=
  let h := head s in
  match rstrip_slash h with
  | EmptyString => h
  | t => t
  end.

(** [os.path.join(a, b)] for a non-empty [a] without trailing slash. *)
Definition join (a b : string) : string :=
  match b with
  | String "/" _ => b
  | _ => a +:+ "/" +:+ b
  end.

(** *** urllib.parse

    [urlsplit], [urlparse], [urlunparse] and [urljoin] as the library
    defines them, on strings of bytes. The library raises [ValueError]
    for a host part with unbalanced or ill-filled square brackets, or
    with characters outside ASCII that normalise to a delimiter; these
    functions have no such case and parse the host part as it stands. *)

Fixpoint all_chars (f : ascii -> bool) (s : string) : bool :=
  match s with
  | EmptyString => true
  | String c s' => f c && all_chars f s'
  end.

(** The part before the first character on which [p] holds, and the
    rest from that character on. *)
Fixpoint break_at (p : ascii -> bool) (s : string) : string * string :=
  match s with
  | EmptyString => (EmptyString, EmptyString)
  | String c s' =>
      if p c then (EmptyString, s)
      else let '(a, b) := break_at p s' in (String c a, b)
  end.

(** [a, b = s.split(c, 1)] when [c] occurs in [s], and [(s, '')]
    otherwise. *)
Definition split_first (c : ascii) (s : string) : string * string :=
  match break_at (Ascii.eqb c) s with
  | (a, String _ b) => (a, b)
  | (a, EmptyString) => (a, EmptyString)
  end.

(** [s.split('/')] *)
Fixpoint split_slash (s : string) : list string :=
  match s with
  | EmptyString => [EmptyString]
  | String c s' =>
      match split_slash s' with
      | seg :: segs => if Ascii.eqb c "/" then EmptyString :: seg :: segs
                       else String c seg :: segs
      | [] => [String c EmptyString]
      end
  end.

(** ['/'.join(segs)] *)
Fixpoint join_slash (segs : list string) : string :=
  match segs with
  | [] => EmptyString
  | [seg] => seg
  | seg :: rest => seg +:+ "/" +:+ join_slash rest
  end.

Definition is_upper (c : ascii) : bool :=
  let n := nat_of_ascii c in ((65 <=? n) && (n <=? 90))%nat.
Definition is_lower (c : ascii) : bool :=
  let n := nat_of_ascii c in ((97 <=? n) && (n <=? 122))%nat.
Definition is_digit (c : ascii) : bool :=
  let n := nat_of_ascii c in ((48 <=? n) && (n <=? 57))%nat.
Definition is_alpha (c : ascii) : bool := is_upper c || is_lower c.

(** [scheme_chars]: letters, digits, ['+'], ['-'] and ['.']. *)
Definition scheme_char (c : ascii) : bool :=
  is_alpha c || is_digit c
  || Ascii.eqb c "+" || Ascii.eqb c "-" || Ascii.eqb c ".".

Definition to_lower (c : ascii) : ascii :=
  if is_upper c then ascii_of_nat (nat_of_ascii c + 32) else c.

Fixpoint lower (s : string) : string :=
  match s with
  | EmptyString => EmptyString
  | String c s' => String (to_lower c) (lower s')
  end.

(** [url.lstrip(_WHATWG_C0_CONTROL_OR_SPACE)]: leading characters up to
    the space go. *)
Fixpoint lstrip_c0 (s : string) : string :=
  match s with
  | String c s' => if (nat_of_ascii c <=? 32)%nat then lstrip_c0 s' else s
  | EmptyString => EmptyString
  end.

(** Tabs, carriage returns and line feeds go wherever they stand. *)
Definition unsafe_char (c : ascii) : bool :=
  let n := nat_of_ascii c in ((n =? 9) || (n =? 13) || (n =? 10))%nat.

Fixpoint remove_unsafe (s : string) : string :=
  match s with
  | EmptyString => EmptyString
  | String c s' =>
      if unsafe_char c then remove_unsafe s' else String c (remove_unsafe s')
  end.

Definition one_of (names : list string) (s : string) : bool :=
  existsb (String.eqb s) names.

Definition uses_relative : list string :=
  [""; "ftp"; "http"; "gopher"; "nntp"; "imap"; "wais"; "file"; "https"; "shttp";
   "mms"; "prospero"; "rtsp"; "rtspu"; "sftp"; "svn"; "svn+ssh"; "ws"; "wss"].

Definition uses_netloc : list string :=
  [""; "ftp"; "http"; "gopher"; "nntp"; "telnet"; "imap"; "wais"; "file"; "mms";
   "https"; "shttp"; "snews"; "prospero"; "rtsp"; "rtspu"; "rsync"; "svn";
   "svn+ssh"; "sftp"; "nfs"; "git"; "git+ssh"; "ws"; "wss"].

Definition uses_params : list string :=
  [""; "ftp"; "hdl"; "prospero"; "http"; "imap"; "https"; "shttp"; "rtsp"; "rtspu";
   "sip"; "sips"; "mms"; "sftp"; "tel"].

Record parsed : Type := mkparsed
  { scheme : string; netloc : string; path : string;
    params : string; query : string; fragment : string }.

(** The scheme of a URL and what follows its colon, when the URL starts
    with a letter and has only scheme characters before its first
    colon. *)
Definition split_scheme (url : string) : option (string * string) :=
  match break_at (Ascii.eqb ":") url with
  | (String c name, String _ rest) =>
      if is_alpha c && all_chars scheme_char (String c name)
      then Some (lower (String c name), rest)
      else None
  | _ => None
  end.

(** [_splitnetloc(url, 2)] for a URL that starts with two slashes: the
    host part ends before the first ['/'], ['?'] or ['#']. *)
Definition netloc_end (c : ascii) : bool :=
  Ascii.eqb c "/" || Ascii.eqb c "?" || Ascii.eqb c "#".

Definition split_netloc (url : string) : string * string :=
  match url with
  | String "/" (String "/" rest) => break_at netloc_end rest
  | _ => (EmptyString, url)
  end.

(** [_splitparams]: the parameters follow the first [';'] of the last
    segment of the path. *)
Definition splitparams (url : string) : string * string :=
  if has_slash url then
    let '(a, b) := split_first ";" (basename url) in (head url +:+ a, b)
  else split_first ";" url.

(** [urlparse(url, scheme)], with the fragment split off; [default] is a
    scheme as the library itself passes it, empty or already parsed. *)
Definition urlparse (url default : string) : parsed :=
  let url := remove_unsafe (lstrip_c0 url) in
  let '(scheme, url) :=
    match split_scheme url with
    | Some (name, rest) => (name, rest)
    | None => (default, url)
    end in
  let '(netloc, url) := split_netloc url in
  let '(url, fragment) := split_first "#" url in
  let '(url, query) := split_first "?" url in
  let '(url, params) :=
    if one_of uses_params scheme then splitparams url else (url, EmptyString) in
  mkparsed scheme netloc url params query fragment.

Definition nonempty (s : string) : bool :=
  match s with EmptyString => false | _ => true end.

Definition starts_with_slash (s : string) : bool :=
  match s with String "/" _ => true | _ => false end.

Definition starts_with_two_slashes (s : string) : bool :=
  match s with String "/" (String "/" _) => true | _ => false end.

Definition urlunparse (u : parsed) : string :=
  let url := if nonempty (params u) then path u +:+ ";" +:+ params u else path u in
  let url :=
    if nonempty (netloc u)
       || (nonempty (scheme u) && one_of uses_netloc (scheme u)
           && negb (starts_with_two_slashes url))
    then "//" +:+ netloc u
         +:+ (if nonempty url && negb (starts_with_slash url) then "/" +:+ url else url)
    else url in
  let url := if nonempty (scheme u) then scheme u +:+ ":" +:+ url else url in
  let url := if nonempty (query u) then url +:+ "?" +:+ query u else url in
  if nonempty (fragment u) then url +:+ "#" +:+ fragment u else url.

(** [segments[1:-1] = filter(None, segments[1:-1])] *)
Definition drop_inner_empty (segments : list string) : list string :=
  match segments with
  | first :: (_ :: _) as rest =>
      first :: List.filter nonempty (removelast rest) ++ [List.last rest EmptyString]
  | _ => segments
  end.

(** The loop over the segments: [".."] pops, ["."] is skipped. *)
Fixpoint resolve (segments resolved_path : list string) : list string :=
  match segments with
  | [] => resolved_path
  | seg :: rest =>
      if String.eqb seg ".." then resolve rest (removelast resolved_path)
      else if String.eqb seg "." then resolve rest resolved_path
      else resolve rest (resolved_path ++ [seg])
  end.

Definition dot_segment (seg : string) : bool :=
  String.eqb seg "." || String.eqb seg "..".

(** [urljoin(base, url)] *)
Definition urljoin (base url : string) : string :=
  if negb (nonempty base) then url
  else if negb (nonempty url) then base
  else
    let b := urlparse base EmptyString in
    let u := urlparse url (scheme b) in
    if negb (String.eqb (scheme u) (scheme b)) || negb (one_of uses_relative (scheme u))
    then url
    else if one_of uses_netloc (scheme u) && nonempty (netloc u)
    then urlunparse u
    else
      let netloc' := if one_of uses_netloc (scheme u) then netloc b else netloc u in
      if negb (nonempty (path u)) && negb (nonempty (params u))
      then urlunparse
             (mkparsed (scheme u) netloc' (path b) (params b)
                (if nonempty (query u) then query u else query b) (fragment u))
      else
        let base_parts :=
          let parts := split_slash (path b) in
          if nonempty (List.last parts EmptyString) then removelast parts else parts in
        let segments :=
          if starts_with_slash (path u) then split_slash (path u)
          else drop_inner_empty (base_parts ++ split_slash (path u)) in
        let resolved_path :=
          resolve segments []
          ++ (if dot_segment (List.last segments EmptyString) then [EmptyString] else []) in
        let joined := join_slash resolved_path in
        urlunparse
          (mkparsed (scheme u) netloc'
             (if nonempty joined then joined else "/")
             (params u) (query u) (fragment u)).

Arguments urlparse : simpl never.
Arguments urljoin : simpl never.

(** Letters, digits, underscore, hyphen and dot. *)
Definition name_char (c : ascii) : bool :=
  is_alpha c || is_digit c
  || Ascii.eqb c "_" || Ascii.eqb c "-" || Ascii.eqb c ".".

Definition name_segment (seg : string) : bool :=
  all_chars name_char seg && nonempty seg && negb (dot_segment seg).

(** A character of a plain path: a name character or the slash. *)
Definition path_char (c : ascii) : bool := name_char c || Ascii.eqb c "/".

(** A plain relative path, as the paths of the index are
    ([dac/float/profiles/R_float_cycle.nc]): names of letters, digits,
    underscores, hyphens and dots, none empty and none a dot segment,
    separated by single slashes. *)
Definition plain (s : string) : bool := forallb name_segment (split_slash s).

End Path.

(** ** The world of the script: local files, console, remote server, database *)

Inductive node : Type :=
  | File (content : bytes)
  | Dir.

(** One attempt to reach the file server: host, directory, file name. *)
Record ftp_request : Type := mkreq
  { req_host : string; req_dir : string; req_name : string }.

(** What the file server does with a request. *)
Inductive ftp_reply : Type :=
  | NoSession (msg : string)
      (** connecting, logging in or changing directory raises *)
  | RetrAborted (sent : bytes) (msg : string)
      (** [RETR] raises after [sent] was handed to the callback *)
  | RetrComplete (content : bytes).

(** A table of the relational store: committed rows with their synthetic
    identifier, and the next identifier. *)
Record table : Type := mktable
  { trows : list (Z * list bytes); auto_increment : Z }.

Record world : Type := mkworld
  { fs : gmap string node;
    stdout : list string;
    ftp_log : list ftp_request;
    db : gmap string table }.

Definition set_fs (f : gmap string node -> gmap string node) (w : world) : world :=
  mkworld (f (fs w)) (stdout w) (ftp_log w) (db w).

Definition set_db (f : gmap string table -> gmap string table) (w : world) : world :=
  mkworld (fs w) (stdout w) (ftp_log w) (f (db w)).

(** Computations that read and change the world and may raise; what was
    done before an exception stays done. *)
Definition M (A : Type) : Type := world -> res A * world.

Definition ret {A} (a : A) : M A := fun w => (Ok a, w).

Definition raise {A} (e : exn) : M A := fun w => (Raise e, w).

Definition mbind {A B} (m : M A) (k : A -> M B) : M B :=
  fun w => match m w with
           | (Ok a, w') => k a w'
           | (Raise e, w') => (Raise e, w')
           end.

Notation "x <~ m ;; k" := (mbind m (fun x => k))
  (at level 100, m at next level, right associativity).
Notation "m ;;; k" := (mbind m (fun _ => k))
  (at level 100, right associativity).

(** [try: m  except Exception as e: h e]; [SystemExit] is not an
    [Exception] and passes through. *)
Definition try_except {A} (m : M A) (h : exn -> M A) : M A :=
  fun w => match m w with
           | (Ok a, w') => (Ok a, w')
           | (Raise SystemExit, w') => (Raise SystemExit, w')
           | (Raise e, w') => h e w'
           end.

Definition lift {A} (r : res A) : M A := fun w => (r, w).

Definition print (line : string) : M unit :=
  fun w => (Ok tt, mkworld (fs w) (stdout w ++ [line]) (ftp_log w) (db w)).

Definition exn_text (e : exn) : string :=
  match e with
  | KeyError k => k
  | IndexError => "index out of range"
  | ValueError m => m
  | TypeError m => m
  | OSError m => m
  | FtpError m => m
  | MySQLError m => m
  | SystemExit => EmptyString
  end.

(** [for x in l: s = body x s] *)
Fixpoint for_each {A S} (l : list A) (body : A -> S -> M S) (s : S) : M S :=
  match l with
  | [] => ret s
  | x :: l' => s' <~ body x s ;; for_each l' body s'
  end.

Definition path_exists (p : string) : M bool :=
  fun w => (Ok (bool_decide (is_Some (fs w !! p))), w).

(** ** The file retriever (data.py, lines 19-45 and 81-96) *)

Module Retriever.

Definition FTP_BASE_URL : string := "ftp://ftp.ifremer.fr/ifremer/argo/".
Definition download_folder : string := "argo_data_downloads".

(** The line printed when a download fails. *)
Definition failure_line (file_url msg : string) : string :=
  "  -> FTP Download Failed for " +:+ file_url +:+ ": " +:+ msg.

(** The folder of a path is a directory; a path without folder part lies
    in the working directory. *)
Definition parent_is_dir (w : world) (path : string) : bool :=
  match Path.dirname path with
  | EmptyString => true
  | folder => match fs w !! folder with
              | Some Dir => true
              | _ => false
              end
  end.

(** The download folder is there, as line 23 leaves it. *)
Definition folder_ready (w : world) : bool :=
  match fs w !! download_folder with
  | Some Dir => true
  | _ => false
  end.

(** [f.write(data)] on an open file. *)
Definition write (data : bytes) (n : node) : node :=
  match n with
  | File content => File (content ++ data)
  | Dir => Dir
  end.

Section Server.

(** The behaviour of the remote file server during one run. *)
Variable server : ftp_request -> ftp_reply.

(** [FTP(host)], [login()], [cwd(dir)]. *)
Definition ftp_session (rq : ftp_request) : M unit :=
  fun w =>
    let w' := mkworld (fs w) (stdout w) (ftp_log w ++ [rq]) (db w) in
    match server rq with
    | NoSession msg => (Raise (FtpError msg), w')
    | _ => (Ok tt, w')
    end.

(** [open(dest_path, "wb")]: when the folder of the path is a directory
    and the path itself is none, the file is created, or emptied, at once;
    otherwise [open] raises and nothing changes. *)
Definition open_wb (dest_path : string) : M unit :=
  fun w =>
    if parent_is_dir w dest_path then
      match fs w !! dest_path with
      | Some Dir => (Raise (OSError "Is a directory"), w)
      | _ => (Ok tt, set_fs (insert dest_path (File [])) w)
      end
    else (Raise (OSError "No such file or directory"), w).

(** [ftp.retrbinary("RETR name", f.write)]: what the server sends is
    written after what the open file holds, also when the transfer then
    fails. *)
Definition retrbinary (rq : ftp_request) (dest_path : string) : M unit :=
  fun w =>
    match server rq with
    | RetrComplete content =>
        (Ok tt, set_fs (alter (write content) dest_path) w)
    | RetrAborted sent msg =>
        (Raise (FtpError msg), set_fs (alter (write sent) dest_path) w)
    | NoSession msg => (Raise (FtpError msg), w)
    end.

Definition download_file_ftp (file_url dest_path : string) : M bool :=
  try_except
    (let url_parts := Path.urlparse file_url EmptyString in
     let ftp_server := Path.netloc url_parts in
     let ftp_path := Path.lstrip_slash (Path.dirname (Path.path url_parts)) in
     let file_name := Path.basename (Path.path url_parts) in
     let rq := mkreq ftp_server ftp_path file_name in
     ftp_session rq ;;;
     open_wb dest_path ;;;
     retrbinary rq dest_path ;;;
     ret true)
    (fun e =>
       print (failure_line file_url (exn_text e)) ;;;
       ret false).

Definition dest_of (r : Catalog.row) : string :=
  Path.join download_folder (Path.basename (Catalog.file r)).

Definition url_of (r : Catalog.row) : string :=
  Path.urljoin FTP_BASE_URL (Catalog.file r).

(** The request [download_file_ftp] makes for a URL. *)
Definition request_of (file_url : string) : ftp_request :=
  let url_parts := Path.urlparse file_url EmptyString in
  mkreq (Path.netloc url_parts)
        (Path.lstrip_slash (Path.dirname (Path.path url_parts)))
        (Path.basename (Path.path url_parts)).

(** The server would deliver the whole file of an entry. *)
Definition delivers (r : Catalog.row) : bool :=
  match server (request_of (url_of r)) with
  | RetrComplete _ => true
  | _ => false
  end.

(** The destination of an entry is there, as a file or as a directory. *)
Definition present (w : world) (r : Catalog.row) : bool :=
  bool_decide (is_Some (fs w !! dest_of r)).

(** The body of the loop of lines 82-96. *)
Definition retrieve (row : Catalog.row) (downloaded_files : list string)
    : M (list string) :=
  let file_path := Catalog.file row in
  let fname := Path.basename file_path in
  let file_url := Path.urljoin FTP_BASE_URL file_path in
  let dest := Path.join download_folder fname in
  present <~ path_exists dest ;;
  if negb present then
    print ("Downloading: " +:+ fname) ;;;
    fetched <~ download_file_ftp file_url dest ;;
    if fetched then ret (downloaded_files ++ [dest]) else ret downloaded_files
  else
    print ("Already exists: " +:+ fname) ;;;
    ret (downloaded_files ++ [dest]).

Definition downloaded_files (filtered : list Catalog.row) : M (list string) :=
  for_each filtered retrieve [].

End Server.

End Retriever.

(** ** The profile flattener (data.py, lines 101-129) *)

Module Flattener.

(** The cells of the arrays of a profile file. *)
Inductive cell : Type :=
  | CFloat (x : float64)
  | CBytes (b : bytes)
  | CTime (t : timestamp).

Inductive ndarray : Type :=
  | Scalar (c : cell)
  | Vector (l : list cell)
  | Matrix (l : list (list cell)).

(** An opened dataset: the sizes of its dimensions and its variables. *)
Record dataset : Type := mkdataset
  { dims : gmap string nat;
    variables : gmap string ndarray }.

(** The values of a record, a Python [dict] keyed by column name. *)
Inductive pyval : Type :=
  | PStr (s : string)
  | PTime (t : timestamp)
  | PFloat (x : float64).

Abbreviation dict := (gmap string pyval).

(** [ds[name]] and [ds.dims[name]] *)
Definition getitem (ds : dataset) (name : string) : res ndarray :=
  match variables ds !! name with
  | Some a => Ok a
  | None => Raise (KeyError name)
  end.

Definition dim (ds : dataset) (name : string) : res nat :=
  match dims ds !! name with
  | Some n => Ok n
  | None => Raise (KeyError name)
  end.

(** [a.item()]: the only element of an array of size one. *)
Definition item (a : ndarray) : res cell :=
  match a with
  | Scalar c | Vector [c] | Matrix [[c]] => Ok c
  | _ => Raise (ValueError "can only convert an array of size 1 to a Python scalar")
  end.

(** [a[i]] as an element; the script applies it to arrays that a profile
    file holds with one dimension, other shapes are taken to raise. *)
Definition index1 (a : ndarray) (i : nat) : res cell :=
  match a with
  | Vector l => match l !! i with
                | Some c => Ok c
                | None => Raise IndexError
                end
  | Scalar _ => Raise IndexError
  | Matrix _ => Raise (TypeError "only length-1 arrays can be converted")
  end.

(** [a[i, j]] *)
Definition index2 (a : ndarray) (i j : nat) : res cell :=
  match a with
  | Matrix rows => match rows !! i with
                   | Some r => match r !! j with
                               | Some c => Ok c
                               | None => Raise IndexError
                               end
                   | None => Raise IndexError
                   end
  | _ => Raise IndexError
  end.

Definition byte_1 : bytes := [Byte.x31].
Definition byte_2 : bytes := [Byte.x32].

Fixpoint bytes_eqb (a b : bytes) : bool :=
  match a, b with
  | [], [] => true
  | x :: a', y :: b' => Byte.eqb x y && bytes_eqb a' b'
  | _, _ => false
  end.

(** [c in [b'1', b'2']] *)
Definition accepted (c : cell) : bool :=
  match c with
  | CBytes b => bytes_eqb b byte_1 || bytes_eqb b byte_2
  | _ => false
  end.

(** [str.lower] on names written in ASCII. *)
Definition lower_ascii (c : ascii) : ascii :=
  let n := N_of_ascii c in
  if ((65 <=? n) && (n <=? 90))%N then ascii_of_N (n + 32) else c.

Fixpoint lower (s : string) : string :=
  match s with
  | EmptyString => EmptyString
  | String c s' => String (lower_ascii c) (lower s')
  end.

Definition default_vars : list string := ["TEMP"; "PSAL"].

(** The quality-control flag of a variable at a (profile, level) pair is
    there and is one of the two accepted codes. *)
Definition passes (ds : dataset) (i j : nat) (var : string) : bool :=
  match variables ds !! (var +:+ "_QC") with
  | Some qc => match index2 qc i j with
               | Ok flag => accepted flag
               | Raise _ => false
               end
  | None => false
  end.

(** The names of the five mandatory fields. *)
Definition mandatory_keys : list string :=
  ["float_id"; "date"; "latitude"; "longitude"; "depth"].

(** A record with the five mandatory fields and at least one, at most
    as many as requested, further fields. *)
Definition well_filled (vars : list string) (r : dict) : Prop :=
  (5 < size r <= 5 + length vars)%nat /\
  forall k, k ∈ mandatory_keys -> is_Some (r !! k).

(** The requested variables give pairwise different column names, none
    of them the name of a mandatory field. *)
Definition distinct_columns (vars : list string) : Prop :=
  NoDup (map lower vars) /\ forall var, var ∈ vars -> lower var ∉ mandatory_keys.

Section Python.

(** Conversions of the Python run-time and of pandas. *)
Variable py_str : cell -> string.
Variable py_float : cell -> res float64.
Variable to_datetime : ndarray -> res (list timestamp).

(** [times[i]] *)
Definition time_at (times : list timestamp) (i : nat) : res timestamp :=
  match times !! i with
  | Some t => Ok t
  | None => Raise IndexError
  end.

(** [float(ds[var].values[i, j])] *)
Definition value_at (ds : dataset) (i j : nat) (var : string) : res float64 :=
  a <- getitem ds var ;;
  c <- index2 a i j ;;
  py_float c.

(** Lines 121-124: one requested variable. *)
Definition keep_var (ds : dataset) (i j : nat) (var : string) (record : dict)
    : res dict :=
  let qc_var := var +:+ "_QC" in
  match variables ds !! qc_var with
  | None => Ok record
  | Some qc =>
      flag <- index2 qc i j ;;
      if accepted flag then
        x <- value_at ds i j var ;;
        Ok (<[lower var := PFloat x]> record)
      else Ok record
  end.

(** Lines 117-120: the five mandatory fields. *)
Definition mandatory (float_id : string) (times : list timestamp)
    (lat lon depth : ndarray) (i j : nat) : res dict :=
  t <- time_at times i ;;
  la <- (c <- index1 lat i ;; py_float c) ;;
  lo <- (c <- index1 lon i ;; py_float c) ;;
  de <- (c <- index2 depth i j ;; py_float c) ;;
  Ok (<["depth" := PFloat de]>
        (<["longitude" := PFloat lo]>
           (<["latitude" := PFloat la]>
              (<["date" := PTime t]>
                 (<["float_id" := PStr float_id]> ∅))))).

(** Lines 117-124: the record of one (profile, level) pair. *)
Definition build_record (ds : dataset) (vars_to_keep : list string)
    (float_id : string) (times : list timestamp) (lat lon depth : ndarray)
    (i j : nat) : res dict :=
  record <- mandatory float_id times lat lon depth i j ;;
  for_res vars_to_keep (keep_var ds i j) record.

(** Lines 117-127: the record is appended to [rows] when it has more
    than the five mandatory fields. *)
Definition level (ds : dataset) (vars_to_keep : list string)
    (float_id : string) (times : list timestamp) (lat lon depth : ndarray)
    (i j : nat) (rows : list dict) : res (list dict) :=
  record <- build_record ds vars_to_keep float_id times lat lon depth i j ;;
  if bool_decide (5 < size record)%nat then Ok (rows ++ [record]) else Ok rows.

(** Lines 108-129, once the dataset is open. *)
Definition flatten (ds : dataset) (vars_to_keep : list string) : res (list dict) :=
  pn <- getitem ds "PLATFORM_NUMBER" ;;
  c <- item pn ;;
  let float_id := py_str c in
  juld <- getitem ds "JULD" ;;
  times <- to_datetime juld ;;
  lat <- getitem ds "LATITUDE" ;;
  lon <- getitem ds "LONGITUDE" ;;
  depth <- getitem ds "PRES" ;;
  n_prof <- dim ds "N_PROF" ;;
  for_res (seq 0 n_prof)
    (fun i rows =>
       n_levels <- dim ds "N_LEVELS" ;;
       for_res (seq 0 n_levels)
         (level ds vars_to_keep float_id times lat lon depth i) rows)
    [].

(** A requested variable can be read at a pair: if its flag array is
    there, the flag can be read, and if the flag is accepted the value
    can be read and converted. *)
Definition readable (ds : dataset) (i j : nat) (var : string) : Prop :=
  match variables ds !! (var +:+ "_QC") with
  | None => True
  | Some qc =>
      exists flag, index2 qc i j = Ok flag /\
        (accepted flag = true -> exists x, value_at ds i j var = Ok x)
  end.

(** The dataset has the two dimensions and the five arrays of a profile
    file, and the mandatory fields can be read at every pair. *)
Definition shaped (ds : dataset) (n_prof n_levels : nat) : Prop :=
  dims ds !! "N_PROF" = Some n_prof /\
  dims ds !! "N_LEVELS" = Some n_levels /\
  exists pn c juld times lat lon depth,
    variables ds !! "PLATFORM_NUMBER" = Some pn /\ item pn = Ok c /\
    variables ds !! "JULD" = Some juld /\ to_datetime juld = Ok times /\
    variables ds !! "LATITUDE" = Some lat /\
    variables ds !! "LONGITUDE" = Some lon /\
    variables ds !! "PRES" = Some depth /\
    forall i j, (i < n_prof)%nat -> (j < n_levels)%nat ->
      exists r, mandatory (py_str c) times lat lon depth i j = Ok r.

(** [xr.open_dataset(nc_path)]: the file is read and decoded. *)
Variable xr_decode : bytes -> res dataset.

Definition open_dataset (nc_path : string) : M dataset :=
  fun w =>
    match fs w !! nc_path with
    | Some (File content) => (xr_decode content, w)
    | Some Dir => (Raise (OSError "Is a directory"), w)
    | None => (Raise (OSError "No such file or directory"), w)
    end.

(** [process_nc_file]; the empty list is the empty DataFrame. *)
Definition process_nc_file (nc_path : string) (vars_to_keep : list string)
    : M (list dict) :=
  opened <~ try_except
              (ds <~ open_dataset nc_path ;; ret (Some ds))
              (fun e =>
                 print ("Error opening " +:+ nc_path +:+ ": " +:+ exn_text e) ;;;
                 ret None) ;;
  match opened with
  | None => ret []
  | Some ds => lift (flatten ds vars_to_keep)
  end.

End Python.

End Flattener.

(** ** Concatenation, the delimited file and the loader (data.py, lines 131-179) *)

Module Loader.

Import Flattener.

Definition csv_path : string := "argo_processed.csv".
Definition table_name : string := "argo_profiles".

(** [rename(columns={old: new})], record by record. *)
Definition rename_key (old new : string) (r : dict) : dict :=
  match r !! old with
  | Some v => <[new := v]> (delete old r)
  | None => r
  end.

Definition rename_columns (r : dict) : dict :=
  rename_key "psal" "salinity" (rename_key "temp" "temperature" r).

(** The column names of a DataFrame built from records. *)
Definition columns (df : list dict) : gset string :=
  foldr (fun r acc => dom r ∪ acc) ∅ df.

Definition shape_text (df : list dict) : string :=
  "(" +:+ pretty (length df) +:+ ", " +:+ pretty (size (columns df)) +:+ ")".

(** [LINES TERMINATED BY '\n']: the lines of a file, a last line without
    terminator included. *)
Fixpoint split_lines (cur : bytes) (content : bytes) : list bytes :=
  match content with
  | [] => match cur with [] => [] | _ => [cur] end
  | b :: rest =>
      if Byte.eqb b Byte.x0a then cur :: split_lines [] rest
      else split_lines (cur ++ [b]) rest
  end.

(** The line printed when the database raises an error. *)
Definition error_line (msg : string) : string :=
  "Error connecting to or loading data into MySQL: " +:+ msg.

(** The statements the script sends to the database server. *)
Inductive sql_step : Type :=
  | Connect
  | CreateTable
  | Truncate
  | LoadData
  | Commit
  | IsConnected
      (** the ping of [conn.is_connected()]: the answer is [False] when
          the ping meets an error *).

(** Rows numbered from the next free identifier. *)
Fixpoint numbered (next : Z) (tuples : list (list bytes)) : list (Z * list bytes) :=
  match tuples with
  | [] => []
  | t :: rest => (next, t) :: numbered (next + 1) rest
  end.

Section Store.

(** [to_csv] of pandas, and how the server splits a line into fields. *)
Variable to_csv : list dict -> bytes.
Variable split_fields : bytes -> list bytes.

(** The failures of the database server: the message of the error a
    step raises, if it raises one. *)
Variable mysql : sql_step -> option string.

Definition step (s : sql_step) : M unit :=
  match mysql s with
  | Some msg => raise (MySQLError msg)
  | None => ret tt
  end.

(** [CREATE TABLE IF NOT EXISTS argo_profiles (...)] *)
Definition create_table : M unit :=
  step CreateTable ;;;
  fun w =>
    (Ok tt,
     set_db (fun d => match d !! table_name with
                      | Some _ => d
                      | None => <[table_name := mktable [] 1]> d
                      end) w).

(** [TRUNCATE TABLE argo_profiles]: every row goes, the counter of the
    synthetic identifier starts again; the statement commits by itself. *)
Definition truncate_table : M unit :=
  step Truncate ;;;
  fun w =>
    match db w !! table_name with
    | Some _ => (Ok tt, set_db (insert table_name (mktable [] 1)) w)
    | None => (Raise (MySQLError "Table does not exist"), w)
    end.

(** The rows [LOAD DATA LOCAL INFILE ... IGNORE 1 ROWS] reads. *)
Definition file_rows (content : bytes) : list (list bytes) :=
  map split_fields (tail (split_lines [] content)).

(** [LOAD DATA LOCAL INFILE]: the rows read from the file are appended
    to the table inside the open transaction; the result is the table
    as the transaction sees it. *)
Definition load_data : M table :=
  step LoadData ;;;
  fun w =>
    match fs w !! csv_path, db w !! table_name with
    | Some (File content), Some t =>
        let new := file_rows content in
        (Ok (mktable (trows t ++ numbered (auto_increment t) new)
                     (auto_increment t + Z.of_nat (length new))), w)
    | Some (File _), None => (Raise (MySQLError "Table does not exist"), w)
    | _, _ => (Raise (MySQLError "File not found"), w)
    end.

(** [conn.commit()] *)
Definition commit (staged : table) : M unit :=
  step Commit ;;;
  fun w => (Ok tt, set_db (insert table_name staged) w).

(** [finally: if 'conn' in locals() and conn.is_connected(): ...]: a
    connection that still answers is closed and the closing line is
    printed; one that does not is left alone and nothing is printed. *)
Definition close_if_connected : M unit :=
  fun w =>
    match mysql IsConnected with
    | None => print "MySQL connection closed." w
    | Some _ => (Ok tt, w)
    end.

(** Lines 152-179. Only [mysql.connector.Error] is caught; what was not
    committed is lost. When [connect] raises, no connection was made and
    the [finally] block does nothing. *)
Definition load_into_mysql : M unit :=
  fun w =>
    match mysql Connect with
    | Some msg =>
        print ("Error connecting to or loading data into MySQL: " +:+ msg) w
    | None =>
        let body :=
          create_table ;;;
          truncate_table ;;;
          print "Cleared existing data from argo_profiles table." ;;;
          staged <~ load_data ;;
          commit staged ;;;
          print ("Successfully loaded " +:+ pretty (length (trows staged))
                 +:+ " rows into MySQL.") in
        let '(r, w1) :=
          match body w with
          | (Raise (MySQLError msg), w') =>
              print ("Error connecting to or loading data into MySQL: " +:+ msg) w'
          | other => other
          end in
        let '(_, w2) := close_if_connected w1 in
        (r, w2)
    end.

Variable py_str : cell -> string.
Variable py_float : cell -> res float64.
Variable to_datetime : ndarray -> res (list timestamp).
Variable xr_decode : bytes -> res dataset.

(** The body of the loop of lines 132-136. *)
Definition collect (fpath : string) (all_rows : list (list dict))
    : M (list (list dict)) :=
  print ("Processing: " +:+ fpath) ;;;
  df <~ process_nc_file py_str py_float to_datetime xr_decode fpath default_vars ;;
  match df with
  | [] => ret all_rows
  | _ => ret (all_rows ++ [df])
  end.

Definition all_rows (downloaded_files : list string) : M (list (list dict)) :=
  for_each downloaded_files collect [].

Definition write_file (path : string) (content : bytes) : M unit :=
  fun w => (Ok tt, set_fs (insert path (File content)) w).

(** Lines 131-179: from the list of local files to the loaded table. *)
Definition process_and_load (downloaded_files : list string) : M unit :=
  rows <~ all_rows downloaded_files ;;
  match rows with
  | [] =>
      print "No data was successfully processed. Exiting." ;;;
      raise SystemExit
  | _ =>
      let combined := map rename_columns (concat rows) in
      print ("Final dataset shape: " +:+ shape_text combined) ;;;
      write_file csv_path (to_csv combined) ;;;
      print ("Processed data saved to " +:+ csv_path) ;;;
      load_into_mysql
  end.

End Store.

End Loader.

(** ** The whole script *)

Module Script.

Definition INDEX_FILE_URL : string :=
  Path.urljoin Retriever.FTP_BASE_URL "ar_index_global_prof.txt.gz".

(** [os.makedirs(folder, exist_ok=True)] *)
Definition makedirs (folder : string) : M unit :=
  fun w =>
    match fs w !! folder with
    | Some (File _) => (Raise (OSError "File exists"), w)
    | Some Dir => (Ok tt, w)
    | None => (Ok tt, set_fs (insert folder Dir) w)
    end.

Section Run.

Variable server : ftp_request -> ftp_reply.
(** Lines 57-64: the catalog as fetched, unzipped and read. *)
Variable read_index : res (list Catalog.row).
(** Line 69: the conversion of the date column. *)
Variable parse_dates : list Catalog.row -> res (list Catalog.row).
Variable to_csv : list Flattener.dict -> bytes.
Variable split_fields : bytes -> list bytes.
Variable mysql : Loader.sql_step -> option string.
Variable py_str : Flattener.cell -> string.
Variable py_float : Flattener.cell -> res float64.
Variable to_datetime : Flattener.ndarray -> res (list timestamp).
Variable xr_decode : bytes -> res Flattener.dataset.

Definition main : M unit :=
  makedirs Retriever.download_folder ;;;
  print ("Fetching global ARGO index via FTP: " +:+ INDEX_FILE_URL) ;;;
  df_index <~ try_except (lift read_index)
                (fun e =>
                   print ("An error occurred during FTP index download: "
                          +:+ exn_text e) ;;;
                   raise SystemExit) ;;
  df_index <~ lift (parse_dates df_index) ;;
  print ("Filtering " +:+ pretty (length df_index) +:+ " total profiles...") ;;;
  filtered <~ lift (Catalog.filtered df_index) ;;
  print ("Found " +:+ pretty (length filtered)
         +:+ " profiles matching your criteria.") ;;;
  downloaded_files <~ Retriever.downloaded_files server filtered ;;
  Loader.process_and_load to_csv split_fields mysql
    py_str py_float to_datetime xr_decode downloaded_files.

End Run.

End Script.

(** ** The query front-end (chatbot.py, lines 52-62) *)

Module Chatbot.

(** What the page shows. *)
Inductive pyobj : Type :=
  | PyNone
  | PyStr (s : string).

Inductive shown : Type :=
  | Spinner (text : string)
  | Write (text : string)
  | Markdown (body : pyobj)
  | Error (text : string).

Definition fallback : string := "Sorry, I couldn't find an answer.".

(** [response.get(key, default)] *)
Definition get (response : gmap string pyobj) (key : string) (default : pyobj) : pyobj :=
  match response !! key with
  | Some v => v
  | None => default
  end.

Section Agent.

(** [agent_executor.invoke({"input": q})]: a mapping, or an exception. *)
Variable invoke : string -> res (gmap string pyobj).

Definition answer_of (response : gmap string pyobj) : pyobj :=
  get response "output" (PyStr fallback).

(** Lines 54-62: how the handling of one question ends and what it adds
    to the page. [except Exception] does not catch [SystemExit], which
    leaves the block with nothing shown but the spinner. *)
Definition ask (user_query : string) : res unit * list shown :=
  match user_query with
  | EmptyString => (Ok tt, [])
  | _ =>
      match invoke user_query with
      | Ok response =>
          let answer := answer_of response in
          (Ok tt, [Spinner "Thinking..."; Write "**Answer:**"; Markdown answer])
      | Raise SystemExit => (Raise SystemExit, [Spinner "Thinking..."])
      | Raise e =>
          (Ok tt,
           [Spinner "Thinking...";
            Error ("An error occurred while processing your query: " +:+ exn_text e)])
      end
  end.

End Agent.

End Chatbot.

(** ** Concrete inputs used to exercise the statements *)

Module Samples.

Open Scope string_scope.

Definition at_noon (d : Z) : timestamp := TS (mkdatetime 2023 3 d 12 0 0).
Definition at_midnight (d : Z) : timestamp := TS (mkdatetime 2023 3 d 0 0 0).

(** The entries of the end-to-end scenario of the specification, one
    entry on the corner of the window, one with undefined position. *)
Definition inside : Catalog.row :=
  Catalog.mkrow "aoml/1901234/profiles/R1901234_001.nc" (at_noon 15)
    (Fin 0) (Fin 70) [].
Definition north : Catalog.row :=
  Catalog.mkrow "aoml/1901234/profiles/R1901234_002.nc" (at_noon 15)
    (Fin 10) (Fin 70) [].
Definition corner : Catalog.row :=
  Catalog.mkrow "coriolis/6902746/profiles/R6902746_010.nc" (at_midnight 31)
    (Fin (-5)) (Fin 80) [].
Definition nowhere : Catalog.row :=
  Catalog.mkrow "coriolis/6902746/profiles/R6902746_011.nc" (at_noon 15)
    NaN (Fin 70) [].
Definition last_day_noon : Catalog.row :=
  Catalog.mkrow "coriolis/6902746/profiles/R6902746_012.nc" (at_noon 31)
    (Fin 0) (Fin 70) [].

Definition catalog : list Catalog.row :=
  [inside; north; corner; nowhere; last_day_noon].

(** An entry inside the box, observed in 1999. *)
Definition long_ago : Catalog.row :=
  Catalog.mkrow "aoml/49001/profiles/R49001_001.nc"
    (TS (mkdatetime 1999 3 15 12 0 0)) (Fin 0) (Fin 70) [].

(** A server that delivers the first file, loses the connection in the
    middle of the second and cannot be reached for the others. *)
Definition flaky (rq : ftp_request) : ftp_reply :=
  if String.eqb (req_name rq) "R1901234_001.nc" then RetrComplete [Byte.x43; Byte.x44]
  else if String.eqb (req_name rq) "R1901234_002.nc" then
    RetrAborted [Byte.x43] "timed out"
  else NoSession "connection refused".

Definition empty_world : world := mkworld ∅ [] [] ∅.

(** Stand-ins for the conversions of Python and pandas. *)
Definition str (c : Flattener.cell) : string :=
  match c with
  | Flattener.CBytes b => string_of_list_byte b
  | _ => ""
  end.

Definition float (c : Flattener.cell) : res float64 :=
  match c with
  | Flattener.CFloat x => Ok x
  | _ => Raise (TypeError "float")
  end.

Definition to_datetime (a : Flattener.ndarray) : res (list timestamp) :=
  match a with
  | Flattener.Vector l =>
      Ok (map (fun c => match c with Flattener.CTime t => t | _ => NaT end) l)
  | _ => Raise (TypeError "to_datetime")
  end.

Definition flag (b : Byte.byte) : Flattener.cell := Flattener.CBytes [b].
Definition num (q : Q) : Flattener.cell := Flattener.CFloat (Fin q).

(** The profile of the specification's example: one profile, two levels;
    at the first level temperature is flagged 4 and salinity 1, at the
    second both are flagged 4. *)
Definition profile : Flattener.dataset :=
  Flattener.mkdataset
    (<["N_PROF" := 1%nat]> (<["N_LEVELS" := 2%nat]> ∅))
    (<["PLATFORM_NUMBER" := Flattener.Vector [Flattener.CBytes [Byte.x31; Byte.x39]]]>
     (<["JULD" := Flattener.Vector [Flattener.CTime (at_noon 15)]]>
     (<["LATITUDE" := Flattener.Vector [num 0]]>
     (<["LONGITUDE" := Flattener.Vector [num 70]]>
     (<["PRES" := Flattener.Matrix [[num 5; num 10]]]>
     (<["TEMP" := Flattener.Matrix [[num 28; num 27]]]>
     (<["TEMP_QC" := Flattener.Matrix [[flag Byte.x34; flag Byte.x34]]]>
     (<["PSAL" := Flattener.Matrix [[num 35; num 36]]]>
     (<["PSAL_QC" := Flattener.Matrix [[flag Byte.x31; flag Byte.x34]]]> ∅))))))))).

(** A file with two profiles: the platform number has two entries. *)
Definition two_profiles : Flattener.dataset :=
  Flattener.mkdataset
    (<["N_PROF" := 2%nat]> (Flattener.dims profile))
    (<["PLATFORM_NUMBER" :=
         Flattener.Vector [Flattener.CBytes [Byte.x31; Byte.x39];
                           Flattener.CBytes [Byte.x31; Byte.x39]]]>
       (Flattener.variables profile)).

(** A file with two profiles of one level each, every array with its
    two profiles, every flag 1. *)
Definition twin : Flattener.dataset :=
  Flattener.mkdataset
    (<["N_PROF" := 2%nat]> (<["N_LEVELS" := 1%nat]> ∅))
    (<["PLATFORM_NUMBER" :=
         Flattener.Vector [Flattener.CBytes [Byte.x31; Byte.x39];
                           Flattener.CBytes [Byte.x31; Byte.x39]]]>
     (<["JULD" := Flattener.Vector [Flattener.CTime (at_noon 15);
                                     Flattener.CTime (at_noon 16)]]>
     (<["LATITUDE" := Flattener.Vector [num 0; num 0]]>
     (<["LONGITUDE" := Flattener.Vector [num 70; num 70]]>
     (<["PRES" := Flattener.Matrix [[num 5]; [num 5]]]>
     (<["TEMP" := Flattener.Matrix [[num 28]; [num 27]]]>
     (<["TEMP_QC" := Flattener.Matrix [[flag Byte.x31]; [flag Byte.x31]]]>
     (<["PSAL" := Flattener.Matrix [[num 35]; [num 36]]]>
     (<["PSAL_QC" := Flattener.Matrix [[flag Byte.x31]; [flag Byte.x31]]]> ∅))))))))).

(** The profile without its pressure array. *)
Definition no_pressure : Flattener.dataset :=
  Flattener.mkdataset (Flattener.dims profile)
    (delete "PRES" (Flattener.variables profile)).

(** The profile with a variable whose lower-cased name is the name of a
    mandatory field, flagged 1 at both levels. *)
Definition with_depth : Flattener.dataset :=
  Flattener.mkdataset (Flattener.dims profile)
    (<["DEPTH" := Flattener.Matrix [[num 5; num 10]]]>
       (<["DEPTH_QC" := Flattener.Matrix [[flag Byte.x31; flag Byte.x31]]]>
          (Flattener.variables profile))).

(** A decoder that rejects the empty file and reads any other file as
    the profile above. *)
Definition decode (content : bytes) : res Flattener.dataset :=
  match content with
  | [] => Raise (ValueError "not a valid NetCDF file")
  | _ => Ok profile
  end.

(** A database that never fails, and a server-side splitter that keeps
    a line as one field. *)
Definition healthy (s : Loader.sql_step) : option string := None.
Definition one_field (line : bytes) : list bytes := [line].

(** A world with a delimited file of a header and two lines, and a table
    that holds three rows of an earlier load. *)
Definition reloaded : world :=
  mkworld
    (<["argo_processed.csv" :=
         File [Byte.x68; Byte.x0a; Byte.x61; Byte.x0a; Byte.x62; Byte.x0a]]> ∅)
    [] []
    (<["argo_profiles" :=
         mktable [(1, [[Byte.x78]]); (2, [[Byte.x79]]); (3, [[Byte.x7a]])] 4]> ∅).

(** Agents of the query front-end: one that answers, one whose response
    has no output entry. *)
Definition answering (q : string) : res (gmap string Chatbot.pyobj) :=
  Ok (<["input" := Chatbot.PyStr q]> (<["output" := Chatbot.PyStr "28.4"]> ∅)).
Definition silent (q : string) : res (gmap string Chatbot.pyobj) :=
  Ok (<["input" := Chatbot.PyStr q]> ∅).

(** The same profile without its flag arrays. *)
Definition unflagged : Flattener.dataset :=
  Flattener.mkdataset (Flattener.dims profile)
    (delete "TEMP_QC" (delete "PSAL_QC" (Flattener.variables profile))).

(** A download folder that already holds the corner profile, as an
    empty file. *)
Definition stocked : world :=
  mkworld (<["argo_data_downloads/R6902746_010.nc" := File []]>
             (<["argo_data_downloads" := Dir]> ∅)) [] [] ∅.

(** The download folder as line 23 creates it, still empty. *)
Definition fresh : world :=
  mkworld (<["argo_data_downloads" := Dir]> ∅) [] [] ∅.

(** A download folder with the empty file of the corner profile and a
    file of two bytes for the first entry. *)
Definition mixed : world :=
  mkworld (<["argo_data_downloads/R1901234_001.nc" := File [Byte.x43; Byte.x44]]>
             (fs stocked)) [] [] ∅.

(** The table of each of the two files of [mixed]: none for the file that
    does not open, the records of the profile for the other. *)
Definition table_of (path : string) : list Flattener.dict :=
  if String.eqb path "argo_data_downloads/R1901234_001.nc" then
    match Flattener.flatten str float to_datetime profile Flattener.default_vars with
    | Ok rows => rows
    | Raise _ => []
    end
  else [].

End Samples.

(** * Properties *)

(** ** The spatial-temporal filter *)

Section FilterFacts.

Import Catalog.

Variables (lat_lo lat_hi lon_lo lon_hi : Z) (date_lo date_hi : datetime).

Lemma mask_rowwise (df : list row) :
  mask lat_lo lat_hi lon_lo lon_hi date_lo date_hi df
  = map (row_mask lat_lo lat_hi lon_lo lon_hi date_lo date_hi) df.
Proof.
  unfold mask.
  induction df as [|r df IH]; [reflexivity|].
  cbn [map series_and]. rewrite IH. reflexivity.
Qed.

Lemma bool_index_map {A} (f : A -> bool) (l : list A) :
  bool_index l (map f l) = List.filter f l.
Proof.
  induction l as [|x l IH]; [reflexivity|].
  cbn. rewrite IH. reflexivity.
Qed.

Lemma select_rowwise (df : list row) :
  select lat_lo lat_hi lon_lo lon_hi date_lo date_hi df
  = List.filter (row_mask lat_lo lat_hi lon_lo lon_hi date_lo date_hi) df.
Proof. unfold select. rewrite mask_rowwise. apply bool_index_map. Qed.

Lemma float_in_reflect (x : float64) (lo hi : Z) :
  float_ge_int x lo && float_le_int x hi = true <-> float_in x lo hi.
Proof.
  destruct x as [|[]|q]; cbn; try (split; [discriminate|tauto]).
  rewrite andb_true_iff, !Qle_bool_iff. reflexivity.
Qed.

Lemma ts_in_reflect (t : timestamp) (lo hi : datetime) :
  ts_ge t lo && ts_le t hi = true <-> ts_in t lo hi.
Proof.
  destruct t as [|d]; cbn; [split; [discriminate|tauto]|].
  apply andb_true_iff.
Qed.

Lemma row_mask_reflect (r : row) :
  row_mask lat_lo lat_hi lon_lo lon_hi date_lo date_hi r = true <->
  in_window lat_lo lat_hi lon_lo lon_hi date_lo date_hi r.
Proof.
  unfold row_mask, in_window.
  rewrite <- !float_in_reflect, <- ts_in_reflect.
  rewrite !andb_true_iff. tauto.
Qed.

End FilterFacts.

(** The comparison of the calendar fields is the order of time: for
    fields of a calendar date and a time of day it agrees with the order
    of the fourteen-digit stamps. *)
Lemma datetime_leb_stamp (a b : datetime) :
  Catalog.calendar a -> Catalog.calendar b ->
  Catalog.datetime_leb a b = true <-> Catalog.stamp a <= Catalog.stamp b.
Proof.
  unfold Catalog.calendar, Catalog.datetime_leb, Catalog.fields, Catalog.stamp.
  destruct a as [ya ma da ha na sa], b as [yb mb db hb nb sb]. cbn.
  intros Ha Hb.
  rewrite !orb_true_iff, !andb_true_iff, !Z.ltb_lt, !Z.eqb_eq.
  lia.
Qed.

Lemma within_in_window lat_lo lat_hi lon_lo lon_hi (date_lo date_hi : datetime)
    (r : Catalog.row) :
  Catalog.calendar date_lo -> Catalog.calendar date_hi ->
  (forall d, Catalog.date r = TS d -> Catalog.calendar d) ->
  Catalog.in_window lat_lo lat_hi lon_lo lon_hi date_lo date_hi r <->
  Catalog.within lat_lo lat_hi lon_lo lon_hi date_lo date_hi r.
Proof.
  intros Hlo Hhi Hr. unfold Catalog.in_window, Catalog.within.
  enough (Catalog.ts_in (Catalog.date r) date_lo date_hi <->
          Catalog.date_between (Catalog.date r) date_lo date_hi) as -> by reflexivity.
  unfold Catalog.ts_in, Catalog.date_between.
  destruct (Catalog.date r) as [|d]; [reflexivity|].
  specialize (Hr d eq_refl).
  now rewrite !datetime_leb_stamp.
Qed.

(** C2. For catalog dates and bounds that are calendar dates with a time
    of day, the filter selects a row exactly when its latitude and its
    longitude lie between their bounds and its date lies, in the order of
    time, between the two date bounds, the six bounds included and the
    three conditions joined by "and"; the selected rows keep the order of
    the catalog; when no row matches the result is the empty table, not an
    error; and [filtered] is this selection at the parameters of the
    script, the two date bounds read as the first instant of their day. *)
Theorem filter_selects_window (df : list Catalog.row) :
  (forall lat_lo lat_hi lon_lo lon_hi date_lo date_hi,
     Catalog.calendar date_lo -> Catalog.calendar date_hi ->
     (forall r d, r ∈ df -> Catalog.date r = TS d -> Catalog.calendar d) ->
     let selected := Catalog.select lat_lo lat_hi lon_lo lon_hi date_lo date_hi df in
     (forall r, r ∈ selected <->
        r ∈ df /\ Catalog.within lat_lo lat_hi lon_lo lon_hi date_lo date_hi r) /\
     sublist selected df /\
     ((forall r, r ∈ df ->
         ~ Catalog.within lat_lo lat_hi lon_lo lon_hi date_lo date_hi r) ->
      selected = [])) /\
  Catalog.filtered df =
    Ok (Catalog.select Catalog.lat_min Catalog.lat_max Catalog.lon_min Catalog.lon_max
          (mkdatetime 2023 3 1 0 0 0) (mkdatetime 2023 3 31 0 0 0) df).
Proof.
  split; [|reflexivity].
  intros lat_lo lat_hi lon_lo lon_hi date_lo date_hi Hlo Hhi Hdf selected.
  subst selected. rewrite select_rowwise.
  assert (Hspec : forall r, r ∈ df ->
            Catalog.row_mask lat_lo lat_hi lon_lo lon_hi date_lo date_hi r = true <->
            Catalog.within lat_lo lat_hi lon_lo lon_hi date_lo date_hi r).
  { intros r Hr. rewrite row_mask_reflect. apply within_in_window; auto.
    intros d. now apply Hdf. }
  split; [|split].
  - intros r. rewrite !list_elem_of_In, filter_In, <- list_elem_of_In.
    split; intros [Hin H]; (split; [exact Hin|]); now apply (Hspec r Hin).
  - clear. induction df as [|r l IH]; [constructor|].
    cbn. destruct (Catalog.row_mask _ _ _ _ _ _ r); now constructor.
  - intros Hnone. clear Hdf. induction df as [|r l IH]; [reflexivity|].
    cbn. destruct (Catalog.row_mask lat_lo lat_hi lon_lo lon_hi date_lo date_hi r) eqn:Hr.
    + exfalso. apply (Hnone r); [left|]. apply Hspec; [left|exact Hr].
    + apply IH.
      * intros r' Hin. apply Hspec. now right.
      * intros r' Hin. apply Hnone. now right.
Qed.

(** The last day of the window is taken at its first instant: a profile of
    31 March at noon is left out. *)
Example filtered_catalog :
  Catalog.filtered Samples.catalog = Ok [Samples.inside; Samples.corner].
Proof. vm_compute. reflexivity. Qed.

Lemma filter_selects_window_witness :
  let df := [Samples.inside; Samples.long_ago; Samples.last_day_noon; Samples.corner] in
  let selected :=
    Catalog.select Catalog.lat_min Catalog.lat_max Catalog.lon_min Catalog.lon_max
      (mkdatetime 2023 3 1 0 0 0) (mkdatetime 2023 3 31 0 0 0) df in
  Catalog.filtered df = Ok selected /\
  (Samples.inside ∈ selected) /\ (Samples.corner ∈ selected) /\
  (Samples.long_ago ∉ selected) /\ (Samples.last_day_noon ∉ selected) /\
  Catalog.select 0 1 0 1 (mkdatetime 2023 3 1 0 0 0) (mkdatetime 2023 3 31 0 0 0)
    [Samples.north] = [].
Proof.
  intros df selected.
  assert (Hdates : forall l : list Catalog.row,
            Forall (fun r => forall d, Catalog.date r = TS d -> Catalog.calendar d) l ->
            forall r d, r ∈ l -> Catalog.date r = TS d -> Catalog.calendar d).
  { intros l Hl r d Hr. rewrite Forall_forall in Hl. now apply Hl. }
  assert (Hcal : forall y m a h n x,
            1 <= m <= 12 -> 1 <= a <= 31 -> 0 <= h <= 23 -> 0 <= n <= 59 -> 0 <= x <= 59 ->
            Catalog.calendar (mkdatetime y m a h n x)).
  { intros. repeat split; cbn; lia. }
  destruct (filter_selects_window df) as [Hgen Hrun].
  destruct (Hgen Catalog.lat_min Catalog.lat_max Catalog.lon_min Catalog.lon_max
              (mkdatetime 2023 3 1 0 0 0) (mkdatetime 2023 3 31 0 0 0))
    as (Hiff & _ & _).
  { apply Hcal; lia. }
  { apply Hcal; lia. }
  { apply Hdates. unfold df.
    repeat (apply List.Forall_cons; [intros d [= <-]; apply Hcal; lia|]).
    apply List.Forall_nil. }
  split; [exact Hrun|].
  split; [|split; [|split; [|split]]].
  - apply Hiff. split; [left|].
    repeat split; vm_compute; intros H; discriminate H.
  - apply Hiff. split; [do 3 right; left|].
    repeat split; vm_compute; intros H; discriminate H.
  - intros Hin. apply Hiff in Hin as (_ & _ & _ & Hdate).
    destruct Hdate as [Hdate _]. vm_compute in Hdate. now apply Hdate.
  - intros Hin. apply Hiff in Hin as (_ & _ & _ & Hdate).
    destruct Hdate as [_ Hdate]. vm_compute in Hdate. now apply Hdate.
  - destruct (filter_selects_window [Samples.north]) as [Hgen' _].
    apply (Hgen' 0 1 0 1 (mkdatetime 2023 3 1 0 0 0) (mkdatetime 2023 3 31 0 0 0)).
    + apply Hcal; lia.
    + apply Hcal; lia.
    + apply Hdates.
      repeat (apply List.Forall_cons; [intros d [= <-]; apply Hcal; lia|]).
      apply List.Forall_nil.
    + intros r Hr. apply list_elem_of_In in Hr. destruct Hr as [<-|[]].
      intros [[_ H] _]. vm_compute in H. apply H. reflexivity.
Defined.

(** ** The file retriever *)

Lemma has_slash_basename (s : string) : Path.has_slash (Path.basename s) = false.
Proof.
  induction s as [|c s IH]; [reflexivity|].
  cbn. destruct (Path.has_slash s) eqn:Hs; [exact IH|].
  destruct (Ascii.eqb c "/") eqn:Hc; [exact Hs|].
  cbn. now rewrite Hc, Hs.
Qed.

Lemma has_slash_app (a b : string) : Path.has_slash (a +:+ String "/" b) = true.
Proof.
  induction a as [|c a IH]; [reflexivity|].
  change (Ascii.eqb c "/" || Path.has_slash (a +:+ String "/" b) = true).
  rewrite IH. apply orb_true_r.
Qed.

Lemma basename_without_slash (b : string) :
  Path.has_slash b = false -> Path.basename b = b.
Proof.
  destruct b as [|c b]; [reflexivity|].
  cbn. intros H. apply orb_false_iff in H as [Hc Hb]. now rewrite Hb, Hc.
Qed.

Lemma basename_after_slash (a b : string) :
  Path.basename (a +:+ String "/" b) = Path.basename b.
Proof.
  induction a as [|c a IH].
  - change (Path.basename (String "/" b) = Path.basename b).
    cbn. destruct (Path.has_slash b) eqn:Hb; [reflexivity|].
    symmetry. now apply basename_without_slash.
  - change (Path.basename (String c (a +:+ String "/" b)) = Path.basename b).
    cbn [Path.basename]. now rewrite has_slash_app.
Qed.

Lemma leading_slash_cases (s : string) :
  (exists rest, s = String "/" rest) \/ (forall rest, s <> String "/" rest).
Proof.
  destruct s as [|c s]; [right; discriminate|].
  destruct (Ascii.eqb_spec c "/") as [->|Hne].
  - left. now exists s.
  - right. intros rest [= H _]. contradiction.
Qed.

Lemma join_relative (a b : string) :
  (forall rest, b <> String "/" rest) -> Path.join a b = a +:+ "/" +:+ b.
Proof.
  intros Hb. destruct b as [|c b]; [reflexivity|].
  destruct c as [[] [] [] [] [] [] [] []]; try reflexivity.
  now destruct (Hb b).
Qed.

Lemma no_slash_no_leading_slash (b : string) :
  Path.has_slash b = false -> forall rest, b <> String "/" rest.
Proof. intros Hb rest ->. discriminate. Qed.

Lemma append_cancel (a x y : string) : a +:+ x = a +:+ y -> x = y.
Proof. induction a as [|c a IH]; cbn; [trivial|]. intros [= H]. now apply IH. Qed.

Lemma dest_of_shape (r : Catalog.row) :
  Retriever.dest_of r
  = Retriever.download_folder +:+ "/" +:+ Path.basename (Catalog.file r).
Proof.
  unfold Retriever.dest_of. apply join_relative, no_slash_no_leading_slash,
    has_slash_basename.
Qed.


Lemma head_app_slash (a b : string) :
  Path.has_slash b = false -> Path.head (a +:+ String "/" b) = a +:+ "/".
Proof.
  intros Hb. induction a as [|c a IH].
  - change (Path.head (String "/" b) = "/"). cbn. now rewrite Hb.
  - change (Path.head (String c (a +:+ String "/" b)) = String c (a +:+ "/")).
    cbn [Path.head]. now rewrite has_slash_app, IH.
Qed.

(** Every destination lies directly in the download folder, and is not
    the folder itself. *)
Lemma dirname_dest_of (r : Catalog.row) :
  Path.dirname (Retriever.dest_of r) = Retriever.download_folder.
Proof.
  rewrite dest_of_shape. unfold Path.dirname.
  change (Retriever.download_folder +:+ "/" +:+ Path.basename (Catalog.file r))
    with (Retriever.download_folder +:+ String "/" (Path.basename (Catalog.file r))).
  rewrite head_app_slash by apply has_slash_basename. reflexivity.
Qed.


Lemma parent_of_dest (r : Catalog.row) (w : world) :
  Retriever.parent_is_dir w (Retriever.dest_of r) = Retriever.folder_ready w.
Proof. unfold Retriever.parent_is_dir. now rewrite dirname_dest_of. Qed.


(** ** Plain paths and the URL library *)

Lemma split_slash_cons (s : string) :
  exists seg segs, Path.split_slash s = seg :: segs.
Proof.
  induction s as [|c s (seg & segs & IH)]; [now exists EmptyString, []|].
  cbn. rewrite IH. destruct (Ascii.eqb c "/"); eauto.
Qed.

Lemma join_split_slash (s : string) : Path.join_slash (Path.split_slash s) = s.
Proof.
  induction s as [|c s IH]; [reflexivity|].
  cbn [Path.split_slash].
  destruct (split_slash_cons s) as (seg & segs & Hs). rewrite Hs in IH |- *.
  destruct (Ascii.eqb_spec c "/") as [->|Hc].
  - change (Path.join_slash (EmptyString :: seg :: segs))
      with (String "/" (Path.join_slash (seg :: segs))).
    now rewrite IH.
  - destruct segs as [|seg' segs].
    + cbn in IH |- *. now rewrite IH.
    + change (Path.join_slash (String c seg :: seg' :: segs))
        with (String c (Path.join_slash (seg :: seg' :: segs))).
      now rewrite IH.
Qed.

(** The characters of a path whose segments are names. *)
Lemma segments_chars (s : string) :
  forallb (Path.all_chars Path.name_char) (Path.split_slash s) = true ->
  Path.all_chars Path.path_char s = true.
Proof.
  induction s as [|c s IH]; [reflexivity|].
  cbn [Path.split_slash].
  destruct (split_slash_cons s) as (seg & segs & Hs). rewrite Hs in IH |- *.
  unfold Path.path_char at 1. cbn [Path.all_chars].
  destruct (Ascii.eqb c "/") eqn:Hc.
  - cbn [forallb Path.all_chars andb]. intros H.
    rewrite orb_true_r. cbn [andb]. apply IH. exact H.
  - cbn [forallb Path.all_chars]. intros H.
    apply andb_true_iff in H as [H1 H2]. apply andb_true_iff in H1 as [Hn Hseg].
    unfold Path.path_char. rewrite Hn. cbn [orb andb]. apply IH.
    cbn [forallb]. now rewrite Hseg, H2.
Qed.

Lemma plain_segments (s : string) :
  Path.plain s = true ->
  forallb (Path.all_chars Path.name_char) (Path.split_slash s) = true /\
  forallb Path.nonempty (Path.split_slash s) = true /\
  forallb (fun seg => negb (Path.dot_segment seg)) (Path.split_slash s) = true.
Proof.
  unfold Path.plain. induction (Path.split_slash s) as [|seg segs IH]; [auto|].
  cbn [forallb]. intros H. apply andb_true_iff in H as [Hseg Hrest].
  destruct (IH Hrest) as (H1 & H2 & H3).
  unfold Path.name_segment in Hseg.
  apply andb_true_iff in Hseg as [Hseg Hdot]. apply andb_true_iff in Hseg as [Hch Hne].
  now rewrite Hch, Hne, Hdot, H1, H2, H3.
Qed.

Lemma plain_chars (s : string) : Path.plain s = true -> Path.all_chars Path.path_char s = true.
Proof. intros H. now apply segments_chars, plain_segments. Qed.

(** A plain path starts with a name character. *)
Lemma plain_first (s : string) :
  Path.plain s = true -> exists c s', s = String c s' /\ Path.name_char c = true.
Proof.
  intros H. destruct s as [|c s]; [discriminate|].
  exists c, s. split; [reflexivity|].
  unfold Path.plain in H. cbn [Path.split_slash] in H.
  destruct (split_slash_cons s) as (seg & segs & Hs). rewrite Hs in H.
  destruct (Ascii.eqb c "/").
  - discriminate.
  - cbn [forallb] in H. apply andb_true_iff in H as [H _].
    unfold Path.name_segment in H. cbn [Path.all_chars] in H.
    now destruct (Path.name_char c).
Qed.

(** What the library looks for, a path character is not. *)
Lemma path_char_facts (c : ascii) :
  Path.path_char c = true ->
  (Nat.leb (nat_of_ascii c) 32 = false) /\ Path.unsafe_char c = false /\
  Ascii.eqb ":" c = false /\ Ascii.eqb "#" c = false /\
  Ascii.eqb "?" c = false /\ Ascii.eqb ";" c = false.
Proof.
  destruct c as [[] [] [] [] [] [] [] []]; intros H;
    try discriminate H; repeat split; reflexivity.
Qed.

Lemma name_char_no_slash (c : ascii) : Path.name_char c = true -> Ascii.eqb c "/" = false.
Proof. destruct c as [[] [] [] [] [] [] [] []]; intros H; try discriminate H; reflexivity. Qed.

Lemma break_at_none (p : ascii -> bool) (s : string) :
  (forall c, Path.path_char c = true -> p c = false) ->
  Path.all_chars Path.path_char s = true -> Path.break_at p s = (s, EmptyString).
Proof.
  intros Hp. induction s as [|c s IH]; [reflexivity|].
  cbn. intros H. apply andb_true_iff in H as [Hc Hs].
  now rewrite (Hp c Hc), (IH Hs).
Qed.

Lemma split_first_none (d : ascii) (s : string) :
  (forall c, Path.path_char c = true -> Ascii.eqb d c = false) ->
  Path.all_chars Path.path_char s = true -> Path.split_first d s = (s, EmptyString).
Proof.
  intros Hd Hs. unfold Path.split_first. now rewrite break_at_none.
Qed.

Lemma lstrip_c0_chars (s : string) :
  Path.all_chars Path.path_char s = true -> Path.lstrip_c0 s = s.
Proof.
  destruct s as [|c s]; [reflexivity|].
  cbn. intros H. apply andb_true_iff in H as [Hc _].
  now rewrite (proj1 (path_char_facts c Hc)).
Qed.

Lemma remove_unsafe_chars (s : string) :
  Path.all_chars Path.path_char s = true -> Path.remove_unsafe s = s.
Proof.
  induction s as [|c s IH]; [reflexivity|].
  cbn. intros H. apply andb_true_iff in H as [Hc Hs].
  destruct (path_char_facts c Hc) as (_ & -> & _). now rewrite (IH Hs).
Qed.

Lemma head_basename (s : string) : Path.head s +:+ Path.basename s = s.
Proof.
  induction s as [|c s IH]; [reflexivity|].
  cbn [Path.head Path.basename]. destruct (Path.has_slash s).
  - change (String c (Path.head s +:+ Path.basename s) = String c s). now rewrite IH.
  - destruct (Ascii.eqb_spec c "/") as [->|_]; reflexivity.
Qed.

Lemma basename_chars (s : string) :
  Path.all_chars Path.path_char s = true -> Path.all_chars Path.path_char (Path.basename s) = true.
Proof.
  induction s as [|c s IH]; [reflexivity|].
  cbn [Path.all_chars Path.basename]. intros H. apply andb_true_iff in H as [Hc Hs].
  destruct (Path.has_slash s); [now apply IH|].
  destruct (Ascii.eqb c "/"); [exact Hs|].
  cbn [Path.all_chars]. now rewrite Hc, Hs.
Qed.

Lemma splitparams_none (s : string) :
  Path.all_chars Path.path_char s = true -> Path.splitparams s = (s, EmptyString).
Proof.
  intros Hs. unfold Path.splitparams.
  assert (Hsemi : forall c, Path.path_char c = true -> Ascii.eqb ";" c = false)
    by (intros c Hc; apply (path_char_facts c Hc)).
  destruct (Path.has_slash s).
  - rewrite (split_first_none ";" _ Hsemi (basename_chars s Hs)).
    now rewrite head_basename.
  - now apply split_first_none.
Qed.

(** The query, fragment and parameter parts of a string of path
    characters are empty. *)
Lemma no_parts (url : string) :
  Path.all_chars Path.path_char url = true ->
  Path.split_first "#" url = (url, EmptyString) /\
  Path.split_first "?" url = (url, EmptyString) /\
  Path.splitparams url = (url, EmptyString).
Proof.
  intros H. split; [|split].
  - apply split_first_none; [|exact H]. intros c Hc. apply (path_char_facts c Hc).
  - apply split_first_none; [|exact H]. intros c Hc. apply (path_char_facts c Hc).
  - now apply splitparams_none.
Qed.

(** The URL of a plain path under the base URL parses into the host of
    the base and the path of the base followed by the plain path. *)
Lemma urlparse_plain (rel : string) :
  Path.plain rel = true ->
  Path.urlparse (Retriever.FTP_BASE_URL +:+ rel) EmptyString =
    Path.mkparsed "ftp" "ftp.ifremer.fr" ("/ifremer/argo/" +:+ rel)
      EmptyString EmptyString EmptyString.
Proof.
  intros Hplain. pose proof (plain_chars rel Hplain) as Hchars.
  unfold Path.urlparse.
  change (Path.remove_unsafe (Path.lstrip_c0 (Retriever.FTP_BASE_URL +:+ rel)))
    with (Retriever.FTP_BASE_URL +:+ Path.remove_unsafe rel).
  rewrite (remove_unsafe_chars rel Hchars).
  change (Path.split_scheme (Retriever.FTP_BASE_URL +:+ rel))
    with (Some ("ftp", "//ftp.ifremer.fr/ifremer/argo/" +:+ rel)).
  cbn iota.
  change (Path.split_netloc ("//ftp.ifremer.fr/ifremer/argo/" +:+ rel))
    with ("ftp.ifremer.fr", "/ifremer/argo/" +:+ rel).
  cbn iota.
  assert (Hurl : Path.all_chars Path.path_char ("/ifremer/argo/" +:+ rel) = true)
    by exact Hchars.
  destruct (no_parts _ Hurl) as (-> & -> & Hparams).
  change (Path.one_of Path.uses_params "ftp") with true. cbn iota.
  now rewrite Hparams.
Qed.

(** A plain path, read as a reference under the scheme of the base, is
    a path and nothing else. *)
Lemma urlparse_reference (rel : string) :
  Path.plain rel = true ->
  Path.urlparse rel "ftp" =
    Path.mkparsed "ftp" EmptyString rel EmptyString EmptyString EmptyString.
Proof.
  intros Hplain. pose proof (plain_chars rel Hplain) as Hchars.
  unfold Path.urlparse.
  rewrite (lstrip_c0_chars rel Hchars), (remove_unsafe_chars rel Hchars).
  assert (Hscheme : Path.split_scheme rel = None).
  { unfold Path.split_scheme. rewrite break_at_none; [|intros c Hc; apply (path_char_facts c Hc)|exact Hchars].
    now destruct rel. }
  rewrite Hscheme.
  assert (Hnet : Path.split_netloc rel = (EmptyString, rel)).
  { destruct (plain_first rel Hplain) as (c & s' & -> & Hc).
    apply name_char_no_slash in Hc.
    destruct c as [[] [] [] [] [] [] [] []]; try reflexivity. discriminate Hc. }
  rewrite Hnet.
  destruct (no_parts _ Hchars) as (-> & -> & Hparams).
  change (Path.one_of Path.uses_params "ftp") with true. cbn iota.
  now rewrite Hparams.
Qed.

Lemma resolve_names (segs : list string) :
  forall acc,
    forallb (fun seg => negb (Path.dot_segment seg)) segs = true ->
    Path.resolve segs acc = acc ++ segs.
Proof.
  induction segs as [|seg segs IH]; intros acc; cbn [forallb Path.resolve].
  - intros _. now rewrite app_nil_r.
  - intros H. apply andb_true_iff in H as [Hseg Hrest].
    unfold Path.dot_segment in Hseg. apply negb_true_iff, orb_false_iff in Hseg as [H1 H2].
    rewrite H1, H2, (IH _ Hrest). now rewrite <- app_assoc.
Qed.

Lemma filter_all {A} (f : A -> bool) (l : list A) :
  forallb f l = true -> List.filter f l = l.
Proof.
  induction l as [|x l IH]; [reflexivity|]. cbn. intros H.
  apply andb_true_iff in H as [-> H]. now rewrite IH.
Qed.

Lemma forallb_removelast {A} (f : A -> bool) (l : list A) :
  forallb f l = true -> forallb f (removelast l) = true.
Proof.
  induction l as [|x [|y l] IH]; [reflexivity|reflexivity|].
  cbn [forallb removelast] in *. intros H. apply andb_true_iff in H as [-> H].
  now apply IH.
Qed.

Lemma last_app_nonempty {A} (l1 l2 : list A) (d : A) :
  l2 <> [] -> List.last (l1 ++ l2) d = List.last l2 d.
Proof.
  intros Hl2. induction l1 as [|x l1 IH]; [reflexivity|].
  cbn [app]. destruct (l1 ++ l2) eqn:Happ; [|exact IH].
  apply app_eq_nil in Happ as [_ ->]. now destruct Hl2.
Qed.

Lemma join_slash_cons (seg : string) (segs : list string) :
  segs <> [] -> Path.join_slash (seg :: segs) = seg +:+ "/" +:+ Path.join_slash segs.
Proof. now destruct segs. Qed.

(** The URL of a plain path is the base URL followed by the path. *)
Lemma urljoin_plain (rel : string) :
  Path.plain rel = true ->
  Path.urljoin Retriever.FTP_BASE_URL rel = Retriever.FTP_BASE_URL +:+ rel.
Proof.
  intros Hplain.
  destruct (plain_first rel Hplain) as (c & s' & Hrel & Hc).
  destruct (plain_segments rel Hplain) as (_ & Hne & Hdots).
  destruct (split_slash_cons rel) as (seg & segs & Hsplit).
  unfold Path.urljoin.
  change (Path.nonempty Retriever.FTP_BASE_URL) with true.
  assert (Hnonempty : Path.nonempty rel = true) by now rewrite Hrel.
  rewrite Hnonempty. cbn [negb].
  change (Path.urlparse Retriever.FTP_BASE_URL EmptyString)
    with (Path.mkparsed "ftp" "ftp.ifremer.fr" "/ifremer/argo/"
            EmptyString EmptyString EmptyString).
  cbn [Path.scheme Path.netloc Path.path Path.params Path.query Path.fragment].
  rewrite (urlparse_reference rel Hplain).
  cbn [Path.scheme Path.netloc Path.path Path.params Path.query Path.fragment].
  change (String.eqb "ftp" "ftp") with true.
  change (Path.one_of Path.uses_relative "ftp") with true.
  change (Path.one_of Path.uses_netloc "ftp") with true.
  rewrite Hnonempty. cbn [negb orb andb Path.nonempty].
  assert (Hstart : Path.starts_with_slash rel = false).
  { rewrite Hrel. apply name_char_no_slash in Hc.
    destruct c as [[] [] [] [] [] [] [] []]; try reflexivity. discriminate Hc. }
  rewrite Hstart.
  change (Path.split_slash "/ifremer/argo/") with [EmptyString; "ifremer"; "argo"; EmptyString].
  cbn [List.last Path.nonempty].
  assert (Hsegments :
    Path.drop_inner_empty ([EmptyString; "ifremer"; "argo"; EmptyString] ++ Path.split_slash rel)
    = [EmptyString; "ifremer"; "argo"] ++ Path.split_slash rel).
  { rewrite Hsplit in Hne |- *.
    change ([EmptyString; "ifremer"; "argo"; EmptyString] ++ seg :: segs)
      with (EmptyString :: (["ifremer"; "argo"; EmptyString] ++ seg :: segs)).
    unfold Path.drop_inner_empty.
    change (["ifremer"; "argo"; EmptyString] ++ seg :: segs)
      with ("ifremer" :: (["argo"; EmptyString] ++ seg :: segs)) at 1.
    cbv iota.
    rewrite List.removelast_app by discriminate.
    rewrite last_app_nonempty by discriminate.
    rewrite List.filter_app.
    rewrite (filter_all Path.nonempty (removelast (seg :: segs)))
      by now apply forallb_removelast.
    change (List.filter Path.nonempty ["ifremer"; "argo"; EmptyString])
      with ["ifremer"; "argo"].
    rewrite <- app_assoc, <- (List.app_removelast_last EmptyString) by discriminate.
    reflexivity. }
  rewrite Hsegments.
  assert (Hlast : List.last ([EmptyString; "ifremer"; "argo"] ++ Path.split_slash rel) EmptyString
                  = List.last (Path.split_slash rel) EmptyString).
  { rewrite Hsplit. now rewrite last_app_nonempty by discriminate. }
  assert (Hnodot : Path.dot_segment (List.last (Path.split_slash rel) EmptyString) = false).
  { rewrite Hsplit in Hdots |- *. clear -Hdots.
    revert seg Hdots. induction segs as [|seg' segs IH]; intros seg H.
    - cbn in H |- *. now destruct (Path.dot_segment seg).
    - cbn [forallb] in H. apply andb_true_iff in H as [_ H].
      change (List.last (seg :: seg' :: segs) EmptyString)
        with (List.last (seg' :: segs) EmptyString).
      now apply IH. }
  rewrite Hlast, Hnodot, app_nil_r.
  rewrite resolve_names by (cbn [forallb app]; exact Hdots).
  cbn [app].
  rewrite !join_slash_cons by (rewrite ?Hsplit; discriminate).
  rewrite join_split_slash.
  reflexivity.
Qed.

Section RetrieverFacts.

Import Retriever.

Lemma path_exists_run (p : string) (w : world) :
  path_exists p w = (Ok (bool_decide (is_Some (fs w !! p))), w).
Proof. reflexivity. Qed.

(** An entry whose destination is there: nothing but a line on the
    console. *)
Lemma retrieve_present server (r : Catalog.row) (acc : list string) (w : world) :
  is_Some (fs w !! dest_of r) ->
  retrieve server r acc w =
    (Ok (acc ++ [dest_of r]),
     mkworld (fs w)
       (stdout w ++ ["Already exists: " +:+ Path.basename (Catalog.file r)])
       (ftp_log w) (db w)).
Proof.
  intros Hp. unfold retrieve, mbind. rewrite path_exists_run.
  fold (dest_of r). rewrite bool_decide_eq_true_2 by exact Hp.
  reflexivity.
Qed.

(** What [download_file_ftp] does to a destination that is not there,
    by the reply of the server and the state of the folder. *)
Lemma download_absent server (file_url dest : string) (w : world) :
  fs w !! dest = None ->
  download_file_ftp server file_url dest w =
    let rq := request_of file_url in
    let failed := failure_line file_url in
    let log := ftp_log w ++ [rq] in
    let refused :=
      (Ok false, mkworld (fs w) (stdout w ++ [failed "No such file or directory"])
                   log (db w)) in
    match server rq with
    | NoSession msg =>
        (Ok false, mkworld (fs w) (stdout w ++ [failed msg]) log (db w))
    | RetrAborted sent msg =>
        if parent_is_dir w dest then
          (Ok false, mkworld (<[dest := File sent]> (fs w)) (stdout w ++ [failed msg])
                       log (db w))
        else refused
    | RetrComplete content =>
        if parent_is_dir w dest then
          (Ok true, mkworld (<[dest := File content]> (fs w)) (stdout w) log (db w))
        else refused
    end.
Proof.
  intros Habs.
  unfold download_file_ftp, try_except, mbind, ftp_session.
  fold (request_of file_url). cbn zeta.
  destruct (server (request_of file_url)) as [msg|sent msg|content] eqn:Hreply.
  - reflexivity.
  - unfold open_wb.
    change (parent_is_dir (mkworld (fs w) (stdout w)
                             (ftp_log w ++ [request_of file_url]) (db w)) dest)
      with (parent_is_dir w dest).
    destruct (parent_is_dir w dest); [|reflexivity].
    cbn [fs]. rewrite Habs. unfold retrbinary. rewrite Hreply.
    unfold set_fs. cbn [fs stdout ftp_log db].
    rewrite alter_insert_eq. reflexivity.
  - unfold open_wb.
    change (parent_is_dir (mkworld (fs w) (stdout w)
                             (ftp_log w ++ [request_of file_url]) (db w)) dest)
      with (parent_is_dir w dest).
    destruct (parent_is_dir w dest); [|reflexivity].
    cbn [fs]. rewrite Habs. unfold retrbinary. rewrite Hreply.
    unfold set_fs. cbn [fs stdout ftp_log db].
    rewrite alter_insert_eq. reflexivity.
Qed.

(** An entry whose destination is not there, by the reply of the server
    and the state of the download folder. *)
Lemma retrieve_absent server (r : Catalog.row) (acc : list string) (w : world) :
  fs w !! dest_of r = None ->
  retrieve server r acc w =
    let rq := request_of (url_of r) in
    let out := stdout w ++ ["Downloading: " +:+ Path.basename (Catalog.file r)] in
    let log := ftp_log w ++ [rq] in
    let refused :=
      (Ok acc, mkworld (fs w)
                 (out ++ [failure_line (url_of r) "No such file or directory"])
                 log (db w)) in
    match server rq with
    | NoSession msg =>
        (Ok acc, mkworld (fs w) (out ++ [failure_line (url_of r) msg]) log (db w))
    | RetrAborted sent msg =>
        if folder_ready w then
          (Ok acc, mkworld (<[dest_of r := File sent]> (fs w))
                     (out ++ [failure_line (url_of r) msg]) log (db w))
        else refused
    | RetrComplete content =>
        if folder_ready w then
          (Ok (acc ++ [dest_of r]),
           mkworld (<[dest_of r := File content]> (fs w)) out log (db w))
        else refused
    end.
Proof.
  intros Habs. unfold retrieve, mbind. rewrite path_exists_run.
  fold (dest_of r) (url_of r).
  rewrite bool_decide_eq_false_2 by (rewrite Habs; apply is_Some_None).
  cbn [negb print].
  rewrite download_absent by exact Habs. cbn zeta.
  change (parent_is_dir
            (mkworld (fs w)
               (stdout w ++ ["Downloading: " +:+ Path.basename (Catalog.file r)])
               (ftp_log w) (db w)) (dest_of r))
    with (parent_is_dir w (dest_of r)).
  rewrite parent_of_dest.
  destruct (server (request_of (url_of r))); [reflexivity| |];
    destruct (folder_ready w); reflexivity.
Qed.



Lemma for_each_cons {A S} (x : A) (l : list A) (body : A -> S -> M S) (s : S) (w : world) :
  for_each (x :: l) body s w =
    match body x s w with
    | (Ok s', w') => for_each l body s' w'
    | (Raise e, w') => (Raise e, w')
    end.
Proof. reflexivity. Qed.



End RetrieverFacts.







(** ** The profile flattener *)

Lemma for_res_flat_map {A B} (g : A -> list B) (body : A -> list B -> res (list B))
    (l : list A) :
  (forall x s, x ∈ l -> body x s = Ok (s ++ g x)) ->
  forall s, for_res l body s = Ok (s ++ flat_map g l).
Proof.
  induction l as [|x l IH]; intros Hbody s.
  - cbn. now rewrite app_nil_r.
  - cbn. rewrite Hbody by left. cbn.
    rewrite IH by (intros; apply Hbody; now right).
    now rewrite app_assoc.
Qed.

Lemma filter_nil_existsb {A} (f : A -> bool) (l : list A) :
  existsb f l = negb (bool_decide (List.filter f l = [])).
Proof.
  induction l as [|x l IH]; [reflexivity|].
  cbn. destruct (f x); cbn; [reflexivity|exact IH].
Qed.

Lemma elem_of_map_filter {A B} (h : A -> B) (f : A -> bool) (l : list A) (x : A) :
  x ∈ l -> f x = true -> h x ∈ map h (List.filter f l).
Proof.
  intros Hx Hf. apply list_elem_of_In, in_map, filter_In.
  split; [now apply list_elem_of_In|exact Hf].
Qed.

Lemma NoDup_map_filter {A B} (h : A -> B) (f : A -> bool) (l : list A) :
  NoDup (map h l) -> NoDup (map h (List.filter f l)).
Proof.
  induction l as [|x l IH]; [trivial|].
  cbn. intros Hnd. apply NoDup_cons in Hnd as [Hx Hnd].
  destruct (f x); [|now apply IH].
  cbn. apply NoDup_cons. split; [|now apply IH].
  intros Hin. apply Hx.
  apply list_elem_of_In, in_map_iff in Hin as (y & Hy & Hin).
  apply filter_In in Hin as [Hin _].
  rewrite <- Hy. now apply list_elem_of_In, in_map.
Qed.

Section FlattenerFacts.

Import Flattener.

Variable py_str : cell -> string.
Variable py_float : cell -> res float64.
Variable to_datetime : ndarray -> res (list timestamp).

Lemma bytes_eqb_eq (a b : bytes) : bytes_eqb a b = true <-> a = b.
Proof.
  revert b. induction a as [|x a IH]; intros [|y b]; cbn; try (split; congruence).
  rewrite andb_true_iff, IH. split.
  - intros [Hxy ->]. f_equal.
    apply Byte.byte_dec_bl. exact Hxy.
  - intros [= -> ->]. split; [|reflexivity]. now apply Byte.byte_dec_lb.
Qed.

(** The accepted flags are the one-byte strings "1" and "2". *)
Lemma accepted_iff (c : cell) :
  accepted c = true <-> c = CBytes byte_1 \/ c = CBytes byte_2.
Proof.
  destruct c as [x|b|t]; cbn; try (split; [discriminate|intros [|]; discriminate]).
  rewrite orb_true_iff, !bytes_eqb_eq.
  split; intros [H|H]; [left|right|left|right]; congruence.
Qed.

(** One requested variable, when it can be read. *)
Lemma keep_var_readable (ds : dataset) (i j : nat) (var : string) (r : dict) :
  readable py_float ds i j var ->
  (passes ds i j var = false /\ keep_var py_float ds i j var r = Ok r) \/
  (passes ds i j var = true /\
   exists x, value_at py_float ds i j var = Ok x /\
             keep_var py_float ds i j var r = Ok (<[lower var := PFloat x]> r)).
Proof.
  unfold readable, passes, keep_var.
  destruct (variables ds !! (var +:+ "_QC")) as [qc|]; [|now left].
  intros (flag & -> & Hval). cbn.
  destruct (accepted flag); [|now left].
  destruct (Hval eq_refl) as (x & Hx). right. split; [reflexivity|].
  exists x. rewrite Hx. auto.
Qed.

(** The loop over the requested variables, when each can be read: the
    keys it adds, the keys it leaves alone, and the values it stores. *)
Lemma keep_all (ds : dataset) (i j : nat) (vars : list string) :
  (forall var, var ∈ vars -> readable py_float ds i j var) ->
  forall r0 : dict,
  exists r : dict,
    for_res vars (keep_var py_float ds i j) r0 = Ok r /\
    dom r = dom r0 ∪ list_to_set (map lower (List.filter (passes ds i j) vars)) /\
    (forall k, k ∉ map lower (List.filter (passes ds i j) vars) -> r !! k = r0 !! k) /\
    (NoDup (map lower vars) ->
     forall var, var ∈ vars -> passes ds i j var = true ->
       exists x, value_at py_float ds i j var = Ok x /\
                 r !! lower var = Some (PFloat x)).
Proof.
  induction vars as [|v vars IH]; intros Hread r0.
  - exists r0. cbn. split; [reflexivity|]. split; [|split].
    + now rewrite union_empty_r_L.
    + reflexivity.
    + intros _ var Hin. now apply elem_of_nil in Hin.
  - assert (Hrest : forall var, var ∈ vars -> readable py_float ds i j var)
      by (intros; apply Hread; now right).
    destruct (keep_var_readable ds i j v r0 (Hread v ltac:(left)))
      as [[Hp Hk]|[Hp (x & Hx & Hk)]].
    + destruct (IH Hrest r0) as (r & Hrun & Hdom & Hsame & Hval).
      exists r. cbn [for_res List.filter]. rewrite Hk, Hp. cbn [bind].
      repeat split; try assumption.
      intros Hnd var Hin Hpass. cbn [map] in Hnd.
      apply NoDup_cons in Hnd as [_ Hnd].
      apply elem_of_cons in Hin as [->|Hin]; [congruence|].
      now apply Hval.
    + destruct (IH Hrest (<[lower v := PFloat x]> r0)) as (r & Hrun & Hdom & Hsame & Hval).
      exists r. cbn [for_res List.filter]. rewrite Hk, Hp. cbn [bind map].
      split; [exact Hrun|]. split; [|split].
      * rewrite Hdom, dom_insert_L. cbn [list_to_set foldr].
        now rewrite (assoc_L (∪)), (comm_L (∪) (dom r0)).
      * intros k Hk'. apply not_elem_of_cons in Hk' as [Hne Hk'].
        rewrite Hsame by exact Hk'. now rewrite lookup_insert_ne.
      * intros Hnd var Hin Hpass. apply NoDup_cons in Hnd as [Hv Hnd].
        apply elem_of_cons in Hin as [->|Hin]; [|now apply Hval].
        exists x. split; [exact Hx|].
        rewrite Hsame; [apply lookup_insert_eq|].
        intros Hin. apply Hv.
        apply list_elem_of_In, in_map_iff in Hin as (y & Hy & Hin).
        apply filter_In in Hin as [Hin _]. rewrite <- Hy.
        now apply list_elem_of_In, in_map.
Qed.

(** A flag passes exactly when the flag array is there and holds the
    one-byte string "1" or "2" at the pair. *)
Lemma passes_iff (ds : dataset) (i j : nat) (var : string) :
  passes ds i j var = true <->
  exists qc, variables ds !! (var +:+ "_QC") = Some qc /\
             (index2 qc i j = Ok (CBytes byte_1) \/ index2 qc i j = Ok (CBytes byte_2)).
Proof.
  unfold passes. destruct (variables ds !! (var +:+ "_QC")) as [qc|].
  - destruct (index2 qc i j) as [flag|e] eqn:Hflag.
    + rewrite accepted_iff. split.
      * intros [->| ->]; exists qc; auto.
      * intros (qc' & [= <-] & [H|H]); rewrite Hflag in H; injection H; auto.
    + split; [discriminate|].
      intros (qc' & [= <-] & [H|H]); rewrite Hflag in H; discriminate.
  - split; [discriminate|]. intros (qc' & [=] & _).
Qed.

Lemma mandatory_dom float_id times lat lon depth (i j : nat) (r0 : dict) :
  mandatory py_float float_id times lat lon depth i j = Ok r0 ->
  dom r0 = list_to_set mandatory_keys.
Proof.
  unfold mandatory.
  destruct (time_at times i) as [t|]; [cbn|discriminate].
  destruct (index1 lat i) as [c1|]; [cbn|discriminate].
  destruct (py_float c1) as [la|]; [cbn|discriminate].
  destruct (index1 lon i) as [c2|]; [cbn|discriminate].
  destruct (py_float c2) as [lo|]; [cbn|discriminate].
  destruct (index2 depth i j) as [c3|]; [cbn|discriminate].
  destruct (py_float c3) as [de|]; [cbn|discriminate].
  intros [= <-]. rewrite !dom_insert_L, dom_empty_L.
  apply set_eq. intros k. unfold mandatory_keys.
  cbn [list_to_set foldr].
  rewrite !elem_of_union, !elem_of_singleton, elem_of_empty.
  tauto.
Qed.

Lemma mandatory_keys_distinct : NoDup mandatory_keys.
Proof. apply (bool_decide_unpack _). vm_compute. reflexivity. Qed.

Lemma NoDup_map_inj {A B} (h : A -> B) (l : list A) (x y : A) :
  NoDup (map h l) -> x ∈ l -> y ∈ l -> h x = h y -> x = y.
Proof.
  induction l as [|z l IH]; intros Hnd Hx Hy Heq.
  - now apply elem_of_nil in Hx.
  - cbn in Hnd. apply NoDup_cons in Hnd as [Hz Hnd].
    apply elem_of_cons in Hx as [->|Hx]; apply elem_of_cons in Hy as [->|Hy].
    + reflexivity.
    + exfalso. apply Hz. rewrite Heq. now apply list_elem_of_In, in_map, list_elem_of_In.
    + exfalso. apply Hz. rewrite <- Heq. now apply list_elem_of_In, in_map, list_elem_of_In.
    + now apply IH.
Qed.

(** The record of one pair, when everything it needs can be read: its
    keys are the mandatory ones and the column names of the variables
    whose flag passes. *)
Lemma build_record_readable (ds : dataset) (vars : list string)
    float_id times lat lon depth (i j : nat) (r0 : dict) :
  mandatory py_float float_id times lat lon depth i j = Ok r0 ->
  (forall var, var ∈ vars -> readable py_float ds i j var) ->
  exists r : dict,
    build_record py_float ds vars float_id times lat lon depth i j = Ok r /\
    dom r = list_to_set mandatory_keys
            ∪ list_to_set (map lower (List.filter (passes ds i j) vars)) /\
    (NoDup (map lower vars) ->
     forall var, var ∈ vars -> passes ds i j var = true ->
       exists x, value_at py_float ds i j var = Ok x /\
                 r !! lower var = Some (PFloat x)).
Proof.
  intros Hm Hread.
  pose proof (mandatory_dom _ _ _ _ _ _ _ _ Hm) as Hdom0.
  destruct (keep_all ds i j vars Hread r0) as (r & Hrun & Hdom & _ & Hval).
  exists r. unfold build_record. rewrite Hm. cbn [bind].
  split; [exact Hrun|]. split; [congruence|exact Hval].
Qed.

Section Columns.

Variables (ds : dataset) (vars : list string) (i j : nat) (r : dict).
Hypothesis Hcols : distinct_columns vars.
Hypothesis Hdom :
  dom r = list_to_set mandatory_keys
          ∪ list_to_set (map lower (List.filter (passes ds i j) vars)).

Lemma record_size :
  size r = (5 + length (List.filter (passes ds i j) vars))%nat.
Proof.
  destruct Hcols as [Hnd Hfresh].
  rewrite <- size_dom, Hdom, size_union.
  - rewrite !size_list_to_set.
    + now rewrite length_map.
    + now apply NoDup_map_filter.
    + apply mandatory_keys_distinct.
  - intros k Hk1 Hk2. apply elem_of_list_to_set in Hk1, Hk2.
    apply list_elem_of_In, in_map_iff in Hk2 as (y & <- & Hin).
    apply filter_In in Hin as [Hin _].
    apply (Hfresh y); [now apply list_elem_of_In|exact Hk1].
Qed.

Lemma record_without (var : string) :
  var ∈ vars -> passes ds i j var = false -> r !! lower var = None.
Proof.
  destruct Hcols as [Hnd Hfresh]. intros Hin Hfail.
  apply not_elem_of_dom. rewrite Hdom, elem_of_union, !elem_of_list_to_set.
  intros [Hk|Hk]; [now apply (Hfresh var)|].
  apply list_elem_of_In, in_map_iff in Hk as (y & Hy & Hk).
  apply filter_In in Hk as [Hy_in Hy_pass].
  assert (y = var) as ->; [|congruence].
  apply (NoDup_map_inj lower vars); auto. now apply list_elem_of_In.
Qed.

Lemma record_mandatory (k : string) : k ∈ mandatory_keys -> is_Some (r !! k).
Proof.
  intros Hk. apply elem_of_dom. rewrite Hdom, elem_of_union, elem_of_list_to_set.
  now left.
Qed.

End Columns.

(** The rows of a well-shaped dataset: pair by pair, profiles outermost,
    the record of the pair if it has more than five fields. *)
Lemma flatten_shaped (ds : dataset) (vars : list string) (n_prof n_levels : nat) :
  shaped py_str py_float to_datetime ds n_prof n_levels ->
  (forall i j var, (i < n_prof)%nat -> (j < n_levels)%nat -> var ∈ vars ->
                   readable py_float ds i j var) ->
  exists rec : nat -> nat -> dict,
    flatten py_str py_float to_datetime ds vars =
      Ok (flat_map
            (fun i => flat_map
                        (fun j => if bool_decide (5 < size (rec i j))%nat
                                  then [rec i j] else [])
                        (seq 0 n_levels))
            (seq 0 n_prof)) /\
    forall i j, (i < n_prof)%nat -> (j < n_levels)%nat ->
      dom (rec i j) = list_to_set mandatory_keys
                      ∪ list_to_set (map lower (List.filter (passes ds i j) vars)) /\
      (NoDup (map lower vars) ->
       forall var, var ∈ vars -> passes ds i j var = true ->
         exists x, value_at py_float ds i j var = Ok x /\
                   rec i j !! lower var = Some (PFloat x)).
Proof.
  intros (Hnp & Hnl & pn & c & juld & times & lat & lon & depth
          & Hpn & Hitem & Hjuld & Htimes & Hlat & Hlon & Hdepth & Hmand) Hread.
  set (rec := fun i j =>
                match build_record py_float ds vars (py_str c) times lat lon depth i j with
                | Ok r => r
                | Raise _ => ∅
                end).
  assert (Hrec : forall i j, (i < n_prof)%nat -> (j < n_levels)%nat ->
            build_record py_float ds vars (py_str c) times lat lon depth i j
              = Ok (rec i j) /\
            dom (rec i j) = list_to_set mandatory_keys
              ∪ list_to_set (map lower (List.filter (passes ds i j) vars)) /\
            (NoDup (map lower vars) ->
             forall var, var ∈ vars -> passes ds i j var = true ->
               exists x, value_at py_float ds i j var = Ok x /\
                         rec i j !! lower var = Some (PFloat x))).
  { intros i j Hi Hj. destruct (Hmand i j Hi Hj) as (r0 & Hr0).
    destruct (build_record_readable ds vars _ _ _ _ _ i j r0 Hr0) as (r & Hb & Hd & Hv).
    - intros var Hin. now apply Hread.
    - subst rec. cbn beta. rewrite Hb. auto. }
  exists rec. split; [|intros i j Hi Hj; now apply Hrec].
  unfold flatten, getitem, dim.
  rewrite Hpn. cbn [bind]. rewrite Hitem. cbn [bind].
  rewrite Hjuld. cbn [bind]. rewrite Htimes. cbn [bind].
  rewrite Hlat, Hlon, Hdepth, Hnp. cbn [bind].
  rewrite (for_res_flat_map
             (fun i => flat_map
                         (fun j => if bool_decide (5 < size (rec i j))%nat
                                   then [rec i j] else [])
                         (seq 0 n_levels))); [reflexivity|].
  intros i s Hi. apply elem_of_seq in Hi as [_ Hi]. rewrite Hnl. cbn [bind].
  apply for_res_flat_map.
  intros j s' Hj. apply elem_of_seq in Hj as [_ Hj].
  unfold level. destruct (Hrec i j Hi Hj) as (-> & _). cbn [bind].
  destruct (bool_decide (5 < size (rec i j))%nat); [reflexivity|].
  now rewrite app_nil_r.
Qed.

End FlattenerFacts.

Lemma flat_map_ext_elem {A B} (f g : A -> list B) (l : list A) :
  (forall x, x ∈ l -> f x = g x) -> flat_map f l = flat_map g l.
Proof.
  induction l as [|x l IH]; intros Hfg; [reflexivity|].
  cbn. rewrite Hfg by left. rewrite IH; [reflexivity|].
  intros y Hy. apply Hfg. now right.
Qed.

Lemma flat_map_all_nil {A B} (f : A -> list B) (l : list A) :
  (forall x, x ∈ l -> f x = []) -> flat_map f l = [].
Proof.
  induction l as [|x l IH]; intros Hf; [reflexivity|].
  cbn. rewrite Hf by left. apply IH. intros y Hy. apply Hf. now right.
Qed.

(** C1. A profile file with two profiles of one level, in which every
    flag of the two requested variables is b'1': a requested variable has
    an accepted flag at each of its two (profile, level) pairs, yet the
    flattener builds no record for either. Reading the platform number
    with [item()] (line 108) raises [ValueError] on an array of two
    entries, before the first pair is looked at, whatever the conversions
    of the library do and whichever variables are requested. *)
Theorem several_profiles_yield_no_record py_str py_float to_datetime
    (vars : list string) :
  Flattener.dims Samples.twin !! "N_PROF" = Some 2%nat /\
  Flattener.dims Samples.twin !! "N_LEVELS" = Some 1%nat /\
  (forall i var, (i < 2)%nat -> var ∈ Flattener.default_vars ->
     Flattener.passes Samples.twin i 0 var = true) /\
  Flattener.flatten py_str py_float to_datetime Samples.twin vars =
    Raise (ValueError "can only convert an array of size 1 to a Python scalar").
Proof.
  split; [reflexivity|]. split; [reflexivity|]. split; [|reflexivity].
  intros i var Hi Hvar. apply list_elem_of_In in Hvar.
  assert (Hcases : i = 0%nat \/ i = 1%nat) by lia.
  destruct Hcases as [-> | ->]; destruct Hvar as [<-|[<-|[]]]; vm_compute; reflexivity.
Qed.

(** X22. On a dataset on which the flattening returns (the platform
    number has one entry, the mandatory arrays and the flagged values can
    be read at every pair), and for requested variables whose lower-cased
    names are pairwise different and are not names of mandatory fields (as
    the two default variables are), the flattener returns, pair by pair
    with profiles outermost, one record for exactly those (profile, level)
    pairs at which some requested variable has a flag equal to b'1' or
    b'2'. The record of such a pair holds the five mandatory fields, the
    float value of every variable whose flag is accepted, and no entry at
    all for a variable whose flag is not; so it has strictly more than
    five fields. *)
Theorem record_iff_accepted_flag py_str py_float to_datetime
    (ds : Flattener.dataset) (vars : list string) (n_prof n_levels : nat) :
  Flattener.shaped py_str py_float to_datetime ds n_prof n_levels ->
  (forall i j var, (i < n_prof)%nat -> (j < n_levels)%nat -> var ∈ vars ->
                   Flattener.readable py_float ds i j var) ->
  Flattener.distinct_columns vars ->
  exists rec : nat -> nat -> gmap string Flattener.pyval,
    Flattener.flatten py_str py_float to_datetime ds vars =
      Ok (flat_map
            (fun i => flat_map
                        (fun j => if existsb (Flattener.passes ds i j) vars
                                  then [rec i j] else [])
                        (seq 0 n_levels))
            (seq 0 n_prof)) /\
    forall i j, (i < n_prof)%nat -> (j < n_levels)%nat ->
      (forall k, k ∈ Flattener.mandatory_keys -> is_Some (rec i j !! k)) /\
      (existsb (Flattener.passes ds i j) vars = true <-> (5 < size (rec i j))%nat) /\
      (forall var, var ∈ vars ->
         (Flattener.passes ds i j var = true <->
          exists qc, Flattener.variables ds !! (var +:+ "_QC") = Some qc /\
            (Flattener.index2 qc i j = Ok (Flattener.CBytes [Byte.x31]) \/
             Flattener.index2 qc i j = Ok (Flattener.CBytes [Byte.x32]))) /\
         (Flattener.passes ds i j var = true ->
            exists x, Flattener.value_at py_float ds i j var = Ok x /\
                      rec i j !! Flattener.lower var = Some (Flattener.PFloat x)) /\
         (Flattener.passes ds i j var = false ->
            rec i j !! Flattener.lower var = None)).
Proof.
  intros Hshape Hread Hcols.
  destruct (flatten_shaped py_str py_float to_datetime ds vars n_prof n_levels
              Hshape Hread) as (rec & Hrun & Hrec).
  assert (Hsize : forall i j, (i < n_prof)%nat -> (j < n_levels)%nat ->
            (existsb (Flattener.passes ds i j) vars = true <-> (5 < size (rec i j))%nat)).
  { intros i j Hi Hj. destruct (Hrec i j Hi Hj) as (Hdom & _).
    rewrite (record_size ds vars i j (rec i j) Hcols Hdom), filter_nil_existsb.
    destruct (List.filter (Flattener.passes ds i j) vars) as [|v l]; cbn.
    - split; [discriminate|lia].
    - split; [lia|reflexivity]. }
  exists rec. split.
  - rewrite Hrun. f_equal.
    apply flat_map_ext_elem. intros i Hi. apply elem_of_seq in Hi as [_ Hi].
    apply flat_map_ext_elem. intros j Hj. apply elem_of_seq in Hj as [_ Hj].
    specialize (Hsize i j Hi Hj).
    destruct (existsb (Flattener.passes ds i j) vars).
    + rewrite bool_decide_eq_true_2; [reflexivity|now apply Hsize].
    + rewrite bool_decide_eq_false_2; [reflexivity|].
      intros H. apply Hsize in H. discriminate.
  - intros i j Hi Hj. destruct (Hrec i j Hi Hj) as (Hdom & Hval).
    split; [|split; [now apply Hsize|]].
    + intros k Hk. now apply (record_mandatory ds vars i j).
    + intros var Hin. split; [apply passes_iff|]. split.
      * apply Hval; [apply Hcols|exact Hin].
      * now apply (record_without ds vars i j).
Qed.

(** Case analysis on an index below a numeral. *)
Ltac below H :=
  match type of H with
  | (?i < 1)%nat => assert (i = 0%nat) as -> by lia
  | (?i < 2)%nat => assert (i = 0%nat \/ i = 1%nat) as [-> | ->] by lia
  end.

Lemma record_iff_accepted_flag_witness :
  exists rec : nat -> nat -> gmap string Flattener.pyval,
    Flattener.flatten Samples.str Samples.float Samples.to_datetime
      Samples.profile Flattener.default_vars =
      Ok (flat_map
            (fun i => flat_map
                        (fun j => if existsb (Flattener.passes Samples.profile i j)
                                       Flattener.default_vars
                                  then [rec i j] else [])
                        (seq 0 2))
            (seq 0 1)) /\
    rec 0%nat 0%nat !! "psal" = Some (Flattener.PFloat (Fin 35)) /\
    rec 0%nat 0%nat !! "temp" = None.
Proof.
  destruct (record_iff_accepted_flag Samples.str Samples.float Samples.to_datetime
              Samples.profile Flattener.default_vars 1 2) as (rec & Hrun & Hrec).
  - split; [reflexivity|]. split; [reflexivity|].
    eexists _, _, _, _, _, _, _.
    repeat (split; [reflexivity|]).
    intros i j Hi Hj. below Hi. below Hj; eexists; vm_compute; reflexivity.
  - intros i j var Hi Hj Hvar. below Hi.
    apply list_elem_of_In in Hvar. destruct Hvar as [<-|[<-|[]]];
      below Hj;
      (eexists; split; [vm_compute; reflexivity|]);
      intros Hacc; try (vm_compute in Hacc; discriminate);
      eexists; vm_compute; reflexivity.
  - split.
    + apply (bool_decide_unpack _). vm_compute. reflexivity.
    + intros var Hvar. apply list_elem_of_In in Hvar.
      destruct Hvar as [<-|[<-|[]]]; apply (bool_decide_unpack _); vm_compute; reflexivity.
  - exists rec. split; [exact Hrun|].
    destruct (Hrec 0%nat 0%nat ltac:(lia) ltac:(lia)) as (_ & _ & Hvars).
    split.
    + destruct (Hvars "PSAL" ltac:(right; left)) as (_ & Hyes & _).
      destruct (Hyes eq_refl) as (x & Hx & Hlook).
      vm_compute in Hx. injection Hx as <-. exact Hlook.
    + destruct (Hvars "TEMP" ltac:(left)) as (_ & _ & Hno).
      apply Hno. vm_compute. reflexivity.
Defined.

Lemma passes_without_flags (ds : Flattener.dataset) (i j : nat) (var : string) :
  Flattener.variables ds !! (var +:+ "_QC") = None -> Flattener.passes ds i j var = false.
Proof. unfold Flattener.passes. now intros ->. Qed.

Lemma filter_nothing {A} (f : A -> bool) (l : list A) :
  (forall x, x ∈ l -> f x = false) -> List.filter f l = [].
Proof.
  induction l as [|x l IH]; intros Hf; [reflexivity|].
  cbn. rewrite Hf by left. apply IH. intros y Hy. apply Hf. now right.
Qed.

(** C9. In a profile file whose arrays can be read, a requested variable
    whose flag array (its name followed by "_QC") is missing from the
    dataset has no entry in any record of the file; and when the flag
    array of every requested variable is missing the file yields no
    record at all, whether or not the value arrays are there. *)
Theorem missing_flag_array_excludes_variable py_str py_float to_datetime
    (ds : Flattener.dataset) (vars : list string) (n_prof n_levels : nat) :
  Flattener.shaped py_str py_float to_datetime ds n_prof n_levels ->
  ((forall i j var, (i < n_prof)%nat -> (j < n_levels)%nat -> var ∈ vars ->
                    Flattener.readable py_float ds i j var) ->
   Flattener.distinct_columns vars ->
   forall var, var ∈ vars ->
     Flattener.variables ds !! (var +:+ "_QC") = None ->
     exists rows,
       Flattener.flatten py_str py_float to_datetime ds vars = Ok rows /\
       forall r : gmap string Flattener.pyval,
         r ∈ rows -> r !! Flattener.lower var = None) /\
  ((forall var, var ∈ vars -> Flattener.variables ds !! (var +:+ "_QC") = None) ->
   Flattener.flatten py_str py_float to_datetime ds vars = Ok []).
Proof.
  intros Hshape. split.
  - intros Hread Hcols var Hin Hqc.
    destruct (flatten_shaped py_str py_float to_datetime ds vars n_prof n_levels
                Hshape Hread) as (rec & Hrun & Hrec).
    eexists. split; [exact Hrun|].
    intros r Hr.
    apply list_elem_of_In, in_flat_map in Hr as (i & Hi & Hr).
    apply in_flat_map in Hr as (j & Hj & Hr).
    apply in_seq in Hi, Hj.
    destruct (bool_decide (5 < size (rec i j))%nat); [|destruct Hr].
    destruct Hr as [<-|[]].
    destruct (Hrec i j ltac:(lia) ltac:(lia)) as (Hdom & _).
    apply (record_without ds vars i j (rec i j) Hcols Hdom var Hin).
    now apply passes_without_flags.
  - intros Hnone.
    destruct (flatten_shaped py_str py_float to_datetime ds vars n_prof n_levels Hshape)
      as (rec & Hrun & Hrec).
    { intros i j var _ _ Hin. unfold Flattener.readable. now rewrite (Hnone var Hin). }
    rewrite Hrun. f_equal.
    apply flat_map_all_nil. intros i Hi. apply elem_of_seq in Hi as [_ Hi].
    apply flat_map_all_nil. intros j Hj. apply elem_of_seq in Hj as [_ Hj].
    destruct (Hrec i j Hi Hj) as (Hdom & _).
    rewrite filter_nothing in Hdom
      by (intros var Hin; now apply passes_without_flags, Hnone).
    cbn [map list_to_set foldr] in Hdom.
    rewrite bool_decide_eq_false_2; [reflexivity|].
    rewrite <- size_dom, Hdom.
    change (@foldr string (gset string) (fun x => union {[x]}) ∅ [])
      with (@empty (gset string) _).
    rewrite union_empty_r_L, size_list_to_set by apply mandatory_keys_distinct.
    cbn. lia.
Qed.

Lemma missing_flag_array_excludes_variable_witness :
  Flattener.flatten Samples.str Samples.float Samples.to_datetime
    Samples.unflagged Flattener.default_vars = Ok [].
Proof.
  apply (missing_flag_array_excludes_variable Samples.str Samples.float
           Samples.to_datetime Samples.unflagged Flattener.default_vars 1 2).
  - split; [reflexivity|]. split; [reflexivity|].
    eexists _, _, _, _, _, _, _.
    repeat (split; [reflexivity|]).
    intros i j Hi Hj. below Hi. below Hj; eexists; vm_compute; reflexivity.
  - intros var Hvar. apply list_elem_of_In in Hvar.
    destruct Hvar as [<-|[<-|[]]]; vm_compute; reflexivity.
Defined.

(** ** Unreadable files and the end of the run when nothing was flattened *)

Section CollectFacts.

Import Flattener Loader.

Variable py_str : cell -> string.
Variable py_float : cell -> res float64.
Variable to_datetime : ndarray -> res (list timestamp).
Variable xr_decode : bytes -> res dataset.

Lemma open_dataset_pure (nc_path : string) (w : world) :
  snd (open_dataset xr_decode nc_path w) = w.
Proof.
  unfold open_dataset. destruct (fs w !! nc_path) as [[c|]|]; reflexivity.
Qed.

(** [process_nc_file] reads the local files and writes to the console
    only. *)
Lemma process_frame (nc_path : string) (vars : list string) (w : world) :
  let w' := snd (process_nc_file py_str py_float to_datetime xr_decode nc_path vars w) in
  fs w' = fs w /\ ftp_log w' = ftp_log w /\ db w' = db w.
Proof.
  unfold process_nc_file, mbind, try_except.
  pose proof (open_dataset_pure nc_path w) as Hpure.
  destruct (open_dataset xr_decode nc_path w) as [[ds|e] w0]; cbn in Hpure; subst w0.
  - cbn. auto.
  - destruct e; cbn; auto.
Qed.

(** A file that cannot be opened or decoded gives the empty table and a
    line on the console. *)
Lemma process_unreadable (nc_path : string) (vars : list string) (w : world) (e : exn) :
  fst (open_dataset xr_decode nc_path w) = Raise e ->
  e <> SystemExit ->
  process_nc_file py_str py_float to_datetime xr_decode nc_path vars w =
    (Ok [],
     mkworld (fs w)
       (stdout w ++ ["Error opening " +:+ nc_path +:+ ": " +:+ exn_text e])
       (ftp_log w) (db w)).
Proof.
  intros Hopen Hexit.
  unfold process_nc_file, mbind, try_except.
  pose proof (open_dataset_pure nc_path w) as Hpure.
  destruct (open_dataset xr_decode nc_path w) as [[ds|e'] w0];
    cbn in Hpure, Hopen; subst w0; [discriminate|].
  injection Hopen as ->. destruct e; try reflexivity. congruence.
Qed.

(** The loop of lines 132-136 over files that all give the empty
    table. *)
Lemma all_rows_empty (files : list string) :
  forall (acc : list (list dict)) (w : world),
    (forall path w0, path ∈ files -> fs w0 = fs w ->
       fst (process_nc_file py_str py_float to_datetime xr_decode path default_vars w0)
         = Ok []) ->
    exists w1,
      for_each files (collect py_str py_float to_datetime xr_decode) acc w = (Ok acc, w1) /\
      fs w1 = fs w /\ ftp_log w1 = ftp_log w /\ db w1 = db w.
Proof.
  induction files as [|path files IH]; intros acc w Hempty.
  - exists w. cbn. auto.
  - rewrite for_each_cons. unfold collect at 1. unfold mbind at 1 2. cbn [print].
    set (w0 := mkworld (fs w) (stdout w ++ ["Processing: " +:+ path]) (ftp_log w) (db w)).
    pose proof (Hempty path w0 ltac:(left) eq_refl) as Hrun.
    pose proof (process_frame path default_vars w0) as (Hfs & Hftp & Hdb).
    destruct (process_nc_file py_str py_float to_datetime xr_decode path default_vars w0)
      as [r w1]. cbn in Hrun, Hfs, Hftp, Hdb. subst r. cbn.
    destruct (IH acc w1) as (w2 & Hloop & Hfs2 & Hftp2 & Hdb2).
    + intros p w' Hp Hw'. apply Hempty; [now right|]. congruence.
    + exists w2. split; [exact Hloop|]. repeat split; congruence.
Qed.

End CollectFacts.

Lemma open_dataset_fs xr_decode (nc_path : string) (w w0 : world) :
  fs w0 = fs w ->
  fst (Flattener.open_dataset xr_decode nc_path w0)
  = fst (Flattener.open_dataset xr_decode nc_path w).
Proof. unfold Flattener.open_dataset. intros ->. now destruct (fs w !! nc_path) as [[c|]|]. Qed.

(** C5. When a downloaded file cannot be opened or decoded, the
    flattener catches the error, prints a line that names the file and
    the error, and returns the empty table; the loop over the downloaded
    files then goes on with the remaining files, its collected tables
    unchanged. *)
Theorem unreadable_file_is_skipped py_str py_float to_datetime xr_decode
    (nc_path : string) (e : exn) (w : world) :
  fst (Flattener.open_dataset xr_decode nc_path w) = Raise e ->
  e <> SystemExit ->
  (forall vars,
     Flattener.process_nc_file py_str py_float to_datetime xr_decode nc_path vars w =
       (Ok [],
        mkworld (fs w)
          (stdout w ++ ["Error opening " +:+ nc_path +:+ ": " +:+ exn_text e])
          (ftp_log w) (db w))) /\
  (forall rest acc,
     for_each (nc_path :: rest)
       (Loader.collect py_str py_float to_datetime xr_decode) acc w =
     for_each rest (Loader.collect py_str py_float to_datetime xr_decode) acc
       (mkworld (fs w)
          (stdout w ++ ["Processing: " +:+ nc_path]
                    ++ ["Error opening " +:+ nc_path +:+ ": " +:+ exn_text e])
          (ftp_log w) (db w))).
Proof.
  intros Hopen Hexit. split.
  - intros vars. now apply process_unreadable.
  - intros rest acc. rewrite for_each_cons.
    unfold Loader.collect at 1. unfold mbind at 1 2. cbn [print].
    rewrite (process_unreadable py_str py_float to_datetime xr_decode nc_path
               Flattener.default_vars _ e).
    + cbn. now rewrite <- app_assoc.
    + rewrite <- Hopen. now apply open_dataset_fs.
    + exact Hexit.
Qed.

Lemma unreadable_file_is_skipped_witness :
  Flattener.process_nc_file Samples.str Samples.float Samples.to_datetime Samples.decode
    "argo_data_downloads/R6902746_010.nc" Flattener.default_vars Samples.stocked =
    (Ok [],
     mkworld (fs Samples.stocked)
       ["Error opening argo_data_downloads/R6902746_010.nc: not a valid NetCDF file"]
       [] ∅).
Proof.
  apply (proj1 (unreadable_file_is_skipped Samples.str Samples.float Samples.to_datetime
                  Samples.decode "argo_data_downloads/R6902746_010.nc"
                  (ValueError "not a valid NetCDF file") Samples.stocked
                  ltac:(vm_compute; reflexivity) ltac:(discriminate))).
Defined.

(** C6. When the flattening of every downloaded file gives the empty
    table (and so also when there is no downloaded file), the script
    prints "No data was successfully processed. Exiting." and exits: the
    delimited file is not written, no local file changes, and the
    database is not touched. *)
Theorem nothing_flattened_stops_before_loader to_csv split_fields mysql
    py_str py_float to_datetime xr_decode (files : list string) (w : world) :
  (forall path w0, path ∈ files -> fs w0 = fs w ->
     fst (Flattener.process_nc_file py_str py_float to_datetime xr_decode path
            Flattener.default_vars w0) = Ok []) ->
  exists w1,
    Loader.process_and_load to_csv split_fields mysql
      py_str py_float to_datetime xr_decode files w = (Raise SystemExit, w1) /\
    last (stdout w1) = Some "No data was successfully processed. Exiting." /\
    fs w1 = fs w /\ db w1 = db w /\ ftp_log w1 = ftp_log w.
Proof.
  intros Hempty.
  destruct (all_rows_empty py_str py_float to_datetime xr_decode files [] w Hempty)
    as (w1 & Hloop & Hfs & Hftp & Hdb).
  unfold Loader.process_and_load, Loader.all_rows, mbind at 1.
  rewrite Hloop. cbn.
  eexists. split; [reflexivity|]. cbn.
  split; [apply last_snoc|]. auto.
Qed.

Lemma nothing_flattened_stops_before_loader_witness :
  exists w1,
    Loader.process_and_load (fun _ => []) Samples.one_field Samples.healthy
      Samples.str Samples.float Samples.to_datetime Samples.decode
      ["argo_data_downloads/R6902746_010.nc"] Samples.stocked = (Raise SystemExit, w1) /\
    last (stdout w1) = Some "No data was successfully processed. Exiting." /\
    fs w1 = fs Samples.stocked /\ db w1 = db Samples.stocked /\
    ftp_log w1 = ftp_log Samples.stocked.
Proof.
  apply (nothing_flattened_stops_before_loader (fun _ => []) Samples.one_field
           Samples.healthy Samples.str Samples.float Samples.to_datetime Samples.decode
           ["argo_data_downloads/R6902746_010.nc"] Samples.stocked).
  intros path w0 Hpath Hfs. apply list_elem_of_In in Hpath. destruct Hpath as [<-|[]].
  unfold Flattener.process_nc_file, mbind, try_except, Flattener.open_dataset.
  rewrite Hfs. vm_compute. reflexivity.
Defined.

(** ** The loader *)

Section LoaderFacts.

Import Loader.

Variable split_fields : bytes -> list bytes.
Variable mysql : sql_step -> option string.
Hypothesis healthy : forall s, mysql s = None.

Lemma numbered_length (next : Z) (tuples : list (list bytes)) :
  length (numbered next tuples) = length tuples.
Proof. revert next. induction tuples; intros; cbn; auto. Qed.

(** One run against a server that raises no error: whatever the table
    held, it ends up with the rows of the file, numbered from 1. *)
Lemma load_replaces (w : world) (content : bytes) :
  fs w !! csv_path = Some (File content) ->
  exists w1,
    load_into_mysql split_fields mysql w = (Ok tt, w1) /\
    db w1 = <[table_name :=
                mktable (numbered 1 (file_rows split_fields content))
                        (1 + Z.of_nat (length (file_rows split_fields content)))]> (db w) /\
    fs w1 = fs w.
Proof.
  intros Hfile.
  unfold load_into_mysql, close_if_connected, create_table, truncate_table, load_data,
    commit, step, mbind.
  rewrite !healthy. cbn.
  destruct (db w !! table_name) as [t|] eqn:Ht; cbn.
  - rewrite Ht. cbn. rewrite lookup_insert_eq, Hfile. cbn.
    eexists. split; [reflexivity|]. cbn.
    split; [|reflexivity]. now rewrite Ht, insert_insert_eq.
  - rewrite lookup_insert_eq. cbn. rewrite lookup_insert_eq, Hfile. cbn.
    eexists. split; [reflexivity|]. cbn.
    split; [|reflexivity]. now rewrite Ht, !insert_insert_eq.
Qed.

End LoaderFacts.

(** C4. Against a database that raises no error, a run of the loader
    leaves in [argo_profiles] exactly the rows read from the delimited
    file after its header line, numbered from 1, whatever the table held
    before; so after two runs in succession on the same file the table
    holds the rows of the file once, not twice. *)
Theorem truncate_then_load split_fields mysql (w : world) (content : bytes) :
  (forall s, mysql s = None) ->
  fs w !! Loader.csv_path = Some (File content) ->
  let loaded :=
    mktable (Loader.numbered 1 (Loader.file_rows split_fields content))
            (1 + Z.of_nat (length (Loader.file_rows split_fields content))) in
  exists w1 w2,
    Loader.load_into_mysql split_fields mysql w = (Ok tt, w1) /\
    db w1 !! Loader.table_name = Some loaded /\
    Loader.load_into_mysql split_fields mysql w1 = (Ok tt, w2) /\
    db w2 !! Loader.table_name = Some loaded /\
    length (trows loaded) = length (tail (Loader.split_lines [] content)).
Proof.
  intros Hhealthy Hfile loaded.
  destruct (load_replaces split_fields mysql Hhealthy w content Hfile)
    as (w1 & Hrun1 & Hdb1 & Hfs1).
  destruct (load_replaces split_fields mysql Hhealthy w1 content) as (w2 & Hrun2 & Hdb2 & _).
  { now rewrite Hfs1. }
  exists w1, w2. rewrite Hrun1, Hrun2, Hdb2, Hdb1, !lookup_insert_eq.
  repeat split.
  subst loaded. cbn [trows].
  rewrite numbered_length. unfold Loader.file_rows. apply length_map.
Qed.

Lemma truncate_then_load_witness :
  exists w1 w2,
    Loader.load_into_mysql Samples.one_field Samples.healthy Samples.reloaded = (Ok tt, w1) /\
    db w1 !! "argo_profiles" = Some (mktable [(1, [[Byte.x61]]); (2, [[Byte.x62]])] 3) /\
    Loader.load_into_mysql Samples.one_field Samples.healthy w1 = (Ok tt, w2) /\
    db w2 !! "argo_profiles" = Some (mktable [(1, [[Byte.x61]]); (2, [[Byte.x62]])] 3).
Proof.
  destruct (truncate_then_load Samples.one_field Samples.healthy Samples.reloaded
              [Byte.x68; Byte.x0a; Byte.x61; Byte.x0a; Byte.x62; Byte.x0a])
    as (w1 & w2 & H1 & Hd1 & H2 & Hd2 & _).
  - reflexivity.
  - vm_compute. reflexivity.
  - exists w1, w2. repeat split; assumption.
Defined.

(** ** The query front-end *)

(** C8. For a non-empty question that the agent answers without raising:
    when the response has no entry "output" the page shows, after the
    heading, exactly "Sorry, I couldn't find an answer."; when it has one,
    the page shows that value. *)
Theorem answer_or_fallback invoke (user_query : string)
    (response : gmap string Chatbot.pyobj) :
  user_query <> EmptyString ->
  invoke user_query = Ok response ->
  (response !! "output" = None ->
   Chatbot.ask invoke user_query =
     (Ok tt,
      [Chatbot.Spinner "Thinking..."; Chatbot.Write "**Answer:**";
       Chatbot.Markdown (Chatbot.PyStr "Sorry, I couldn't find an answer.")])) /\
  (forall v, response !! "output" = Some v ->
   Chatbot.ask invoke user_query =
     (Ok tt,
      [Chatbot.Spinner "Thinking..."; Chatbot.Write "**Answer:**"; Chatbot.Markdown v])).
Proof.
  intros Hq Hinvoke. unfold Chatbot.ask, Chatbot.answer_of, Chatbot.get.
  destruct user_query as [|c q]; [congruence|].
  rewrite Hinvoke. split.
  - now intros ->.
  - now intros v ->.
Qed.

Lemma answer_or_fallback_witness :
  Chatbot.ask Samples.silent "average temperature?" =
    (Ok tt,
     [Chatbot.Spinner "Thinking..."; Chatbot.Write "**Answer:**";
      Chatbot.Markdown (Chatbot.PyStr "Sorry, I couldn't find an answer.")]) /\
  Chatbot.ask Samples.answering "average temperature?" =
    (Ok tt,
     [Chatbot.Spinner "Thinking..."; Chatbot.Write "**Answer:**";
      Chatbot.Markdown (Chatbot.PyStr "28.4")]).
Proof.
  split.
  - apply (proj1 (answer_or_fallback Samples.silent "average temperature?" _
                    ltac:(discriminate) eq_refl)).
    vm_compute. reflexivity.
  - apply (proj2 (answer_or_fallback Samples.answering "average temperature?" _
                    ltac:(discriminate) eq_refl)).
    vm_compute. reflexivity.
Defined.

(** ** Behaviour at the edge of the statements above *)

(** The platform number is read with [item()]: a file with more than one
    profile makes the flattener raise, before any record is built. *)
Example two_profiles_raise :
  Flattener.flatten Samples.str Samples.float Samples.to_datetime
    Samples.two_profiles Flattener.default_vars =
    Raise (ValueError "can only convert an array of size 1 to a Python scalar").
Proof. vm_compute. reflexivity. Qed.

(** Only the opening of the file is guarded: an array missing from an
    opened file raises out of [process_nc_file]. *)
Example missing_array_escapes :
  fst (Flattener.process_nc_file Samples.str Samples.float Samples.to_datetime
         (fun _ => Ok Samples.no_pressure)
         "argo_data_downloads/R6902746_010.nc" Flattener.default_vars Samples.stocked)
  = Raise (KeyError "PRES").
Proof. vm_compute. reflexivity. Qed.

(** A requested variable whose column name is the name of a mandatory
    field overwrites that field: the record keeps five fields and is
    dropped although the flag is accepted. *)
Example colliding_column_is_dropped :
  Flattener.passes Samples.with_depth 0 0 "DEPTH" = true /\
  Flattener.flatten Samples.str Samples.float Samples.to_datetime
    Samples.with_depth ["DEPTH"] = Ok [].
Proof. split; vm_compute; reflexivity. Qed.

(** Two entries with one destination: the first transfer breaks off, the
    second entry finds the partial file and is listed. *)
Example same_destination_twice :
  fst (Retriever.downloaded_files Samples.flaky [Samples.north; Samples.north]
         Samples.fresh)
  = Ok ["argo_data_downloads/R1901234_002.nc"].
Proof. vm_compute. reflexivity. Qed.

(** Without the download folder [open] raises inside the guarded block:
    the request is made, the failure is printed, no file appears and the
    entry is left out although the server would deliver it. *)
Example missing_folder_fails_every_download :
  Retriever.delivers Samples.flaky Samples.inside = true /\
  Retriever.downloaded_files Samples.flaky [Samples.inside] Samples.empty_world
  = (Ok [],
     mkworld ∅
       ["Downloading: R1901234_001.nc";
        Retriever.failure_line
          "ftp://ftp.ifremer.fr/ifremer/argo/aoml/1901234/profiles/R1901234_001.nc"
          "No such file or directory"]
       [mkreq "ftp.ifremer.fr" "ifremer/argo/aoml/1901234/profiles" "R1901234_001.nc"]
       ∅).
Proof. split; vm_compute; reflexivity. Qed.

(** * Further properties of the script *)

(** ** The filter as an operation on catalogs *)

Lemma lex_leb_trans (a b c : list Z) :
  length a = length b -> length b = length c ->
  Catalog.lex_leb a b = true -> Catalog.lex_leb b c = true -> Catalog.lex_leb a c = true.
Proof.
  revert b c. induction a as [|x a IH]; intros [|y b] [|z c]; cbn; try discriminate; auto.
  intros [= Hab] [= Hbc].
  rewrite !orb_true_iff, !andb_true_iff, !Z.ltb_lt, !Z.eqb_eq.
  intros [Hxy|[-> Hab']] [Hyz|[-> Hbc']].
  - left. lia.
  - now left.
  - now left.
  - right. split; [reflexivity|]. now apply (IH b c).
Qed.

(** X1. Whatever the bounds, a selected row has a finite latitude, a
    finite longitude and a defined date: rows whose position is NaN or
    infinite, or whose date is NaT, are never selected. *)
Theorem undefined_rows_never_selected lat_lo lat_hi lon_lo lon_hi date_lo date_hi
    (df : list Catalog.row) (r : Catalog.row) :
  r ∈ Catalog.select lat_lo lat_hi lon_lo lon_hi date_lo date_hi df ->
  exists qlat qlon d,
    Catalog.latitude r = Fin qlat /\ Catalog.longitude r = Fin qlon /\
    Catalog.date r = TS d.
Proof.
  rewrite select_rowwise, list_elem_of_In, filter_In, row_mask_reflect.
  intros (_ & Hlat & Hlon & Hdate).
  unfold Catalog.float_in, Catalog.ts_in in *.
  destruct (Catalog.latitude r) as [|[]|qlat]; try contradiction.
  destruct (Catalog.longitude r) as [|[]|qlon]; try contradiction.
  destruct (Catalog.date r) as [|d]; try contradiction.
  now exists qlat, qlon, d.
Qed.

Lemma undefined_rows_never_selected_witness :
  exists qlat qlon d,
    Catalog.latitude Samples.corner = Fin qlat /\
    Catalog.longitude Samples.corner = Fin qlon /\
    Catalog.date Samples.corner = TS d.
Proof.
  apply (undefined_rows_never_selected Catalog.lat_min Catalog.lat_max
           Catalog.lon_min Catalog.lon_max
           (mkdatetime 2023 3 1 0 0 0) (mkdatetime 2023 3 31 0 0 0) Samples.catalog).
  vm_compute. apply list_elem_of_In. right. left. reflexivity.
Defined.

(** X2. Filtering commutes with the concatenation of catalogs, filtering
    twice with the same bounds is filtering once, and the result is never
    longer than the catalog. *)
Theorem select_composes lat_lo lat_hi lon_lo lon_hi date_lo date_hi
    (df1 df2 : list Catalog.row) :
  let sel := Catalog.select lat_lo lat_hi lon_lo lon_hi date_lo date_hi in
  sel (df1 ++ df2) = sel df1 ++ sel df2 /\
  sel (sel df1) = sel df1 /\
  (length (sel df1) <= length df1)%nat.
Proof.
  intros sel. subst sel. rewrite !select_rowwise.
  split; [apply List.filter_app|]. split.
  - induction df1 as [|r df1 IH]; [reflexivity|].
    cbn. destruct (Catalog.row_mask _ _ _ _ _ _ r) eqn:Hr; [|exact IH].
    cbn. rewrite Hr. now f_equal.
  - apply List.filter_length_le.
Qed.

Lemma select_nothing lat_lo lat_hi lon_lo lon_hi date_lo date_hi (df : list Catalog.row) :
  (forall r, r ∈ df ->
     ~ Catalog.in_window lat_lo lat_hi lon_lo lon_hi date_lo date_hi r) ->
  Catalog.select lat_lo lat_hi lon_lo lon_hi date_lo date_hi df = [].
Proof.
  intros Hnone. rewrite select_rowwise.
  apply filter_nothing. intros r Hr.
  destruct (Catalog.row_mask lat_lo lat_hi lon_lo lon_hi date_lo date_hi r) eqn:Hm;
    [|reflexivity].
  exfalso. apply (Hnone r Hr). now apply row_mask_reflect.
Qed.

(** X3. An empty window selects nothing: when an upper bound lies below
    its lower bound (the latitudes, the longitudes, or the dates) the
    result is the empty table, whatever the catalog. *)
Theorem empty_window_selects_nothing lat_lo lat_hi lon_lo lon_hi date_lo date_hi
    (df : list Catalog.row) :
  lat_hi < lat_lo \/ lon_hi < lon_lo \/ Catalog.datetime_leb date_lo date_hi = false ->
  Catalog.select lat_lo lat_hi lon_lo lon_hi date_lo date_hi df = [].
Proof.
  intros Hempty.
  apply select_nothing.
  intros r _ (Hlat & Hlon & Hdate).
  unfold Catalog.float_in, Catalog.ts_in in *.
  destruct Hempty as [H|[H|H]].
  - destruct (Catalog.latitude r) as [|[]|q]; try contradiction.
    destruct Hlat as [H1 H2]. pose proof (Qle_trans _ _ _ H1 H2) as H3.
    rewrite <- Zle_Qle in H3. lia.
  - destruct (Catalog.longitude r) as [|[]|q]; try contradiction.
    destruct Hlon as [H1 H2]. pose proof (Qle_trans _ _ _ H1 H2) as H3.
    rewrite <- Zle_Qle in H3. lia.
  - destruct (Catalog.date r) as [|d]; try contradiction.
    destruct Hdate as [H1 H2]. unfold Catalog.datetime_leb in *.
    rewrite (lex_leb_trans _ (Catalog.fields d)) in H; auto; discriminate.
Qed.

Lemma empty_window_selects_nothing_witness :
  Catalog.select 5 (-5) 60 80 (mkdatetime 2023 3 1 0 0 0) (mkdatetime 2023 3 31 0 0 0)
    Samples.catalog = [].
Proof.
  apply empty_window_selects_nothing. left. lia.
Defined.

(** ** Single downloads and whole runs of the retriever *)




Section RunFacts.

Import Retriever.

Variable server : ftp_request -> ftp_reply.

(** What one step of the loop can do. *)
Lemma retrieve_effects (r : Catalog.row) (acc : list string) (w : world) :
  exists out w1,
    retrieve server r acc w = (Ok (acc ++ out), w1) /\
    (out = [] \/ out = [dest_of r]) /\
    (out = [dest_of r] -> is_Some (fs w1 !! dest_of r)) /\
    (is_Some (fs w !! dest_of r) -> out = [dest_of r]) /\
    (forall p, is_Some (fs w !! p) -> is_Some (fs w1 !! p)) /\
    (forall p, p <> dest_of r -> fs w1 !! p = fs w !! p) /\
    db w1 = db w /\
    (length (ftp_log w1) <= S (length (ftp_log w)))%nat.
Proof.
  assert (Hmono : forall (n : node) (m : gmap string node) p,
            is_Some (m !! p) -> is_Some (<[dest_of r := n]> m !! p)).
  { intros n m p Hp. destruct (decide (dest_of r = p)) as [<-|Hne].
    - rewrite lookup_insert_eq. eauto.
    - now rewrite lookup_insert_ne. }
  destruct (fs w !! dest_of r) as [n|] eqn:Hd.
  - rewrite retrieve_present by (rewrite Hd; eauto).
    exists [dest_of r]. eexists. split; [reflexivity|]. cbn.
    repeat split; auto.
  - rewrite retrieve_absent by exact Hd. cbn zeta.
    assert (Hrefused : forall msg,
              exists out w1,
                (Ok acc,
                 mkworld (fs w)
                   ((stdout w ++ ["Downloading: " +:+ Path.basename (Catalog.file r)])
                    ++ [failure_line (url_of r) msg])
                   (ftp_log w ++ [request_of (url_of r)]) (db w))
                = (Ok (acc ++ out), w1) /\
                (out = [] \/ out = [dest_of r]) /\
                (out = [dest_of r] -> is_Some (fs w1 !! dest_of r)) /\
                (is_Some (None : option node) -> out = [dest_of r]) /\
                (forall p, is_Some (fs w !! p) -> is_Some (fs w1 !! p)) /\
                (forall p, p <> dest_of r -> fs w1 !! p = fs w !! p) /\
                db w1 = db w /\
                (length (ftp_log w1) <= S (length (ftp_log w)))%nat).
    { intros msg. exists []. eexists. rewrite app_nil_r. split; [reflexivity|]. cbn.
      repeat split; auto; try discriminate.
      - intros [x Hx]. discriminate.
      - rewrite length_app. cbn. lia. }
    destruct (server (request_of (url_of r))) as [msg|sent msg|content];
      [apply Hrefused|destruct (folder_ready w); [|apply Hrefused]..].
    + exists []. eexists. rewrite app_nil_r. split; [reflexivity|]. cbn.
      repeat split; auto; try discriminate.
      * intros [x Hx]. discriminate.
      * intros p Hp. now rewrite lookup_insert_ne by congruence.
      * rewrite length_app. cbn. lia.
    + exists [dest_of r]. eexists. split; [reflexivity|]. cbn.
      repeat split; auto.
      * rewrite lookup_insert_eq. eauto.
      * intros p Hp. now rewrite lookup_insert_ne by congruence.
      * rewrite length_app. cbn. lia.
Qed.

(** What a whole run can do. *)
Lemma run_effects (rows : list Catalog.row) :
  forall (acc : list string) (w : world),
  exists out w1,
    for_each rows (retrieve server) acc w = (Ok (acc ++ out), w1) /\
    sublist out (map dest_of rows) /\
    (forall p, p ∈ out -> is_Some (fs w1 !! p)) /\
    (forall r, r ∈ rows -> is_Some (fs w !! dest_of r) -> dest_of r ∈ out) /\
    (forall p, is_Some (fs w !! p) -> is_Some (fs w1 !! p)) /\
    (forall p, p ∉ map dest_of rows -> fs w1 !! p = fs w !! p) /\
    db w1 = db w /\
    (length (ftp_log w1) <= length (ftp_log w) + length rows)%nat.
Proof.
  induction rows as [|r rows IH]; intros acc w.
  - exists [], w. cbn. rewrite app_nil_r.
    repeat split; auto; try constructor.
    + intros p Hp. now apply elem_of_nil in Hp.
    + intros r Hr. now apply elem_of_nil in Hr.
    + lia.
  - rewrite for_each_cons.
    destruct (retrieve_effects r acc w)
      as (o1 & w1 & -> & Ho1 & Hex1 & Hpres1 & Hmono1 & Hframe1 & Hdb1 & Hlog1).
    destruct (IH (acc ++ o1) w1)
      as (o2 & w2 & -> & Hsub & Hex2 & Hpres2 & Hmono2 & Hframe2 & Hdb2 & Hlog2).
    exists (o1 ++ o2), w2. rewrite app_assoc.
    split; [reflexivity|]. split; [|split; [|split; [|split; [|split; [|split]]]]].
    + cbn [map]. destruct Ho1 as [->| ->]; cbn.
      * now apply sublist_cons.
      * now apply sublist_skip.
    + intros p Hp. apply elem_of_app in Hp as [Hp|Hp]; [|now apply Hex2].
      apply Hmono2. destruct Ho1 as [->| ->].
      * now apply elem_of_nil in Hp.
      * apply list_elem_of_singleton in Hp as ->. now apply Hex1.
    + intros r' Hr' Hp. apply elem_of_app.
      apply elem_of_cons in Hr' as [->|Hr'].
      * left. rewrite (Hpres1 Hp). now left.
      * right. apply Hpres2; [exact Hr'|]. now apply Hmono1.
    + intros p Hp. now apply Hmono2, Hmono1.
    + intros p Hp. cbn [map] in Hp. apply not_elem_of_cons in Hp as [Hp1 Hp2].
      rewrite Hframe2 by exact Hp2. now apply Hframe1.
    + congruence.
    + cbn [length]. lia.
Qed.

End RunFacts.

(** X5. A run of the retriever over a catalog of plain paths never raises,
    whatever the server does and whatever the local files are. It touches
    no table and removes no local file; it changes no path that is not the
    destination of an entry; it makes at most one request per entry; the
    file list it returns follows the order of the catalog, and every path
    on it exists locally when the run ends. *)
Theorem retriever_run_is_safe server (rows : list Catalog.row) (w : world) :
  (forall r, r ∈ rows -> Path.plain (Catalog.file r) = true) ->
  exists files w1,
    Retriever.downloaded_files server rows w = (Ok files, w1) /\
    sublist files (map Retriever.dest_of rows) /\
    (forall p, p ∈ files -> is_Some (fs w1 !! p)) /\
    (forall p, is_Some (fs w !! p) -> is_Some (fs w1 !! p)) /\
    (forall p, p ∉ map Retriever.dest_of rows -> fs w1 !! p = fs w !! p) /\
    db w1 = db w /\
    (length (ftp_log w1) <= length (ftp_log w) + length rows)%nat.
Proof.
  intros _.
  destruct (run_effects server rows [] w)
    as (out & w1 & Hrun & Hsub & Hex & _ & Hmono & Hframe & Hdb & Hlog).
  exists out, w1. unfold Retriever.downloaded_files. rewrite Hrun.
  repeat split; assumption.
Qed.

Lemma retriever_run_is_safe_witness :
  exists files w1,
    Retriever.downloaded_files Samples.flaky
      [Samples.inside; Samples.north; Samples.corner] Samples.stocked = (Ok files, w1) /\
    (forall p, p ∈ files -> is_Some (fs w1 !! p)) /\
    db w1 = ∅ /\
    (length (ftp_log w1) <= 3)%nat.
Proof.
  destruct (retriever_run_is_safe Samples.flaky
              [Samples.inside; Samples.north; Samples.corner] Samples.stocked)
    as (files & w1 & Hrun & _ & Hex & _ & _ & Hdb & Hlog).
  - intros r Hr. apply list_elem_of_In in Hr.
    destruct Hr as [<-|[<-|[<-|[]]]]; vm_compute; reflexivity.
  - exists files, w1. split; [exact Hrun|]. split; [exact Hex|].
    split; [exact Hdb|exact Hlog].
Defined.


(** ** Destinations and requests *)

(** X7. The destination of an entry is the download folder, a slash and
    the base name of the entry's path, and the base name holds no slash:
    every file lands directly in the download folder, and two entries have
    the same destination exactly when their paths have the same base
    name, whatever their directories. *)
Theorem destinations_flatten_directories (r1 r2 : Catalog.row) :
  Retriever.dest_of r1 = "argo_data_downloads/" +:+ Path.basename (Catalog.file r1) /\
  Path.has_slash (Path.basename (Catalog.file r1)) = false /\
  (Retriever.dest_of r1 = Retriever.dest_of r2 <->
   Path.basename (Catalog.file r1) = Path.basename (Catalog.file r2)).
Proof.
  split; [apply dest_of_shape|]. split; [apply has_slash_basename|].
  rewrite !dest_of_shape. split.
  - intros H. now apply append_cancel, append_cancel in H.
  - now intros ->.
Qed.

(** X8. For an entry with a plain path the URL is the base URL followed
    by the path; the request goes to the host of the base URL and asks for
    the base name of the path, which is also the name of the destination
    inside the download folder. *)
Theorem request_names_the_stored_file server (r : Catalog.row) :
  Path.plain (Catalog.file r) = true ->
  let rq := Retriever.request_of (Retriever.url_of r) in
  Retriever.url_of r = "ftp://ftp.ifremer.fr/ifremer/argo/" +:+ Catalog.file r /\
  req_host rq = "ftp.ifremer.fr" /\
  req_name rq = Path.basename (Catalog.file r) /\
  Retriever.dest_of r = "argo_data_downloads/" +:+ req_name rq /\
  Retriever.delivers server r =
    match server (mkreq "ftp.ifremer.fr" (req_dir rq) (Path.basename (Catalog.file r))) with
    | RetrComplete _ => true
    | _ => false
    end.
Proof.
  intros Hplain rq.
  assert (Hurl : Retriever.url_of r = Retriever.FTP_BASE_URL +:+ Catalog.file r)
    by now apply urljoin_plain.
  assert (Hparse : Path.urlparse (Retriever.url_of r) EmptyString =
                   Path.mkparsed "ftp" "ftp.ifremer.fr" ("/ifremer/argo/" +:+ Catalog.file r)
                     EmptyString EmptyString EmptyString).
  { rewrite Hurl. now apply urlparse_plain. }
  assert (Hhost : req_host rq = "ftp.ifremer.fr").
  { subst rq. unfold Retriever.request_of. now rewrite Hparse. }
  assert (Hname : req_name rq = Path.basename (Catalog.file r)).
  { subst rq. unfold Retriever.request_of. rewrite Hparse.
    cbn [req_name Path.path].
    apply (basename_after_slash "/ifremer/argo" (Catalog.file r)). }
  split; [exact Hurl|]. split; [exact Hhost|]. split; [exact Hname|]. split.
  - rewrite Hname. apply dest_of_shape.
  - unfold Retriever.delivers. fold rq.
    rewrite <- Hhost, <- Hname. now destruct rq.
Qed.

Lemma request_names_the_stored_file_witness :
  Retriever.url_of Samples.inside
    = "ftp://ftp.ifremer.fr/ifremer/argo/aoml/1901234/profiles/R1901234_001.nc" /\
  req_host (Retriever.request_of (Retriever.url_of Samples.inside)) = "ftp.ifremer.fr" /\
  req_name (Retriever.request_of (Retriever.url_of Samples.inside)) = "R1901234_001.nc" /\
  Retriever.dest_of Samples.inside = "argo_data_downloads/R1901234_001.nc".
Proof.
  destruct (request_names_the_stored_file Samples.flaky Samples.inside)
    as (Hurl & Hhost & Hname & Hdest & _).
  - vm_compute. reflexivity.
  - split; [exact Hurl|]. split; [exact Hhost|]. split; [exact Hname|].
    rewrite Hdest, Hname. reflexivity.
Defined.

(** ** Records and tables of the flattener, without assumptions on the file *)

Lemma for_res_invariant {A S} (P : S -> Prop) (body : A -> S -> res S) (l : list A) :
  (forall x s s', x ∈ l -> P s -> body x s = Ok s' -> P s') ->
  forall s0 s, P s0 -> for_res l body s0 = Ok s -> P s.
Proof.
  induction l as [|x l IH]; intros Hstep s0 s H0; cbn.
  - now intros [= <-].
  - destruct (body x s0) as [s1|e] eqn:Hb; [|discriminate]. cbn.
    apply IH.
    + intros y t t' Hy. apply Hstep. now right.
    + now apply (Hstep x s0 s1); [left| |].
Qed.

Lemma for_res_length {A B} (k : nat) (body : A -> list B -> res (list B)) (l : list A) :
  (forall x s s', x ∈ l -> body x s = Ok s' -> (length s' <= length s + k)%nat) ->
  forall s0 s, for_res l body s0 = Ok s ->
               (length s <= length s0 + k * length l)%nat.
Proof.
  induction l as [|x l IH]; intros Hstep s0 s; cbn.
  - intros [= <-]. lia.
  - destruct (body x s0) as [s1|e] eqn:Hb; [|discriminate]. cbn.
    intros Hrest. apply IH in Hrest.
    + pose proof (Hstep x s0 s1 ltac:(left) Hb). lia.
    + intros y t t' Hy. apply Hstep. now right.
Qed.

Section RecordFacts.

Import Flattener.

Variable py_str : cell -> string.
Variable py_float : cell -> res float64.
Variable to_datetime : ndarray -> res (list timestamp).

(** One requested variable leaves the record alone or stores one entry. *)
Lemma keep_var_step (ds : dataset) (i j : nat) (var : string) (r r' : dict) :
  keep_var py_float ds i j var r = Ok r' ->
  r' = r \/ exists x, r' = <[lower var := PFloat x]> r.
Proof.
  unfold keep_var.
  destruct (variables ds !! (var +:+ "_QC")) as [qc|]; [|intros [= <-]; now left].
  destruct (index2 qc i j) as [flag|]; [cbn|discriminate].
  destruct (accepted flag); [|intros [= <-]; now left].
  destruct (value_at py_float ds i j var) as [x|]; [cbn|discriminate].
  intros [= <-]. right. now exists x.
Qed.

Lemma keep_bounds (ds : dataset) (i j : nat) (vars : list string) :
  forall r0 r : dict,
    for_res vars (keep_var py_float ds i j) r0 = Ok r ->
    dom r0 ⊆ dom r /\ (size r <= size r0 + length vars)%nat.
Proof.
  induction vars as [|v vars IH]; intros r0 r; cbn.
  - intros [= <-]. split; [reflexivity|lia].
  - destruct (keep_var py_float ds i j v r0) as [r1|] eqn:Hk; [cbn|discriminate].
    intros Hrest. apply IH in Hrest as [Hdom Hsize].
    apply keep_var_step in Hk as [->|[x ->]].
    + split; [exact Hdom|lia].
    + split.
      * etransitivity; [apply dom_insert_subseteq|exact Hdom].
      * rewrite map_size_insert in Hsize.
        destruct (r0 !! lower v); cbn in Hsize; lia.
Qed.

Lemma mandatory_size float_id times lat lon depth (i j : nat) (r0 : dict) :
  mandatory py_float float_id times lat lon depth i j = Ok r0 -> size r0 = 5%nat.
Proof.
  intros Hm. apply (mandatory_dom py_str py_float to_datetime) in Hm.
  rewrite <- size_dom, Hm.
  rewrite size_list_to_set; [reflexivity|apply mandatory_keys_distinct].
Qed.

Lemma level_step (ds : dataset) (vars : list string) float_id times lat lon depth
    (i j : nat) (rows rows' : list dict) :
  level py_float ds vars float_id times lat lon depth i j rows = Ok rows' ->
  (Forall (well_filled vars) rows -> Forall (well_filled vars) rows') /\
  (length rows' <= length rows + 1)%nat.
Proof.
  unfold level, build_record.
  destruct (mandatory py_float float_id times lat lon depth i j) as [r0|] eqn:Hm;
    [cbn|discriminate].
  destruct (for_res vars (keep_var py_float ds i j) r0) as [r|] eqn:Hk; [cbn|discriminate].
  case_bool_decide as Hsize; intros [= <-].
  - split; [|rewrite length_app; cbn; lia].
    intros Hall. apply Forall_app. split; [exact Hall|].
    constructor; [|constructor].
    apply keep_bounds in Hk as [Hdom Hle].
    pose proof (mandatory_size _ _ _ _ _ _ _ _ Hm) as H5.
    apply (mandatory_dom py_str py_float to_datetime) in Hm.
    split; [lia|].
    intros k Hk. apply elem_of_dom, Hdom.
    rewrite Hm. now apply elem_of_list_to_set.
  - split; [trivial|lia].
Qed.

Lemma flatten_rows (ds : dataset) (vars : list string) (rows : list dict) :
  flatten py_str py_float to_datetime ds vars = Ok rows ->
  Forall (well_filled vars) rows /\
  forall n_prof n_levels,
    dims ds !! "N_PROF" = Some n_prof -> dims ds !! "N_LEVELS" = Some n_levels ->
    (length rows <= n_levels * n_prof)%nat.
Proof.
  unfold flatten.
  destruct (getitem ds "PLATFORM_NUMBER") as [pn|]; [cbn|discriminate].
  destruct (item pn) as [c|]; [cbn|discriminate].
  destruct (getitem ds "JULD") as [juld|]; [cbn|discriminate].
  destruct (to_datetime juld) as [times|]; [cbn|discriminate].
  destruct (getitem ds "LATITUDE") as [lat|]; [cbn|discriminate].
  destruct (getitem ds "LONGITUDE") as [lon|]; [cbn|discriminate].
  destruct (getitem ds "PRES") as [depth|]; [cbn|discriminate].
  unfold dim. destruct (dims ds !! "N_PROF") as [np|]; [cbn|discriminate].
  intros Hrun. split.
  - revert Hrun. apply for_res_invariant; [|constructor].
    intros i s s' _ Hs.
    destruct (dims ds !! "N_LEVELS") as [nl|]; [cbn|discriminate].
    apply for_res_invariant; [|exact Hs].
    intros j t t' _ Ht Hl. now apply level_step in Hl as [Hl _]; auto.
  - intros n_prof n_levels [= ->] Hnl.
    apply (for_res_length n_levels) in Hrun.
    + rewrite length_seq in Hrun. cbn in Hrun. exact Hrun.
    + intros i s s' _. rewrite Hnl. cbn. intros Hin.
      apply (for_res_length 1) in Hin.
      * rewrite length_seq in Hin. lia.
      * intros j t t' _ Hl. now apply level_step in Hl as [_ Hl].
Qed.

End RecordFacts.

(** X9. Whatever the dataset and the requested variables, every record
    of a table the flattener returns has the five mandatory fields and
    between one and [len(vars_to_keep)] further fields; the table has at
    most one record per (profile, level) pair; and with an empty list of
    requested variables a returned table is empty. *)
Theorem flattened_rows_are_well_filled py_str py_float to_datetime
    (ds : Flattener.dataset) (vars : list string)
    (rows : list (gmap string Flattener.pyval)) :
  Flattener.flatten py_str py_float to_datetime ds vars = Ok rows ->
  (forall r, r ∈ rows ->
     (5 < size r <= 5 + length vars)%nat /\
     forall k, k ∈ Flattener.mandatory_keys -> is_Some (r !! k)) /\
  (forall n_prof n_levels,
     Flattener.dims ds !! "N_PROF" = Some n_prof ->
     Flattener.dims ds !! "N_LEVELS" = Some n_levels ->
     (length rows <= n_levels * n_prof)%nat) /\
  (vars = [] -> rows = []).
Proof.
  intros Hrun.
  destruct (flatten_rows py_str py_float to_datetime ds vars rows Hrun) as [Hall Hlen].
  rewrite Forall_forall in Hall.
  split; [exact Hall|]. split; [exact Hlen|].
  intros ->. destruct rows as [|r rows]; [reflexivity|].
  destruct (Hall r ltac:(left)) as [[H1 H2] _]. cbn in H2. lia.
Qed.

Lemma flattened_rows_are_well_filled_witness :
  match Flattener.flatten Samples.str Samples.float Samples.to_datetime
          Samples.profile Flattener.default_vars with
  | Ok rows => (forall r, r ∈ rows -> (5 < size r <= 7)%nat) /\ (length rows <= 2)%nat
  | Raise _ => False
  end.
Proof.
  destruct (Flattener.flatten Samples.str Samples.float Samples.to_datetime
              Samples.profile Flattener.default_vars) as [rows|e] eqn:Hrun.
  - destruct (flattened_rows_are_well_filled _ _ _ _ _ _ Hrun) as (Hrows & Hlen & _).
    split.
    + intros r Hr. apply (Hrows r Hr).
    + apply (Hlen 1%nat 2%nat); reflexivity.
  - vm_compute in Hrun. discriminate.
Defined.

(** ** Errors after a file is open, and the collected tables *)

Section EscapeFacts.

Import Flattener Loader.

Variable py_str : cell -> string.
Variable py_float : cell -> res float64.
Variable to_datetime : ndarray -> res (list timestamp).
Variable xr_decode : bytes -> res dataset.

(** Once the file is open, [process_nc_file] is the flattening, errors
    included. *)
Lemma process_opened (nc_path : string) (vars : list string) (w : world) (ds : dataset) :
  fst (open_dataset xr_decode nc_path w) = Ok ds ->
  process_nc_file py_str py_float to_datetime xr_decode nc_path vars w
  = (flatten py_str py_float to_datetime ds vars, w).
Proof.
  intros Hopen. unfold process_nc_file, mbind, try_except.
  pose proof (open_dataset_pure xr_decode nc_path w) as Hpure.
  destruct (open_dataset xr_decode nc_path w) as [[ds'|e] w0];
    cbn in Hpure, Hopen; subst w0; [|discriminate].
  now injection Hopen as ->.
Qed.

(** One step of the loop of lines 132-136 changes the console only. *)
Lemma collect_frame (fpath : string) (acc : list (list dict)) (w : world) :
  let w' := snd (collect py_str py_float to_datetime xr_decode fpath acc w) in
  fs w' = fs w /\ ftp_log w' = ftp_log w /\ db w' = db w.
Proof.
  unfold collect, mbind. cbn [print].
  set (w0 := mkworld (fs w) (stdout w ++ ["Processing: " +:+ fpath]) (ftp_log w) (db w)).
  pose proof (process_frame py_str py_float to_datetime xr_decode fpath default_vars w0)
    as Hframe.
  destruct (process_nc_file py_str py_float to_datetime xr_decode fpath default_vars w0)
    as [[df|e] w1]; cbn in Hframe |- *; [|exact Hframe].
  destruct df; exact Hframe.
Qed.

(** A file whose processing raises makes the loop raise. *)
Lemma all_rows_raises (files : list string) (bad : string) :
  bad ∈ files ->
  forall (acc : list (list dict)) (w : world),
    (forall w0, fs w0 = fs w ->
       exists e, fst (process_nc_file py_str py_float to_datetime xr_decode bad
                        default_vars w0) = Raise e) ->
    exists e w1,
      for_each files (collect py_str py_float to_datetime xr_decode) acc w = (Raise e, w1) /\
      fs w1 = fs w /\ ftp_log w1 = ftp_log w /\ db w1 = db w.
Proof.
  induction files as [|path files IH]; intros Hin acc w Hbad.
  - now apply elem_of_nil in Hin.
  - rewrite for_each_cons.
    pose proof (collect_frame path acc w) as Hframe.
    destruct (collect py_str py_float to_datetime xr_decode path acc w)
      as [[acc'|e] w1] eqn:Hc; cbn in Hframe.
    + apply elem_of_cons in Hin as [<-|Hin].
      * exfalso. revert Hc. unfold collect, mbind. cbn [print].
        set (w0 := mkworld (fs w) (stdout w ++ ["Processing: " +:+ bad])
                     (ftp_log w) (db w)).
        destruct (Hbad w0 eq_refl) as (e & He).
        destruct (process_nc_file py_str py_float to_datetime xr_decode bad
                    default_vars w0) as [[df|e'] w2]; cbn in He; [discriminate|].
        discriminate.
      * destruct Hframe as (Hfs & Hftp & Hdb).
        destruct (IH Hin acc' w1) as (e & w2 & Hrun & Hfs2 & Hftp2 & Hdb2).
        { intros w0 Hw0. apply Hbad. congruence. }
        exists e, w2. split; [exact Hrun|]. repeat split; congruence.
    + exists e, w1. split; [reflexivity|exact Hframe].
Qed.

(** The loop over files none of which raises. *)
Lemma all_rows_tables (tbl : string -> list dict) (files : list string) :
  forall (acc : list (list dict)) (w : world),
    (forall path w0, path ∈ files -> fs w0 = fs w ->
       fst (process_nc_file py_str py_float to_datetime xr_decode path default_vars w0)
       = Ok (tbl path)) ->
    exists w1,
      for_each files (collect py_str py_float to_datetime xr_decode) acc w =
        (Ok (acc ++ List.filter (fun df => negb (bool_decide (df = [])))
                      (map tbl files)), w1) /\
      fs w1 = fs w /\ ftp_log w1 = ftp_log w /\ db w1 = db w.
Proof.
  induction files as [|path files IH]; intros acc w Htbl.
  - exists w. cbn. rewrite app_nil_r. auto.
  - rewrite for_each_cons.
    pose proof (collect_frame path acc w) as Hframe.
    assert (Hstep : fst (collect py_str py_float to_datetime xr_decode path acc w)
                    = Ok (match tbl path with [] => acc | _ => acc ++ [tbl path] end)).
    { unfold collect, mbind. cbn [print].
      set (w0 := mkworld (fs w) (stdout w ++ ["Processing: " +:+ path])
                   (ftp_log w) (db w)).
      pose proof (Htbl path w0 ltac:(left) eq_refl) as Hp.
      destruct (process_nc_file py_str py_float to_datetime xr_decode path
                  default_vars w0) as [[df|e] w2]; cbn in Hp; [|discriminate].
      injection Hp as ->. now destruct (tbl path). }
    destruct (collect py_str py_float to_datetime xr_decode path acc w) as [r w1].
    cbn in Hstep, Hframe. subst r. destruct Hframe as (Hfs & Hftp & Hdb).
    destruct (IH (match tbl path with [] => acc | _ => acc ++ [tbl path] end) w1)
      as (w2 & Hrun & Hfs2 & Hftp2 & Hdb2).
    { intros p w0 Hp Hw0. apply Htbl; [now right|congruence]. }
    exists w2. split; [|repeat split; congruence].
    rewrite Hrun. f_equal. f_equal. cbn [map List.filter].
    destruct (tbl path) as [|d df]; [reflexivity|].
    cbn. now rewrite <- app_assoc.
Qed.

Lemma concat_filter_nonempty {A} (l : list (list A)) :
  concat (List.filter (fun df => negb (bool_decide (df = []))) l) = concat l.
Proof.
  induction l as [|df l IH]; [reflexivity|].
  cbn. destruct df as [|x df]; cbn; [exact IH|]. now rewrite IH.
Qed.

End EscapeFacts.

(** X10. Only the opening of a file is guarded. When the processing of
    one downloaded file raises (a missing array, an index out of range, a
    platform number with several entries), the error ends the run: the
    delimited file is not written, no local file changes and the database
    is not touched, whatever the other files hold. *)
Theorem flatten_error_aborts_run to_csv split_fields mysql
    py_str py_float to_datetime xr_decode (files : list string) (bad : string) (w : world) :
  bad ∈ files ->
  (forall w0, fs w0 = fs w ->
     exists e, fst (Flattener.process_nc_file py_str py_float to_datetime xr_decode bad
                      Flattener.default_vars w0) = Raise e) ->
  exists e w1,
    Loader.process_and_load to_csv split_fields mysql
      py_str py_float to_datetime xr_decode files w = (Raise e, w1) /\
    fs w1 = fs w /\ db w1 = db w.
Proof.
  intros Hin Hbad.
  destruct (all_rows_raises py_str py_float to_datetime xr_decode files bad Hin [] w Hbad)
    as (e & w1 & Hrun & Hfs & _ & Hdb).
  exists e, w1. unfold Loader.process_and_load, Loader.all_rows, mbind at 1.
  rewrite Hrun. auto.
Qed.

Lemma flatten_error_aborts_run_witness :
  exists e w1,
    Loader.process_and_load (fun _ => []) Samples.one_field Samples.healthy
      Samples.str Samples.float Samples.to_datetime (fun _ => Ok Samples.two_profiles)
      ["argo_data_downloads/R6902746_010.nc"] Samples.stocked = (Raise e, w1) /\
    fs w1 = fs Samples.stocked /\ db w1 = db Samples.stocked.
Proof.
  apply (flatten_error_aborts_run (fun _ => []) Samples.one_field Samples.healthy
           Samples.str Samples.float Samples.to_datetime (fun _ => Ok Samples.two_profiles)
           ["argo_data_downloads/R6902746_010.nc"] "argo_data_downloads/R6902746_010.nc"
           Samples.stocked).
  - left.
  - intros w0 Hfs. eexists.
    unfold Flattener.process_nc_file, mbind, try_except, Flattener.open_dataset.
    rewrite Hfs. vm_compute. reflexivity.
Defined.

(** X11. A file that opens but whose platform number is an array with
    no entry or with several entries makes [process_nc_file] raise the
    [ValueError] of [item()], for every list of requested variables; the
    error is not caught and nothing is printed. *)
Theorem several_platform_numbers_raise py_str py_float to_datetime xr_decode
    (nc_path : string) (vars : list string) (w : world)
    (ds : Flattener.dataset) (l : list Flattener.cell) :
  fst (Flattener.open_dataset xr_decode nc_path w) = Ok ds ->
  Flattener.variables ds !! "PLATFORM_NUMBER" = Some (Flattener.Vector l) ->
  length l <> 1%nat ->
  Flattener.process_nc_file py_str py_float to_datetime xr_decode nc_path vars w =
    (Raise (ValueError "can only convert an array of size 1 to a Python scalar"), w).
Proof.
  intros Hopen Hpn Hlen.
  rewrite (process_opened py_str py_float to_datetime xr_decode nc_path vars w ds Hopen).
  f_equal. unfold Flattener.flatten, Flattener.getitem. rewrite Hpn. cbn.
  destruct l as [|c [|c' l]]; try reflexivity. now destruct Hlen.
Qed.

Lemma several_platform_numbers_raise_witness :
  Flattener.process_nc_file Samples.str Samples.float Samples.to_datetime
    (fun _ => Ok Samples.two_profiles)
    "argo_data_downloads/R6902746_010.nc" Flattener.default_vars Samples.stocked =
    (Raise (ValueError "can only convert an array of size 1 to a Python scalar"),
     Samples.stocked).
Proof.
  apply (several_platform_numbers_raise Samples.str Samples.float Samples.to_datetime
           (fun _ => Ok Samples.two_profiles) "argo_data_downloads/R6902746_010.nc"
           Flattener.default_vars Samples.stocked Samples.two_profiles
           [Flattener.CBytes [Byte.x31; Byte.x39]; Flattener.CBytes [Byte.x31; Byte.x39]]).
  - vm_compute. reflexivity.
  - vm_compute. reflexivity.
  - cbn. lia.
Defined.

(** X12. When no downloaded file raises, the loop of lines 132-136
    collects, in the order of the file list, the non-empty tables of the
    files: the concatenation of what it collects is the concatenation of
    the tables of all files, no collected table is empty, and the loop
    changes neither local files nor tables. *)
Theorem collected_tables_concatenate py_str py_float to_datetime xr_decode
    (tbl : string -> list (gmap string Flattener.pyval)) (files : list string) (w : world) :
  (forall path w0, path ∈ files -> fs w0 = fs w ->
     fst (Flattener.process_nc_file py_str py_float to_datetime xr_decode path
            Flattener.default_vars w0) = Ok (tbl path)) ->
  exists rows w1,
    Loader.all_rows py_str py_float to_datetime xr_decode files w = (Ok rows, w1) /\
    concat rows = concat (map tbl files) /\
    (forall df, df ∈ rows -> df <> []) /\
    sublist rows (map tbl files) /\
    fs w1 = fs w /\ db w1 = db w.
Proof.
  intros Htbl.
  destruct (all_rows_tables py_str py_float to_datetime xr_decode tbl files [] w Htbl)
    as (w1 & Hrun & Hfs & _ & Hdb).
  eexists _, w1. unfold Loader.all_rows. rewrite Hrun. cbn [app].
  split; [reflexivity|]. split; [apply concat_filter_nonempty|].
  split; [|split; [|auto]].
  - intros df Hdf. apply list_elem_of_In, filter_In in Hdf as [_ Hdf].
    intros ->. discriminate.
  - clear. induction (map tbl files) as [|df l IH]; [constructor|].
    cbn. destruct (negb (bool_decide (df = []))); now constructor.
Qed.

Lemma collected_tables_concatenate_witness :
  exists rows w1,
    Loader.all_rows Samples.str Samples.float Samples.to_datetime Samples.decode
      ["argo_data_downloads/R6902746_010.nc"; "argo_data_downloads/R1901234_001.nc"]
      Samples.mixed = (Ok rows, w1) /\
    length (concat rows) = 1%nat /\
    (forall df, df ∈ rows -> df <> []) /\
    fs w1 = fs Samples.mixed.
Proof.
  destruct (collected_tables_concatenate Samples.str Samples.float Samples.to_datetime
              Samples.decode Samples.table_of
              ["argo_data_downloads/R6902746_010.nc"; "argo_data_downloads/R1901234_001.nc"]
              Samples.mixed) as (rows & w1 & Hrun & Hcat & Hfull & _ & Hfs & _).
  - intros path w0 Hpath Hfs. apply list_elem_of_In in Hpath.
    destruct Hpath as [<-|[<-|[]]];
      unfold Flattener.process_nc_file, mbind, try_except, Flattener.open_dataset;
      rewrite Hfs; vm_compute; reflexivity.
  - exists rows, w1. split; [exact Hrun|]. split; [|split; [exact Hfull|exact Hfs]].
    rewrite Hcat. vm_compute. reflexivity.
Defined.

(** ** The loader under failures of the database *)

(** Closes the goals of the case analysis of a loader run after the
    connection was opened. *)
Ltac closing Hother :=
  eexists; (split; [reflexivity|]); cbn;
  split; [reflexivity|]; split; [reflexivity|];
  split; [intros name Hne;
          try match goal with H : _ !! Loader.table_name = _ |- _ => rewrite ?H end;
          rewrite ?Hother by exact Hne; reflexivity|];
  split; [|discriminate];
  split;
    [first [intros _; split; reflexivity
           |rewrite last_snoc; intros [=]]
    |first [intros _; apply last_snoc
           |intros [_ Hping]; discriminate Hping]].

Section FaultFacts.

Import Loader.

Variable split_fields : bytes -> list bytes.
Variable mysql : sql_step -> option string.

(** Every run of the loader returns normally; it changes no local file
    and no table but [argo_profiles], and the closing line is the last
    line printed exactly when the connection was made and still answers
    at the end. *)
Lemma load_frame (w : world) :
  exists w1,
    load_into_mysql split_fields mysql w = (Ok tt, w1) /\
    fs w1 = fs w /\ ftp_log w1 = ftp_log w /\
    (forall name, name <> table_name -> db w1 !! name = db w !! name) /\
    (last (stdout w1) = Some "MySQL connection closed." <->
     mysql Connect = None /\ mysql IsConnected = None) /\
    (forall msg, mysql Connect = Some msg ->
       db w1 = db w /\ stdout w1 = stdout w ++ [error_line msg]).
Proof.
  assert (Hother : forall (t : table) (d : gmap string table) name,
            name <> table_name -> <[table_name := t]> d !! name = d !! name).
  { intros t d name Hne. now rewrite lookup_insert_ne. }
  unfold load_into_mysql, close_if_connected, create_table, truncate_table, load_data,
    commit, step, mbind, raise, ret, error_line.
  destruct (mysql Connect) as [m0|].
  { eexists. split; [reflexivity|]. cbn.
    split; [reflexivity|]. split; [reflexivity|]. split; [reflexivity|].
    split; [|intros msg [= ->]; split; reflexivity].
    split; [rewrite last_snoc; intros [=]|intros [H _]; discriminate H]. }
  destruct (mysql IsConnected) as [ping|];
  (destruct (mysql CreateTable) as [m1|]; cbn; [closing Hother|]);
  destruct (db w !! table_name) as [t|] eqn:Ht; cbn; rewrite ?Ht;
    (destruct (mysql Truncate) as [m2|]; cbn; rewrite ?Ht, ?lookup_insert_eq; cbn;
     [closing Hother|]);
    (destruct (mysql LoadData) as [m3|]; cbn; [closing Hother|]);
    rewrite ?lookup_insert_eq;
    (destruct (fs w !! csv_path) as [[content|]|]; cbn; try closing Hother);
    destruct (mysql Commit) as [m4|]; cbn; closing Hother.
Qed.

End FaultFacts.

(** X13. The loader returns normally, whichever of its statements the
    database refuses: it changes no local file and no table other than
    [argo_profiles]. The last line it prints is "MySQL connection closed."
    exactly when the connection was made and still answers when the
    [finally] block asks; a connection lost on the way is not closed and
    no closing line is printed. When the connection cannot be made the
    database is left as it was and the error is the only line printed. *)
Theorem loader_never_raises split_fields mysql (w : world) :
  exists w1,
    Loader.load_into_mysql split_fields mysql w = (Ok tt, w1) /\
    fs w1 = fs w /\
    (forall name, name <> Loader.table_name -> db w1 !! name = db w !! name) /\
    (last (stdout w1) = Some "MySQL connection closed." <->
     mysql Loader.Connect = None /\ mysql Loader.IsConnected = None) /\
    (forall msg, mysql Loader.Connect = Some msg ->
       db w1 = db w /\
       stdout w1 = stdout w
                   ++ ["Error connecting to or loading data into MySQL: " +:+ msg]).
Proof.
  destruct (load_frame split_fields mysql w)
    as (w1 & Hrun & Hfs & _ & Hdb & Hclose & Herr).
  exists w1. split; [exact Hrun|]. split; [exact Hfs|]. split; [exact Hdb|].
  split; [exact Hclose|exact Herr].
Qed.

Section TruncatedFacts.

Import Loader.

Variable split_fields : bytes -> list bytes.
Variable mysql : sql_step -> option string.
Hypothesis connects : mysql Connect = None.
Hypothesis creates : mysql CreateTable = None.
Hypothesis truncates : mysql Truncate = None.

(** A run that fails after the table was emptied. *)
Lemma load_fails_after_truncate (w : world) :
  (exists m, mysql LoadData = Some m) \/
  (forall content, fs w !! csv_path <> Some (File content)) \/
  (exists m, mysql Commit = Some m) ->
  exists w1 msg,
    load_into_mysql split_fields mysql w = (Ok tt, w1) /\
    db w1 = <[table_name := mktable [] 1]> (db w) /\
    stdout w1 = stdout w
                ++ ["Cleared existing data from argo_profiles table."; error_line msg]
                ++ match mysql IsConnected with
                   | None => ["MySQL connection closed."]
                   | Some _ => []
                   end.
Proof.
  intros Hfail.
  unfold load_into_mysql, close_if_connected, create_table, truncate_table, load_data,
    commit, step, mbind, raise, ret, error_line.
  rewrite connects, creates. cbn. rewrite truncates. cbn.
  assert (Hdb : <[table_name := mktable [] 1]>
                  (match db w !! table_name with
                   | Some _ => db w
                   | None => <[table_name := mktable [] 1]> (db w)
                   end) = <[table_name := mktable [] 1]> (db w)).
  { destruct (db w !! table_name); [reflexivity|apply insert_insert_eq]. }
  assert (Hlook : match db w !! table_name with
                  | Some _ => db w
                  | None => <[table_name := mktable [] 1]> (db w)
                  end !! table_name <> None).
  { destruct (db w !! table_name) eqn:Ht; [congruence|].
    rewrite lookup_insert_eq. discriminate. }
  destruct (match db w !! table_name with
            | Some _ => db w
            | None => <[table_name := mktable [] 1]> (db w)
            end !! table_name) as [t0|]; [clear Hlook|congruence]. cbn.
  destruct (mysql LoadData) as [m3|] eqn:Hload; cbn.
  { destruct (mysql IsConnected); eexists _, m3; (split; [reflexivity|]); cbn;
      (split; [exact Hdb|]); now rewrite <- !app_assoc. }
  rewrite lookup_insert_eq.
  destruct (fs w !! csv_path) as [[content|]|] eqn:Hfile; cbn;
    try (destruct (mysql IsConnected); eexists _, "File not found";
         (split; [reflexivity|]); cbn;
         (split; [exact Hdb|]); now rewrite <- !app_assoc).
  destruct (mysql Commit) as [m4|] eqn:Hcommit; cbn.
  { destruct (mysql IsConnected); eexists _, m4; (split; [reflexivity|]); cbn;
      (split; [exact Hdb|]); now rewrite <- !app_assoc. }
  exfalso. destruct Hfail as [[m Hm]|[Hno|[m Hm]]]; try discriminate.
  now apply (Hno content).
Qed.

End TruncatedFacts.

(** X14. There is no roll-back to the earlier rows. When the connection,
    the creation of the table and the truncation succeed but the bulk
    load or the commit fails, or the delimited file is missing, the run
    still returns normally and prints the error, and leaves
    [argo_profiles] empty with its identifier counter at 1, whatever it
    held before. The closing line follows the error exactly when the
    connection still answers; otherwise the error is the last line. *)
Theorem failed_load_leaves_table_empty split_fields mysql (w : world) :
  mysql Loader.Connect = None ->
  mysql Loader.CreateTable = None ->
  mysql Loader.Truncate = None ->
  (exists m, mysql Loader.LoadData = Some m) \/
  (forall content, fs w !! Loader.csv_path <> Some (File content)) \/
  (exists m, mysql Loader.Commit = Some m) ->
  exists w1 msg,
    Loader.load_into_mysql split_fields mysql w = (Ok tt, w1) /\
    db w1 !! Loader.table_name = Some (mktable [] 1) /\
    stdout w1 = stdout w
                ++ ["Cleared existing data from argo_profiles table.";
                    "Error connecting to or loading data into MySQL: " +:+ msg]
                ++ match mysql Loader.IsConnected with
                   | None => ["MySQL connection closed."]
                   | Some _ => []
                   end.
Proof.
  intros Hc Hcr Htr Hfail.
  destruct (load_fails_after_truncate split_fields mysql Hc Hcr Htr w Hfail)
    as (w1 & msg & Hrun & Hdb & Hout).
  exists w1, msg. rewrite Hrun, Hdb, lookup_insert_eq. auto.
Qed.

Lemma failed_load_leaves_table_empty_witness :
  (exists w1 msg,
     Loader.load_into_mysql Samples.one_field
       (fun s => match s with Loader.LoadData => Some "Access denied" | _ => None end)
       Samples.reloaded = (Ok tt, w1) /\
     db w1 !! "argo_profiles" = Some (mktable [] 1) /\
     stdout w1 = ["Cleared existing data from argo_profiles table.";
                  "Error connecting to or loading data into MySQL: " +:+ msg;
                  "MySQL connection closed."]) /\
  (exists w1 msg,
     Loader.load_into_mysql Samples.one_field
       (fun s => match s with
                 | Loader.LoadData | Loader.IsConnected => Some "server has gone away"
                 | _ => None
                 end)
       Samples.reloaded = (Ok tt, w1) /\
     db w1 !! "argo_profiles" = Some (mktable [] 1) /\
     stdout w1 = ["Cleared existing data from argo_profiles table.";
                  "Error connecting to or loading data into MySQL: " +:+ msg]).
Proof.
  split.
  - apply (failed_load_leaves_table_empty Samples.one_field
             (fun s => match s with
                       | Loader.LoadData => Some "Access denied"
                       | _ => None
                       end) Samples.reloaded eq_refl eq_refl eq_refl).
    left. now exists "Access denied".
  - apply (failed_load_leaves_table_empty Samples.one_field
             (fun s => match s with
                       | Loader.LoadData | Loader.IsConnected => Some "server has gone away"
                       | _ => None
                       end) Samples.reloaded eq_refl eq_refl eq_refl).
    left. now exists "server has gone away".
Defined.

(** ** The rows of a successful load *)

Lemma numbered_lookup (tuples : list (list bytes)) :
  forall (next : Z) (i : nat),
    Loader.numbered next tuples !! i
    = (fun t => (next + Z.of_nat i, t)) <$> tuples !! i.
Proof.
  induction tuples as [|t tuples IH]; intros next i; [now destruct i|].
  destruct i as [|i]; cbn.
  - now rewrite Z.add_0_r.
  - rewrite IH. destruct (tuples !! i); cbn; [|reflexivity].
    do 2 f_equal. lia.
Qed.

(** X15. After a run against a database that raises no error, the row
    at position [i] of [argo_profiles] has the identifier [i + 1] and the
    fields of line [i + 1] of the delimited file, counting lines from 0:
    the header line is skipped, the order of the file is kept and the
    identifiers are consecutive from 1. *)
Theorem loaded_rows_follow_the_file split_fields mysql (w : world) (content : bytes) :
  (forall s, mysql s = None) ->
  fs w !! Loader.csv_path = Some (File content) ->
  exists w1 t,
    Loader.load_into_mysql split_fields mysql w = (Ok tt, w1) /\
    db w1 !! Loader.table_name = Some t /\
    length (trows t) = (length (Loader.split_lines [] content) - 1)%nat /\
    auto_increment t = 1 + Z.of_nat (length (trows t)) /\
    forall (i : nat) (line : bytes),
      Loader.split_lines [] content !! S i = Some line ->
      trows t !! i = Some (1 + Z.of_nat i, split_fields line).
Proof.
  intros Hhealthy Hfile.
  destruct (load_replaces split_fields mysql Hhealthy w content Hfile)
    as (w1 & Hrun & Hdb & _).
  eexists w1, _. split; [exact Hrun|].
  split; [rewrite Hdb; apply lookup_insert_eq|]. cbn [trows auto_increment].
  assert (Hlen : length (Loader.numbered 1 (Loader.file_rows split_fields content))
                 = (length (Loader.split_lines [] content) - 1)%nat).
  { rewrite numbered_length. unfold Loader.file_rows.
    rewrite length_map. destruct (Loader.split_lines [] content); cbn; lia. }
  split; [exact Hlen|]. split.
  - now rewrite numbered_length.
  - intros i line Hline. rewrite numbered_lookup. unfold Loader.file_rows.
    rewrite list_lookup_fmap.
    replace (tail (Loader.split_lines [] content) !! i) with (Some line); [reflexivity|].
    now destruct (Loader.split_lines [] content).
Qed.

Lemma loaded_rows_follow_the_file_witness :
  exists w1 t,
    Loader.load_into_mysql Samples.one_field Samples.healthy Samples.reloaded = (Ok tt, w1) /\
    db w1 !! "argo_profiles" = Some t /\
    trows t !! 1%nat = Some (2, [[Byte.x62]]).
Proof.
  destruct (loaded_rows_follow_the_file Samples.one_field Samples.healthy Samples.reloaded
              [Byte.x68; Byte.x0a; Byte.x61; Byte.x0a; Byte.x62; Byte.x0a])
    as (w1 & t & Hrun & Hdb & _ & _ & Hrow).
  - reflexivity.
  - vm_compute. reflexivity.
  - exists w1, t. split; [exact Hrun|]. split; [exact Hdb|].
    apply (Hrow 1%nat [Byte.x62]). vm_compute. reflexivity.
Defined.

(** ** Renaming the columns *)

(** X16. For a record without entries "temperature" and "salinity", the
    renaming moves the value of "temp" to "temperature" and that of "psal"
    to "salinity", leaves no entry "temp" or "psal", changes no other
    entry, and keeps the number of entries. *)
Theorem rename_moves_values (r : gmap string Flattener.pyval) :
  r !! "temperature" = None ->
  r !! "salinity" = None ->
  let r' := Loader.rename_columns r in
  r' !! "temperature" = r !! "temp" /\
  r' !! "salinity" = r !! "psal" /\
  r' !! "temp" = None /\
  r' !! "psal" = None /\
  (forall k, k <> "temp" -> k <> "psal" -> k <> "temperature" -> k <> "salinity" ->
             r' !! k = r !! k) /\
  size r' = size r.
Proof.
  intros Ht Hs r'. subst r'. unfold Loader.rename_columns, Loader.rename_key.
  destruct (r !! "temp") as [vt|] eqn:Htemp.
  - rewrite lookup_insert_ne, lookup_delete_ne by discriminate.
    destruct (r !! "psal") as [vs|] eqn:Hpsal.
    + repeat split.
      * rewrite lookup_insert_ne, lookup_delete_ne by discriminate.
        apply lookup_insert_eq.
      * apply lookup_insert_eq.
      * rewrite lookup_insert_ne, lookup_delete_ne, lookup_insert_ne by discriminate.
        apply lookup_delete_eq.
      * rewrite lookup_insert_ne by discriminate. apply lookup_delete_eq.
      * intros k H1 H2 H3 H4.
        now rewrite lookup_insert_ne, lookup_delete_ne, lookup_insert_ne,
          lookup_delete_ne by congruence.
      * rewrite map_size_insert_None.
        2:{ rewrite lookup_delete_ne, lookup_insert_ne, lookup_delete_ne by discriminate.
            exact Hs. }
        rewrite map_size_delete.
        rewrite lookup_insert_ne, lookup_delete_ne, Hpsal by discriminate.
        rewrite map_size_insert_None by (rewrite lookup_delete_ne by discriminate; exact Ht).
        rewrite map_size_delete, Htemp.
        assert (0 < size r)%nat.
        { apply Nat.neq_0_lt_0. intros H0. apply map_size_empty_inv in H0. subst r.
          discriminate. }
        cbn. lia.
    + repeat split.
      * apply lookup_insert_eq.
      * rewrite lookup_insert_ne, lookup_delete_ne by discriminate. congruence.
      * rewrite lookup_insert_ne by discriminate. apply lookup_delete_eq.
      * now rewrite lookup_insert_ne, lookup_delete_ne by discriminate.
      * intros k H1 H2 H3 H4.
        now rewrite lookup_insert_ne, lookup_delete_ne by congruence.
      * rewrite map_size_insert_None by (rewrite lookup_delete_ne by discriminate; exact Ht).
        rewrite map_size_delete, Htemp.
        assert (0 < size r)%nat.
        { apply Nat.neq_0_lt_0. intros H0. apply map_size_empty_inv in H0. subst r.
          discriminate. }
        cbn. lia.
  - destruct (r !! "psal") as [vs|] eqn:Hpsal.
    + repeat split.
      * rewrite lookup_insert_ne, lookup_delete_ne by discriminate. congruence.
      * apply lookup_insert_eq.
      * rewrite lookup_insert_ne, lookup_delete_ne by discriminate. exact Htemp.
      * rewrite lookup_insert_ne by discriminate. apply lookup_delete_eq.
      * intros k H1 H2 H3 H4.
        now rewrite lookup_insert_ne, lookup_delete_ne by congruence.
      * rewrite map_size_insert_None by (rewrite lookup_delete_ne by discriminate; exact Hs).
        rewrite map_size_delete, Hpsal.
        assert (0 < size r)%nat.
        { apply Nat.neq_0_lt_0. intros H0. apply map_size_empty_inv in H0. subst r.
          discriminate. }
        cbn. lia.
    + repeat split; auto; congruence.
Qed.

Lemma rename_moves_values_witness :
  let r : gmap string Flattener.pyval :=
    <["temp" := Flattener.PFloat (Fin 28)]> (<["depth" := Flattener.PFloat (Fin 5)]> ∅) in
  Loader.rename_columns r !! "temperature" = Some (Flattener.PFloat (Fin 28)) /\
  Loader.rename_columns r !! "temp" = None /\
  size (Loader.rename_columns r) = 2%nat.
Proof.
  intros r.
  destruct (rename_moves_values r eq_refl eq_refl) as (Ht & _ & Hgone & _ & _ & Hsize).
  split; [rewrite Ht; reflexivity|]. split; [exact Hgone|].
  rewrite Hsize. reflexivity.
Defined.

(** ** From the collected tables to the loaded table *)

(** X17. When the loop over the downloaded files has collected at least
    one table and the database raises no error, the script writes the
    delimited file from the concatenated tables with their columns
    renamed, and [argo_profiles] ends up with the rows read back from
    exactly that file, numbered from 1. *)
Theorem collected_tables_are_loaded to_csv split_fields mysql
    py_str py_float to_datetime xr_decode (files : list string) (w w0 : world)
    (rows : list (list (gmap string Flattener.pyval))) :
  Loader.all_rows py_str py_float to_datetime xr_decode files w = (Ok rows, w0) ->
  rows <> [] ->
  (forall s, mysql s = None) ->
  let content := to_csv (map Loader.rename_columns (concat rows)) in
  exists w1,
    Loader.process_and_load to_csv split_fields mysql
      py_str py_float to_datetime xr_decode files w = (Ok tt, w1) /\
    fs w1 = <[Loader.csv_path := File content]> (fs w0) /\
    db w1 !! Loader.table_name =
      Some (mktable (Loader.numbered 1 (Loader.file_rows split_fields content))
                    (1 + Z.of_nat (length (Loader.file_rows split_fields content)))).
Proof.
  intros Hrun Hne Hhealthy content.
  unfold Loader.process_and_load, mbind at 1. rewrite Hrun.
  destruct rows as [|df rows]; [contradiction|].
  unfold mbind, print, Loader.write_file. cbn -[Loader.load_into_mysql concat].
  match goal with
  | |- context [Loader.load_into_mysql _ _ ?w'] =>
      destruct (load_replaces split_fields mysql Hhealthy w' content)
        as (w1 & Hload & Hdb & Hfs)
  end.
  { cbn. apply lookup_insert_eq. }
  exists w1. split; [exact Hload|]. split; [exact Hfs|].
  rewrite Hdb. apply lookup_insert_eq.
Qed.

Lemma collected_tables_are_loaded_witness :
  let w := mkworld (<["argo_data_downloads/R1.nc" := File [Byte.x43]]> ∅) [] [] ∅ in
  match Loader.all_rows Samples.str Samples.float Samples.to_datetime Samples.decode
          ["argo_data_downloads/R1.nc"] w with
  | (Ok rows, w0) =>
      exists w1,
        Loader.process_and_load (fun _ => [Byte.x68; Byte.x0a; Byte.x61; Byte.x0a])
          Samples.one_field Samples.healthy
          Samples.str Samples.float Samples.to_datetime Samples.decode
          ["argo_data_downloads/R1.nc"] w = (Ok tt, w1) /\
        db w1 !! "argo_profiles" = Some (mktable [(1, [[Byte.x61]])] 2)
  | (Raise _, _) => False
  end.
Proof.
  intros w.
  destruct (Loader.all_rows Samples.str Samples.float Samples.to_datetime Samples.decode
              ["argo_data_downloads/R1.nc"] w) as [[rows|e] w0] eqn:Hrun.
  - destruct (collected_tables_are_loaded
                (fun _ => [Byte.x68; Byte.x0a; Byte.x61; Byte.x0a])
                Samples.one_field Samples.healthy
                Samples.str Samples.float Samples.to_datetime Samples.decode
                ["argo_data_downloads/R1.nc"] w w0 rows Hrun)
      as (w1 & Hload & _ & Hdb).
    + intros ->. vm_compute in Hrun. discriminate.
    + reflexivity.
    + exists w1. split; [exact Hload|].
      refine (eq_trans Hdb _). vm_compute. reflexivity.
  - vm_compute in Hrun. discriminate.
Defined.

(** ** The script as a whole *)

Section MainFacts.

Variable server : ftp_request -> ftp_reply.
Variable read_index : res (list Catalog.row).
Variable parse_dates : list Catalog.row -> res (list Catalog.row).
Variable to_csv : list Flattener.dict -> bytes.
Variable split_fields : bytes -> list bytes.
Variable mysql : Loader.sql_step -> option string.
Variable py_str : Flattener.cell -> string.
Variable py_float : Flattener.cell -> res float64.
Variable to_datetime : Flattener.ndarray -> res (list timestamp).
Variable xr_decode : bytes -> res Flattener.dataset.

(** Creating the download folder, when no file is in its place. *)
Lemma makedirs_folder (w : world) :
  (forall content, fs w !! Retriever.download_folder <> Some (File content)) ->
  exists w0,
    Script.makedirs Retriever.download_folder w = (Ok tt, w0) /\
    stdout w0 = stdout w /\ ftp_log w0 = ftp_log w /\ db w0 = db w /\
    fs w0 !! Retriever.download_folder = Some Dir /\
    forall p, p <> Retriever.download_folder -> fs w0 !! p = fs w !! p.
Proof.
  intros Hfree. unfold Script.makedirs.
  destruct (fs w !! Retriever.download_folder) as [[c|]|] eqn:Hf.
  - now destruct (Hfree c).
  - exists w. repeat split; auto.
  - eexists. split; [reflexivity|]. cbn. repeat split; auto.
    + apply lookup_insert_eq.
    + intros p Hp. now rewrite lookup_insert_ne.
Qed.

Lemma main_index_failure (w : world) (e : exn) :
  (forall content, fs w !! Retriever.download_folder <> Some (File content)) ->
  read_index = Raise e -> e <> SystemExit ->
  exists w1,
    Script.main server read_index parse_dates to_csv split_fields mysql
      py_str py_float to_datetime xr_decode w = (Raise SystemExit, w1) /\
    last (stdout w1)
      = Some ("An error occurred during FTP index download: " +:+ exn_text e) /\
    ftp_log w1 = ftp_log w /\ db w1 = db w /\
    forall p, p <> Retriever.download_folder -> fs w1 !! p = fs w !! p.
Proof.
  intros Hfree Hread Hexit.
  destruct (makedirs_folder w Hfree) as (w0 & Hmk & Hout & Hftp & Hdb & _ & Hfs).
  unfold Script.main, mbind at 1. rewrite Hmk.
  unfold mbind, try_except, lift, print, raise. rewrite Hread.
  destruct e; try congruence; cbn;
    (eexists; split; [reflexivity|]); cbn;
    (split; [apply last_snoc|]); auto.
Qed.

Lemma main_nothing_selected (w : world) (df df' : list Catalog.row) :
  (forall content, fs w !! Retriever.download_folder <> Some (File content)) ->
  read_index = Ok df -> parse_dates df = Ok df' ->
  (forall r, r ∈ df' ->
     ~ Catalog.in_window Catalog.lat_min Catalog.lat_max Catalog.lon_min Catalog.lon_max
         (mkdatetime 2023 3 1 0 0 0) (mkdatetime 2023 3 31 0 0 0) r) ->
  exists w1,
    Script.main server read_index parse_dates to_csv split_fields mysql
      py_str py_float to_datetime xr_decode w = (Raise SystemExit, w1) /\
    last (stdout w1) = Some "No data was successfully processed. Exiting." /\
    ftp_log w1 = ftp_log w /\ db w1 = db w /\
    forall p, p <> Retriever.download_folder -> fs w1 !! p = fs w !! p.
Proof.
  intros Hfree Hread Hdates Hnone.
  destruct (makedirs_folder w Hfree) as (w0 & Hmk & Hout & Hftp & Hdb & _ & Hfs).
  assert (Hfil : Catalog.filtered df' = Ok []).
  { unfold Catalog.filtered.
    change (Catalog.parse_date Catalog.start_date)
      with (Some (mkdatetime 2023 3 1 0 0 0)).
    change (Catalog.parse_date Catalog.end_date)
      with (Some (mkdatetime 2023 3 31 0 0 0)).
    cbv beta iota. now rewrite (select_nothing _ _ _ _ _ _ df' Hnone). }
  unfold Script.main, mbind, try_except, lift, print, raise.
  rewrite Hmk. cbv beta iota. rewrite Hread. cbv beta iota.
  rewrite Hdates. cbv beta iota. rewrite Hfil. cbv beta iota.
  cbn. eexists. split; [reflexivity|]. cbn.
  split; [apply last_snoc|]. auto.
Qed.

End MainFacts.

(** X18. When the catalog cannot be fetched or read, the script prints
    "An error occurred during FTP index download" with the error and
    exits: no profile file is requested, no table is touched, and no local
    path other than the download folder changes. *)
Theorem index_failure_exits server read_index parse_dates to_csv split_fields mysql
    py_str py_float to_datetime xr_decode (w : world) (e : exn) :
  (forall content, fs w !! Retriever.download_folder <> Some (File content)) ->
  read_index = Raise e ->
  e <> SystemExit ->
  exists w1,
    Script.main server read_index parse_dates to_csv split_fields mysql
      py_str py_float to_datetime xr_decode w = (Raise SystemExit, w1) /\
    last (stdout w1)
      = Some ("An error occurred during FTP index download: " +:+ exn_text e) /\
    ftp_log w1 = ftp_log w /\ db w1 = db w /\
    forall p, p <> Retriever.download_folder -> fs w1 !! p = fs w !! p.
Proof. apply main_index_failure. Qed.

Lemma index_failure_exits_witness :
  exists w1,
    Script.main Samples.flaky (Raise (FtpError "timed out")) (fun df => Ok df)
      (fun _ => []) Samples.one_field Samples.healthy
      Samples.str Samples.float Samples.to_datetime Samples.decode Samples.empty_world
      = (Raise SystemExit, w1) /\
    last (stdout w1) = Some "An error occurred during FTP index download: timed out" /\
    ftp_log w1 = [] /\ db w1 = ∅.
Proof.
  destruct (index_failure_exits Samples.flaky (Raise (FtpError "timed out"))
              (fun df => Ok df) (fun _ => []) Samples.one_field Samples.healthy
              Samples.str Samples.float Samples.to_datetime Samples.decode
              Samples.empty_world (FtpError "timed out"))
    as (w1 & Hrun & Hlast & Hftp & Hdb & _).
  - intros content. vm_compute. discriminate.
  - reflexivity.
  - discriminate.
  - exists w1. repeat split; assumption.
Defined.

(** X19. When the catalog is read but none of its rows lies in the
    window of the script, nothing is requested from the file server, the
    script prints "No data was successfully processed. Exiting." and
    exits; no table is touched and no local path other than the download
    folder changes. *)
Theorem nothing_selected_exits server read_index parse_dates to_csv split_fields mysql
    py_str py_float to_datetime xr_decode (w : world) (df df' : list Catalog.row) :
  (forall content, fs w !! Retriever.download_folder <> Some (File content)) ->
  read_index = Ok df ->
  parse_dates df = Ok df' ->
  (forall r, r ∈ df' ->
     ~ Catalog.in_window Catalog.lat_min Catalog.lat_max Catalog.lon_min Catalog.lon_max
         (mkdatetime 2023 3 1 0 0 0) (mkdatetime 2023 3 31 0 0 0) r) ->
  exists w1,
    Script.main server read_index parse_dates to_csv split_fields mysql
      py_str py_float to_datetime xr_decode w = (Raise SystemExit, w1) /\
    last (stdout w1) = Some "No data was successfully processed. Exiting." /\
    ftp_log w1 = ftp_log w /\ db w1 = db w /\
    forall p, p <> Retriever.download_folder -> fs w1 !! p = fs w !! p.
Proof. apply main_nothing_selected. Qed.

Lemma nothing_selected_exits_witness :
  exists w1,
    Script.main Samples.flaky (Ok [Samples.north]) (fun df => Ok df)
      (fun _ => []) Samples.one_field Samples.healthy
      Samples.str Samples.float Samples.to_datetime Samples.decode Samples.empty_world
      = (Raise SystemExit, w1) /\
    last (stdout w1) = Some "No data was successfully processed. Exiting." /\
    ftp_log w1 = [] /\ db w1 = ∅.
Proof.
  destruct (nothing_selected_exits Samples.flaky (Ok [Samples.north]) (fun df => Ok df)
              (fun _ => []) Samples.one_field Samples.healthy
              Samples.str Samples.float Samples.to_datetime Samples.decode
              Samples.empty_world [Samples.north] [Samples.north])
    as (w1 & Hrun & Hlast & Hftp & Hdb & _).
  - intros content. vm_compute. discriminate.
  - reflexivity.
  - reflexivity.
  - intros r Hr. apply list_elem_of_In in Hr. destruct Hr as [<-|[]].
    intros [[_ H] _]. vm_compute in H. apply H. reflexivity.
  - exists w1. repeat split; assumption.
Defined.

(** ** A second run after a complete first run *)




(** ** What the page of the query front-end can show *)

